(** * NTHA map assistant: geometry, normalisers, caches and resolvers

    A shallow embedding of the tool-result pipeline of the repository
    (services/nominatim, services/foursquare, the Foursquare chained
    resolver, lib/tools/nominatim.ts and lib/tools/tripadvisor.ts) and
    of what the map component does with a result, together with the
    properties its specification states about it and further properties
    read off the code.

    Numbers.  The centroid utilities are embedded twice.  In
    [Doubles] a JavaScript number is an IEEE-754 double (a primitive
    float), every operation rounded as the code rounds it; the
    statements about the values the centroid functions compute are
    made there.  Elsewhere a number is an exact rational ([Qc],
    canonical fractions, so that [=] is Leibniz equality): that
    embedding carries the statements that depend only on which branch
    yields a result and on which coordinates are read, and the times,
    limits and ratings, which the code only compares, or adds as
    integers.

    Strings.  A JavaScript string is a [string] of code units.  The
    builtins [trim] and [toLowerCase] belong to the runtime and nothing
    is assumed about them; the worked examples run with concrete ones.

    The map library.  maplibre-gl is not part of the repository: which
    positions its [LngLat] accepts is a parameter of the map model.

    Geometries.  A geometry is a value of the GeoJSON type the code
    declares, its positions pairs of numbers.  On such values
    [geometryCentroid] throws nothing, and [centroid] throws only on
    the kinds made of points and lines, where its catch answers null.

    Effects.  The module-level caches, [Date.now()], the network and
    the pauses are explicit: a function takes the cache and the world
    it runs in and returns its result with the cache afterwards and the
    events it caused.  A tool call runs without interleaving. *)

From Stdlib Require Import Ascii String.
From Stdlib Require Import List Sorted ZArith QArith Qcanon Qround Bool Lia.
From Stdlib Require Qcabs.
From Stdlib Require Floats Uint63.
Import ListNotations.

Set Implicit Arguments.

Local Open Scope Qc_scope.

(** ** Numbers *)

Module Num.

Abbreviation num := Qc (only parsing).

Definition of_Z (z : Z) : num := Q2Qc (inject_Z z).
Definition of_nat (n : nat) : num := of_Z (Z.of_nat n).

Definition two : num := of_Z 2.
Definition three : num := of_Z 3.

(** [Math.abs] *)
Definition abs (a : num) : num := Qcabs.Qcabs a.

(** [a === b] on numbers. *)
Definition eqb (a b : num) : bool := Qeq_bool a b.

(** [a > b] and [a >= b] on numbers. *)
Definition gtb (a b : num) : bool := negb (Qle_bool a b).
Definition geb (a b : num) : bool := Qle_bool b a.

End Num.

Import Num.

(** ** GeoJSON geometries (package "geojson") *)

Definition Position : Type := (num * num)%type.

#[warnings="-register-all"]
Inductive Geometry : Type :=
| Point (coordinates : Position)
| MultiPoint (coordinates : list Position)
| LineString (coordinates : list Position)
| MultiLineString (coordinates : list (list Position))
| Polygon (coordinates : list (list Position))
| MultiPolygon (coordinates : list (list (list Position)))
| GeometryCollection (geometries : list Geometry).

Definition origin : Position := (0, 0).

(** [first[0] === last[0] && first[1] === last[1]] *)
Definition pos_eqb (p q : Position) : bool :=
  eqb (fst p) (fst q) && eqb (snd p) (snd q).

(** [pts.reduce(([ax, ay], [x, y]) => [ax + x, ay + y], [0, 0])] *)
Definition sum_positions (pts : list Position) : Position :=
  fold_left (fun acc p => (fst acc + fst p, snd acc + snd p)) pts origin.

(** [[sx / pts.length, sy / pts.length]] *)
Definition average (pts : list Position) : Position :=
  let s := sum_positions pts in
  (fst s / of_nat (length pts), snd s / of_nat (length pts)).

(** The three running sums of a shoelace loop: area term, x numerator,
    y numerator. *)
Record Shoelace : Type := mkShoelace { sl_a : num; sl_cx : num; sl_cy : num }.

Definition shoelace0 : Shoelace := mkShoelace 0 0 0.

(** One loop body, shared in shape by both implementations:
    [cross = x1*y2 - x2*y1; a += cross; cx += (x1+x2)*cross;
     cy += (y1+y2)*cross]. *)
Definition shoelace_add (acc : Shoelace) (p q : Position) : Shoelace :=
  let cross := fst p * snd q - fst q * snd p in
  mkShoelace (sl_a acc + cross)
             (sl_cx acc + (fst p + fst q) * cross)
             (sl_cy acc + (snd p + snd q) * cross).

(** ** lib/tools/tripadvisor.ts: centroid utilities *)

Module TripAdvisorGeo.

(** [closeRing]: ensure first = last. *)
Definition closeRing (ring : list Position) : list Position :=
  match ring with
  | [] => ring
  | first :: _ =>
      let last := List.last ring first in
      if pos_eqb first last then ring else ring ++ [first]
  end.

Record RingCentroid : Type :=
  mkRC { rc_cx : num; rc_cy : num; rc_area : num }.

(** The [for (let i = 0; i < r.length - 1; i++)] loop of [ringCentroid]
    over the pairs [r[i]], [r[i + 1]]. *)
Definition ringLoop (r : list Position) : Shoelace :=
  fold_left
    (fun acc i => shoelace_add acc (nth i r origin) (nth (i + 1) r origin))
    (seq 0 (length r - 1)) shoelace0.

Definition ringCentroid (ring : list Position) : option RingCentroid :=
  let r := closeRing ring in
  let s := ringLoop r in
  let twiceArea := sl_a s in
  if eqb twiceArea 0 then None
  else Some (mkRC (sl_cx s / (three * twiceArea))
                  (sl_cy s / (three * twiceArea))
                  (twiceArea / two)).

(** Accumulator of the MultiPolygon case: [sumCx], [sumCy], [sumA]. *)
Record MPAcc : Type := mkMP { sumCx : num; sumCy : num; sumA : num }.

Definition mp_step (acc : MPAcc) (poly : list (list Position)) : MPAcc :=
  match poly with
  | [] => acc
  | outer :: _ =>
      match outer with
      | [] => acc
      | _ :: _ =>
          match ringCentroid outer with
          | Some rc =>
              mkMP (sumCx acc + rc_cx rc * abs (rc_area rc))
                   (sumCy acc + rc_cy rc * abs (rc_area rc))
                   (sumA acc + abs (rc_area rc))
          | None => acc
          end
      end
  end.

Definition average_opt (pts : list Position) : option Position :=
  match pts with
  | [] => None
  | _ :: _ => Some (average pts)
  end.

(** [geometryCentroid].  The typed model leaves the [try]/[catch]
    without a throwing path. *)
Definition geometryCentroid (g : Geometry) : option Position :=
  match g with
  | Point c => Some c
  | MultiPoint pts => average_opt pts
  | LineString pts => average_opt pts
  | MultiLineString lines => average_opt (concat lines)
  | Polygon rings =>
      match rings with
      | [] => None
      | outer :: _ =>
          match outer with
          | [] => None
          | _ :: _ =>
              match ringCentroid outer with
              | Some rc => Some (rc_cx rc, rc_cy rc)
              | None => Some (average outer)
              end
          end
      end
  | MultiPolygon polys =>
      let acc := fold_left mp_step polys (mkMP 0 0 0) in
      if gtb (sumA acc) 0
      then Some (sumCx acc / sumA acc, sumCy acc / sumA acc)
      else average_opt (concat (concat polys))
  | GeometryCollection _ => None
  end.

End TripAdvisorGeo.

(** ** The Foursquare chained resolver: [centroid] *)

Module ChainedGeo.

(** The [for (let i = 0; i < n; i++)] loop over the pairs [ring[i]],
    [ring[(i + 1) % n]]. *)
Definition wrapLoop (ring : list Position) : Shoelace :=
  let n := length ring in
  fold_left
    (fun acc i =>
       shoelace_add acc (nth i ring origin) (nth ((i + 1) mod n) ring origin))
    (seq 0 n) shoelace0.

(** Body of [for (const poly of polys)]: rings of fewer than three
    points and rings whose sum is zero are skipped; the others add
    their raw (signed) sums. *)
Definition mp_step (acc : Shoelace) (poly : list (list Position)) : Shoelace :=
  let ring := match poly with [] => [] | r :: _ => r end in
  if (length ring <? 3)%nat then acc
  else
    let s := wrapLoop ring in
    if eqb (sl_a s) 0 then acc
    else mkShoelace (sl_a acc + sl_a s) (sl_cx acc + sl_cx s) (sl_cy acc + sl_cy s).

(** [centroid(g)].  For the remaining kinds the source flattens the
    coordinates with [flat(2)], which leaves bare numbers; the reducer
    then destructures a number, which throws, and the [catch] returns
    [null]; empty or absent coordinates return [null] before that. *)
Definition centroid (g : option Geometry) : option Position :=
  match g with
  | None => None
  | Some (Point c) => Some c
  | Some (Polygon coords) =>
      let ring := match coords with [] => [] | r :: _ => r end in
      if (length ring <? 3)%nat then hd_error ring
      else
        let s := wrapLoop ring in
        if eqb (sl_a s) 0 then hd_error ring
        else Some (sl_cx s / (three * sl_a s), sl_cy s / (three * sl_a s))
  | Some (MultiPolygon polys) =>
      let s := fold_left mp_step polys shoelace0 in
      if eqb (sl_a s) 0 then
        (* polys[0]?.[0]?.[0] *)
        match polys with
        | (ring :: _) :: _ => hd_error ring
        | _ => None
        end
      else Some (sl_cx s / (three * sl_a s), sl_cy s / (three * sl_a s))
  | Some _ => None
  end.

End ChainedGeo.

(** ** Reference definitions for the geometry claims *)

Module GeoSpec.

(** The edges of a ring, the last point joined back to the first. *)
Definition edges (ring : list Position) : list (Position * Position) :=
  combine ring (tl ring ++ firstn 1 ring).

Definition shoelace_edges (es : list (Position * Position)) (acc : Shoelace)
  : Shoelace :=
  fold_left (fun acc e => shoelace_add acc (fst e) (snd e)) es acc.

(** The shoelace sums of a ring; [sl_a] is twice its signed area. *)
Definition shoelace (ring : list Position) : Shoelace :=
  shoelace_edges (edges ring) shoelace0.

Definition signed_area2 (ring : list Position) : num := sl_a (shoelace ring).

(** The area centroid of a ring of nonzero signed area. *)
Definition area_centroid (ring : list Position) : Position :=
  let s := shoelace ring in
  (sl_cx s / (three * sl_a s), sl_cy s / (three * sl_a s)).

Fixpoint sum (l : list num) : num :=
  match l with
  | [] => 0
  | x :: r => x + sum r
  end.

Definition outer_ring (poly : list (list Position)) : list Position :=
  match poly with [] => [] | r :: _ => r end.

End GeoSpec.

Import GeoSpec.

(** Points with integer coordinates, for the worked examples. *)
Definition pt (x y : Z) : Position := (of_Z x, of_Z y).

(** The members of a MultiPolygon, as the centroid functions see them. *)
Module CentroidClaims.

(** The member polygons that carry area, each with the area centroid of
    its outer ring and a weight computed from the signed area of that
    ring by [w]. *)
Definition members (w : num -> num) (polys : list (list (list Position)))
  : list (Position * num) :=
  flat_map
    (fun poly =>
       let outer := outer_ring poly in
       if eqb (signed_area2 outer) 0 then []
       else [(area_centroid outer, w (signed_area2 outer / two))])
    polys.

End CentroidClaims.

(** ** JavaScript values, strings and the runtime *)

Module Js.

Local Open Scope string_scope.

(** The values a JSON row or a property can hold.  Nested objects of a
    row are records of their own below. *)
#[warnings="-register-all"]
Inductive JsVal : Type :=
| JUndefined
| JNull
| JBool (b : bool)
| JNumber (n : num)
| JString (s : string)
| JArray (items : list JsVal).

(** Truthiness of a string: [if (s)]. *)
Definition truthy_string (s : string) : bool :=
  negb (String.eqb s EmptyString).

(** Truthiness of an optional string such as an environment variable or
    an optional argument. *)
Definition truthy_opt_string (s : option string) : bool :=
  match s with
  | Some s => truthy_string s
  | None => false
  end.

(** [trim] and [toLowerCase] over the code units below 256, for the
    runtime of the worked examples: white space is TAB, LF, VT, FF, CR,
    SPACE and NBSP; A-Z and the Latin-1 capitals other than the
    multiplication sign move by 32. *)
Definition is_white_space (c : ascii) : bool :=
  match nat_of_ascii c with
  | 9 | 10 | 11 | 12 | 13 | 32 | 160 => true
  | _ => false
  end%nat.

Fixpoint trimStart (s : string) : string :=
  match s with
  | EmptyString => EmptyString
  | String c r => if is_white_space c then trimStart r else s
  end.

Fixpoint trimEnd (s : string) : string :=
  match s with
  | EmptyString => EmptyString
  | String c r =>
      match trimEnd r with
      | EmptyString => if is_white_space c then EmptyString else String c EmptyString
      | r' => String c r'
      end
  end.

Definition trimUnits (s : string) : string := trimEnd (trimStart s).

Definition lower_char (c : ascii) : ascii :=
  let n := nat_of_ascii c in
  if ((65 <=? n) && (n <=? 90)
      || (192 <=? n) && (n <=? 222) && negb (n =? 215))%nat
  then ascii_of_nat (n + 32)
  else c.

Fixpoint lowerUnits (s : string) : string :=
  match s with
  | EmptyString => EmptyString
  | String c r => String (lower_char c) (lowerUnits r)
  end.

(** The builtins whose results the model leaves to the runtime: number
    parsing and printing, and the string methods [trim] and
    [toLowerCase], which follow Unicode in the engine ([toLowerCase] can
    lengthen a string: U+0130 becomes two code units).  [parsesToNumber
    v] tells whether [parseFloat(v)] is a finite number; NaN itself is
    outside the number model. *)
Record Runtime : Type := mkRuntime {
  parseFloat : JsVal -> num;
  parsesToNumber : JsVal -> bool;
  numberToString : num -> string;
  toFixed : num -> nat -> string;
  stringToNumber : string -> num;
  (** [ToNumber] of a string or an array, [None] for NaN. *)
  toNumberOther : JsVal -> option num;
  Math_cos : num -> num;
  Math_PI : num;
  trim : string -> string;
  toLowerCase : string -> string
}.

(** [Math.round]: the nearest integer, halves upward. *)
Definition Math_round (x : num) : num :=
  of_Z (Qfloor (x + Q2Qc (1 # 2))).

(** [Math.min(Math.max(x, lo), hi)] *)
Definition clamp (lo hi x : num) : num :=
  let m := if Qle_bool x lo then lo else x in
  if Qle_bool hi m then hi else m.

(** [ToNumber(v)], [None] for NaN. *)
Definition toNumber (rt : Runtime) (v : JsVal) : option num :=
  match v with
  | JUndefined => None
  | JNull => Some 0
  | JBool b => Some (if b then 1 else 0)
  | JNumber n => Some n
  | JString _ | JArray _ => toNumberOther rt v
  end.

(** [v >= m] for a number [m]: false when [v] converts to NaN. *)
Definition ge_number (rt : Runtime) (v : JsVal) (m : num) : bool :=
  match toNumber rt v with
  | Some n => geb n m
  | None => false
  end.

(** An object literal: its own properties in insertion order. *)
Definition Object : Type := list (string * JsVal).

(** [o.k] and [o?.k]: [undefined] when [k] is not a property. *)
Fixpoint get (k : string) (o : Object) : JsVal :=
  match o with
  | [] => JUndefined
  | (k', v) :: r => if String.eqb k k' then v else get k r
  end.

(** [k in o] *)
Definition has (k : string) (o : Object) : bool :=
  existsb (fun e => String.eqb k (fst e)) o.

End Js.

Import Js.

(** ** Features, collections and tool results *)

Record Feature : Type := mkFeature {
  properties : Js.Object;
  geometry : option Geometry   (* [None]: a null or undefined geometry *)
}.

Record FeatureCollection : Type := mkFC { features : list Feature }.

(** The [source] tag of a successful [ToolResult]. *)
Inductive Provenance : Type := SrcNominatim | SrcFsq.

(** [ToolResult] of services/nominatim. *)
Inductive ToolResult : Type :=
| Ok (data : FeatureCollection) (source : Provenance)
| Failure (error : string) (status : option Z).

(** A call either returns or throws (a rejected promise). *)
Inductive Outcome (A : Type) : Type :=
| Returned (a : A)
| Thrown.

Arguments Returned {A} a.
Arguments Thrown {A}.

(** A feature carries property [k] when [properties[k]] is defined. *)
Definition carries (k : string) (f : Feature) : Prop :=
  Js.get k (properties f) <> JUndefined.

(** ** Result normalisers *)

Module Normalizers.

Local Open Scope string_scope.

(** A row of the Nominatim /search answer: the fields the code reads. *)
Record NominatimRow : Type := mkNominatimRow {
  geojson : option Geometry;
  lon : JsVal;
  lat : JsVal;
  display_name : JsVal;
  category : JsVal;
  type : JsVal;
  importance : JsVal;
  osm_type : JsVal;
  osm_id : JsVal
}.

Definition nominatimFeature (rt : Runtime) (it : NominatimRow) : Feature :=
  let geometry :=
    match geojson it with
    | Some g => g
    | None => Point (parseFloat rt (lon it), parseFloat rt (lat it))
    end in
  mkFeature
    [("display_name", display_name it);
     ("category", category it);
     ("type", type it);
     ("importance", importance it);
     ("osm_type", osm_type it);
     ("osm_id", osm_id it)]
    (Some geometry).

(** services/nominatim: [toFeatureCollection]. *)
Definition toFeatureCollection (rt : Runtime) (items : list NominatimRow)
  : FeatureCollection :=
  mkFC (map (nominatimFeature rt) items).

(** lib/tools/nominatim.ts: [nominatimToFeatureCollection], the same
    mapping in the stand-alone tool. *)
Definition nominatimToFeatureCollection (rt : Runtime)
           (items : list NominatimRow) : FeatureCollection :=
  mkFC (map (nominatimFeature rt) items).

(** A row of the Foursquare place search.  [location] and [categories]
    are [None] when the row lacks them. *)
Record FsqCategory : Type := mkFsqCategory { cat_name : JsVal }.
Record FsqLocation : Type := mkFsqLocation { loc_address : JsVal }.
Record FsqRow : Type := mkFsqRow {
  latitude : JsVal;
  longitude : JsVal;
  fsq_id : JsVal;
  name : JsVal;
  location : option FsqLocation;
  categories : option (list FsqCategory);
  distance : JsVal
}.

Definition fsqFeature (r : FsqRow) (loc : FsqLocation) (lng lat : num)
  : Feature :=
  mkFeature
    [("source", JString "foursquare");
     ("fsq_id", fsq_id r);
     ("name", name r);
     ("address", loc_address loc);
     ("categories",
      JArray (map cat_name
                  (match categories r with Some cs => cs | None => [] end)));
     ("distance", distance r)]
    (Some (Point (lng, lat))).

(** The [for (const r of results ?? [])] loop: rows without numeric
    coordinates are skipped; reading [r.location.address] of a row
    without [location] throws. *)
Fixpoint fsqLoop (results : list FsqRow) (features : list Feature)
  : Outcome (list Feature) :=
  match results with
  | [] => Returned features
  | r :: rest =>
      match latitude r, longitude r with
      | JNumber lat, JNumber lng =>
          match location r with
          | Some loc => fsqLoop rest (features ++ [fsqFeature r loc lng lat])
          | None => Thrown
          end
      | _, _ => fsqLoop rest features
      end
  end.

(** services/foursquare: [fsqResultsToGeoJSON]. *)
Definition fsqResultsToGeoJSON (results : option (list FsqRow))
  : Outcome FeatureCollection :=
  match fsqLoop (match results with Some rs => rs | None => [] end) [] with
  | Returned features => Returned (mkFC features)
  | Thrown => Thrown
  end.

(** lib/tools/tripadvisor.ts: a TripAdvisor item and [poiFeature]. *)
Record TAAddress : Type := mkTAAddress { address_string : option string }.
Record TAItem : Type := mkTAItem {
  location_id : option string;
  ta_name : option string;
  ta_address : option string;
  address_obj : option TAAddress;
  ta_latitude : JsVal;
  ta_longitude : JsVal
}.

Definition js_of_string (s : option string) : JsVal :=
  match s with
  | Some s => JString s
  | None => JUndefined
  end.

(** [item.address || item.address_obj?.address_string] *)
Definition itemAddress (item : TAItem) : option string :=
  if truthy_opt_string (ta_address item) then ta_address item
  else match address_obj item with
       | Some o => address_string o
       | None => None
       end.

Definition poiFeature (item : TAItem) (lng lat : num) : Feature :=
  mkFeature
    [("source", JString "tripadvisor");
     ("location_id", js_of_string (location_id item));
     ("name", js_of_string (ta_name item));
     ("address", js_of_string (itemAddress item));
     ("category", JString "poi")]
    (Some (Point (lng, lat))).

(** [asNumber] *)
Definition asNumber (rt : Runtime) (n : JsVal) : option num :=
  match n with
  | JString _ => if parsesToNumber rt n then Some (parseFloat rt n) else None
  | JNumber v => Some v
  | _ => None
  end.

End Normalizers.

Import Normalizers.

(** ** A JavaScript [Map] with string keys *)

Module JsMap.

Section WithValues.

Variable V : Type.

(** The entries in iteration order, which is the order in which the
    keys were inserted; no key occurs twice. *)
Definition t : Type := list (string * V).

Definition empty : t := [].

Definition size (m : t) : nat := length m.

Definition keys (m : t) : list string := map fst m.

Fixpoint get (k : string) (m : t) : option V :=
  match m with
  | [] => None
  | (k', v) :: r => if String.eqb k k' then Some v else get k r
  end.

(** [m.delete(k)] *)
Definition delete (k : string) (m : t) : t :=
  filter (fun e => negb (String.eqb k (fst e))) m.

(** [m.set(k, v)]: a present key keeps its place, a new one goes last. *)
Fixpoint set (k : string) (v : V) (m : t) : t :=
  match m with
  | [] => [(k, v)]
  | (k', v') :: r =>
      if String.eqb k k' then (k', v) :: r else (k', v') :: set k v r
  end.

(** [m.keys().next().value] *)
Definition first_key (m : t) : option string :=
  match m with
  | [] => None
  | (k, _) :: _ => Some k
  end.

End WithValues.

End JsMap.

(** ** The TTL caches (services/nominatim and lib/tools/tripadvisor.ts)

    Both files carry the same [cacheGet] and [cacheSet] over a module
    level [Map]; they differ in the value type, the capacity and the
    default TTL. *)

Module TtlCache.

Section WithCapacity.

Variable V : Type.
Variable CACHE_MAX : nat.

Record CacheEntry : Type := mkEntry { value : V; expires : Z }.

Definition Cache : Type := JsMap.t CacheEntry.

(** [cacheGet(k)] at time [now]: the value and the map afterwards. *)
Definition cacheGet (now : Z) (k : string) (c : Cache) : option V * Cache :=
  match JsMap.get k c with
  | None => (None, c)
  | Some hit =>
      if (expires hit <? now)%Z then (None, JsMap.delete k c)
      else (Some (value hit), c)
  end.

(** The key [cacheSet] deletes before it inserts, if any: the first key
    of the map when the map is at capacity and that key is truthy. *)
Definition victim (c : Cache) : option string :=
  if (CACHE_MAX <=? JsMap.size c)%nat then
    match JsMap.first_key c with
    | Some first => if truthy_string first then Some first else None
    | None => None
    end
  else None.

(** [cacheSet(k, v, ttl)] at time [now]. *)
Definition cacheSet (now : Z) (k : string) (v : V) (ttl : Z) (c : Cache)
  : Cache :=
  let c1 := match victim c with
            | Some first => JsMap.delete first c
            | None => c
            end in
  JsMap.set k (mkEntry v (now + ttl)%Z) c1.

(** *** Histories of cache operations *)

Inductive CacheOp : Type :=
| OpGet (now : Z) (k : string)
| OpSet (now : Z) (k : string) (v : V) (ttl : Z).

Definition op_key (op : CacheOp) : string :=
  match op with
  | OpGet _ k => k
  | OpSet _ k _ _ => k
  end.

Definition step (c : Cache) (op : CacheOp) : Cache :=
  match op with
  | OpGet now k => snd (cacheGet now k c)
  | OpSet now k v ttl => cacheSet now k v ttl c
  end.

(** *** Insertion times (ghost state)

    Next to the cache, [births] records for every key present the index
    of the operation that inserted it: a [set] of an absent key records
    the current index, a [set] of a present key records nothing (the
    [Map] keeps the key where it is), a deletion forgets the key. *)

Definition Births : Type := JsMap.t nat.

Definition births_insert (i : nat) (k : string) (b : Births) : Births :=
  match JsMap.get k b with
  | Some _ => b
  | None => b ++ [(k, i)]
  end.

Definition births_step (i : nat) (c : Cache) (b : Births) (op : CacheOp)
  : Births :=
  match op with
  | OpGet now k =>
      match JsMap.get k c with
      | Some hit => if (expires hit <? now)%Z then JsMap.delete k b else b
      | None => b
      end
  | OpSet now k v ttl =>
      births_insert i k
        match victim c with
        | Some first => JsMap.delete first b
        | None => b
        end
  end.

Record Tracked : Type := mkTracked {
  cache : Cache;
  births : Births;
  tick : nat
}.

Definition tracked0 : Tracked := mkTracked [] [] 0.

Definition tracked_step (s : Tracked) (op : CacheOp) : Tracked :=
  mkTracked (step (cache s) op)
            (births_step (tick s) (cache s) (births s) op)
            (S (tick s)).

(** The cache after a history of operations, from the empty cache. *)
Definition run (ops : list CacheOp) : Tracked :=
  fold_left tracked_step ops tracked0.

(** *** The capacity law, as the specification states it

    After any history: the cache holds at most [CACHE_MAX] entries; the
    ghost state names exactly the keys present; a read that hits leaves
    the map as it is; and a [cacheSet] arriving at a full cache deletes
    the head of the map, whose insertion is older than that of every
    other entry present. *)
Definition capacity_law (ops : list CacheOp) : Prop :=
  let s := run ops in
  (JsMap.size (cache s) <= CACHE_MAX)%nat
  /\ JsMap.keys (births s) = JsMap.keys (cache s)
  /\ (forall now k v,
         fst (cacheGet now k (cache s)) = Some v ->
         snd (cacheGet now k (cache s)) = cache s)
  /\ (forall now k v ttl,
         (CACHE_MAX <= JsMap.size (cache s))%nat ->
         exists first e rest born,
           cache s = (first, e) :: rest
           /\ victim (cache s) = Some first
           /\ cacheSet now k v ttl (cache s)
              = JsMap.set k (mkEntry v (now + ttl)%Z) rest
           /\ JsMap.get first (births s) = Some born
           /\ (forall k' born',
                  k' <> first ->
                  JsMap.get k' (births s) = Some born' ->
                  (born < born')%nat)).

(** What every reachable state satisfies. *)
Record invariant (s : Tracked) : Prop := mkInvariant {
  inv_keys : JsMap.keys (births s) = JsMap.keys (cache s);
  inv_nodup : NoDup (JsMap.keys (cache s));
  inv_size : (JsMap.size (cache s) <= CACHE_MAX)%nat;
  inv_sorted : StronglySorted lt (map snd (births s));
  inv_fresh : Forall (fun e => (snd e < tick s)%nat) (births s);
  inv_truthy : Forall (fun k => k <> EmptyString) (JsMap.keys (cache s))
}.

(** A cache some history could have produced. *)
Definition bounded (c : Cache) : Prop :=
  exists (b : Births) (t : nat), invariant (mkTracked c b t).

End WithCapacity.

End TtlCache.

(** ** JSON text of strings ([JSON.stringify]) *)

Module Json.

Local Open Scope string_scope.

Definition dquote : ascii := ascii_of_nat 34.
Definition backslash : ascii := ascii_of_nat 92.

Definition hex_digit (n : nat) : ascii :=
  nth n ["0"; "1"; "2"; "3"; "4"; "5"; "6"; "7";
         "8"; "9"; "a"; "b"; "c"; "d"; "e"; "f"]%char "0"%char.

(** The text of one code unit inside a JSON string. *)
Definition escape (c : ascii) : string :=
  let n := nat_of_ascii c in
  match n with
  | 8 => String backslash "b"
  | 9 => String backslash "t"
  | 10 => String backslash "n"
  | 12 => String backslash "f"
  | 13 => String backslash "r"
  | 34 => String backslash (String dquote EmptyString)
  | 92 => String backslash (String backslash EmptyString)
  | _ =>
      if (n <? 32)%nat
      then String backslash
             (String "u" (String "0" (String "0"
               (String (hex_digit (n / 16))
                  (String (hex_digit (n mod 16)) EmptyString)))))
      else String c EmptyString
  end%nat.

(** The escaped units of [s] followed by the closing quote. *)
Fixpoint body (s : string) : string :=
  match s with
  | EmptyString => String dquote EmptyString
  | String c r => escape c ++ body r
  end.

(** [JSON.stringify(s)] for a string [s]. *)
Definition string_text (s : string) : string := String dquote (body s).

(** A property name that needs no escape, in quotes. *)
Definition name_text (s : string) : string :=
  String dquote (s ++ String dquote EmptyString).

Definition bool_text (b : bool) : string := if b then "true" else "false".

Definition hex_value (c : ascii) : nat :=
  let n := nat_of_ascii c in
  if (n <? 58)%nat then n - 48 else n - 87.

(** Reads one escaped unit back; [None] at the closing quote. *)
Definition unescape (s : string) : option (ascii * string) :=
  match s with
  | EmptyString => None
  | String c r =>
      if Ascii.eqb c dquote then None
      else if Ascii.eqb c backslash then
        match r with
        | String d r' =>
            match nat_of_ascii d with
            | 98 => Some (ascii_of_nat 8, r')
            | 116 => Some (ascii_of_nat 9, r')
            | 110 => Some (ascii_of_nat 10, r')
            | 102 => Some (ascii_of_nat 12, r')
            | 114 => Some (ascii_of_nat 13, r')
            | 34 => Some (dquote, r')
            | 92 => Some (backslash, r')
            | _ =>
                match r' with
                | String _ (String _ (String h (String l r''))) =>
                    Some (ascii_of_nat (16 * hex_value h + hex_value l), r'')
                | _ => None
                end
            end%nat
        | EmptyString => None
        end
      else Some (c, r)
  end.

End Json.

(** ** services/nominatim: the Place Resolver *)

Module NominatimService.

Local Open Scope string_scope.

Record Near : Type := mkNear {
  near_lat : num;
  near_lng : num;
  near_radiusKm : option num
}.

Record NominatimSearchArgs : Type := mkArgs {
  query : string;
  limit : option num;
  countrycodes : option string;
  polygon : option bool;
  language : option string;
  near : option Near
}.

Definition CACHE_TTL_MS : Z := 10 * 60 * 1000.
Definition CACHE_MAX : nat := 300.

Definition Cache : Type := TtlCache.Cache ToolResult.

Definition opt_default (A : Type) (o : option A) (d : A) : A :=
  match o with
  | Some a => a
  | None => d
  end.

(** The [near] member of the key object:
    [{lat: Number(lat.toFixed(4)), lng: Number(lng.toFixed(4)),
      r: radiusKm ? Math.round(radiusKm * 10) / 10 : 2}]. *)
Definition nearKey (rt : Runtime) (n : Near) : string :=
  let fixed x := stringToNumber rt (toFixed rt x 4) in
  let r :=
    match near_radiusKm n with
    | Some radiusKm =>
        if Num.eqb radiusKm 0 then two
        else Math_round (radiusKm * of_Z 10) / of_Z 10
    | None => two
    end in
  "{" ++ Json.name_text "lat" ++ ":" ++ numberToString rt (fixed (near_lat n))
      ++ "," ++ Json.name_text "lng" ++ ":"
      ++ numberToString rt (fixed (near_lng n))
      ++ "," ++ Json.name_text "r" ++ ":" ++ numberToString rt r ++ "}".

(** The fields of the key object after [q], as [JSON.stringify] prints
    them. *)
Definition keyTail (rt : Runtime) (args : NominatimSearchArgs) : string :=
  "," ++ Json.name_text "limit" ++ ":"
      ++ numberToString rt (opt_default (limit args) (of_Z 5))
  ++ "," ++ Json.name_text "cc" ++ ":"
      ++ Json.string_text (opt_default (countrycodes args) EmptyString)
  ++ "," ++ Json.name_text "poly" ++ ":"
      ++ Json.bool_text (opt_default (polygon args) true)
  ++ "," ++ Json.name_text "lang" ++ ":"
      ++ Json.string_text (opt_default (language args) EmptyString)
  ++ "," ++ Json.name_text "near" ++ ":"
      ++ match near args with
         | Some n => nearKey rt n
         | None => "null"
         end
  ++ "}".

(** [cacheKey(args)]: [JSON.stringify] of
    [{q, limit, cc, poly, lang, near}]. *)
Definition cacheKey (rt : Runtime) (args : NominatimSearchArgs) : string :=
  "{" ++ Json.name_text "q" ++ ":"
      ++ Json.string_text (toLowerCase rt (trim rt (query args)))
      ++ keyTail rt args.

(** [!query || query.trim().length < 2] *)
Definition tooShort (rt : Runtime) (q : string) : bool :=
  negb (truthy_string q) || (String.length (trim rt q) <? 2)%nat.

(** What the network gives back for a request. *)
Record Request : Type := mkRequest {
  params : list (string * string);
  headers : list (string * string)
}.

Inductive Body : Type :=
| BodyRows (rows : list NominatimRow)
| BodyNotArray
| BodyThrows.

Inductive FetchOutcome : Type :=
| FetchThrows (message : string)
| Response (ok : bool) (status : Z) (body : Body).

Record Env : Type := mkEnv {
  APP_USER_AGENT : option string;
  FOURSQUARE_API_KEY : option string
}.

(** The [viewbox] parameter for a bias centre. *)
Definition viewbox (rt : Runtime) (n : Near) : string :=
  let rKm := opt_default (near_radiusKm n) two in
  let dLat := rKm / of_Z 111 in
  let cos := Math_cos rt (near_lat n * Math_PI rt / of_Z 180) in
  let floor := Q2Qc (1 # 10000) in
  let dLng :=
    if Num.eqb cos 0 then dLat
    else rKm / (of_Z 111 * (if Qle_bool cos floor then floor else cos)) in
  let left := toFixed rt (near_lng n - dLng) 6 in
  let right := toFixed rt (near_lng n + dLng) 6 in
  let top := toFixed rt (near_lat n + dLat) 6 in
  let bottom := toFixed rt (near_lat n - dLat) 6 in
  left ++ "," ++ top ++ "," ++ right ++ "," ++ bottom.

Definition request (rt : Runtime) (env : Env) (args : NominatimSearchArgs)
  : Request :=
  let polygon := opt_default (polygon args) true in
  let limit := opt_default (limit args) (of_Z 5) in
  mkRequest
    ([("q", query args);
      ("format", "jsonv2");
      ("addressdetails", "1");
      ("limit", numberToString rt (clamp 1 (of_Z 10) limit))]
       ++ (if polygon then [("polygon_geojson", "1")] else [])
       ++ (match countrycodes args with
           | Some cc => if truthy_string cc then [("countrycodes", cc)] else []
           | None => []
           end)
       ++ (match near args with
           | Some n => [("viewbox", viewbox rt n); ("bounded", "1")]
           | None => []
           end))
    ([("User-Agent", opt_default (APP_USER_AGENT env) "MapChat/1.0")]
       ++ (match language args with
           | Some l => if truthy_string l then [("Accept-Language", l)] else []
           | None => []
           end)).

(** What a call does that can be seen from outside. *)
Inductive Event : Type :=
| EvFetch (req : Request)
| EvCacheSet (key : string) (value : ToolResult) (ttl : Z).

Definition tooShortFailure : ToolResult := Failure "Query too short" None.

(** The moments and the network of one call: [Date.now()] when the
    cache is read, [Date.now()] when it is written, and the answer of
    [fetch]. *)
Record World : Type := mkWorld {
  now : Z;
  later : Z;
  fetch : Request -> FetchOutcome
}.

(** [runNominatimSearch(args)]: the result, the cache afterwards and
    the events, in order. *)
Definition runNominatimSearch (rt : Runtime) (env : Env) (w : World)
           (args : NominatimSearchArgs) (cache : Cache)
  : Outcome ToolResult * Cache * list Event :=
  let key := cacheKey rt args in
  let store res ttl c :=
    (Returned res, TtlCache.cacheSet CACHE_MAX (later w) key res ttl c) in
  match TtlCache.cacheGet (now w) key cache with
  | (Some cached, c) => (Returned cached, c, [])
  | (None, c) =>
      if tooShort rt (query args) then
        (store tooShortFailure CACHE_TTL_MS c,
         [EvCacheSet key tooShortFailure CACHE_TTL_MS])
      else
        let req := request rt env args in
        match fetch w req with
        | FetchThrows message =>
            let res := Failure ("Network error: " ++ message) None in
            (store res (2 * 60 * 1000)%Z c,
             [EvFetch req; EvCacheSet key res (2 * 60 * 1000)%Z])
        | Response false status _ =>
            let res :=
              Failure ("Nominatim " ++ numberToString rt (of_Z status))
                      (Some status) in
            (store res (2 * 60 * 1000)%Z c,
             [EvFetch req; EvCacheSet key res (2 * 60 * 1000)%Z])
        | Response true _ BodyThrows => (Thrown, c, [EvFetch req])
        | Response true _ body =>
            let rows := match body with BodyRows rows => rows | _ => [] end in
            let out := Ok (toFeatureCollection rt rows) SrcNominatim in
            (store out CACHE_TTL_MS c,
             [EvFetch req; EvCacheSet key out CACHE_TTL_MS])
        end
  end.

(** A call of the resolver with the world it runs in. *)
Record Call : Type := mkCall {
  call_world : World;
  call_args : NominatimSearchArgs
}.

(** The cache after a history of calls, from the empty cache. *)
Definition cacheAfter (rt : Runtime) (env : Env) (history : list Call)
  : Cache :=
  fold_left
    (fun c call =>
       snd (fst (runNominatimSearch rt env (call_world call) (call_args call) c)))
    history [].

Definition isFetch (e : Event) : bool :=
  match e with
  | EvFetch _ => true
  | EvCacheSet _ _ _ => false
  end.

End NominatimService.

(** ** What the Place Resolver's cache holds *)

Module CacheContents.

Import NominatimService.

(** A successful result is tagged as Nominatim's and every feature of
    it has a geometry. *)
Definition goodResult (r : ToolResult) : Prop :=
  match r with
  | Ok fc src =>
      src = SrcNominatim /\ Forall (fun f => geometry f <> None) (features fc)
  | Failure _ _ => True
  end.

(** Every result the cache holds is such a result. *)
Definition wellFormed (c : Cache) : Prop :=
  forall k e, In (k, e) c -> goodResult (TtlCache.value e).

End CacheContents.

(** ** services/foursquare: [fsqSearch] *)

Module FoursquareService.

Local Open Scope string_scope.

Record LatLng : Type := mkLatLng { ll_lat : num; ll_lng : num }.

Record FsqSearchOpts : Type := mkOpts {
  ll : LatLng;
  opt_query : option string;
  radiusMeters : option num;
  opt_limit : option num
}.

Record FsqParams : Type := mkParams {
  p_ll : string;
  p_radius : num;
  p_limit : num;
  p_query : option string
}.

(** The answer of [fsqDevelopersPlaces.placeSearch]: the promise
    resolves with [res.data.results] or rejects with a message.  An
    answer without [data] makes the [then] callback throw, which the
    [catch] turns into the same failure. *)
Inductive PlaceSearchOutcome : Type :=
| Resolved (results : option (list FsqRow))
| Rejected (message : string).

Inductive FsqResult : Type :=
| FsqOk (data : option (list FsqRow))
| FsqError (error : string).

Definition fsqParams (rt : Runtime) (opts : FsqSearchOpts) : FsqParams :=
  mkParams
    (numberToString rt (ll_lat (ll opts)) ++ "%2C"
       ++ numberToString rt (ll_lng (ll opts)))
    (NominatimService.opt_default (radiusMeters opts) (of_Z 3000))
    (clamp 1 (of_Z 50) (NominatimService.opt_default (opt_limit opts) (of_Z 10)))
    (if truthy_opt_string (opt_query opts) then opt_query opts else None).

(** [fsqSearch(opts)]: the result and the requests made. *)
Definition fsqSearch (rt : Runtime) (env : NominatimService.Env)
           (placeSearch : FsqParams -> PlaceSearchOutcome)
           (opts : FsqSearchOpts) : FsqResult * list FsqParams :=
  if negb (truthy_opt_string (NominatimService.FOURSQUARE_API_KEY env))
  then (FsqError "Missing FOURSQUARE_API_KEY", [])
  else
    let params := fsqParams rt opts in
    match placeSearch params with
    | Resolved results => (FsqOk results, [params])
    | Rejected message => (FsqError message, [params])
    end.

End FoursquareService.

(** ** The Chained Recommendation Resolver: [foursquareByPlaceTool] *)

Module foursquareByPlaceTool.

Local Open Scope string_scope.

Import NominatimService FoursquareService.

(** The arguments of [execute], after the schema has filled in the
    defaults. *)
Record Input : Type := mkInput {
  place : string;
  in_query : string;
  radiusKm : num;
  in_limit : num;
  minRating : option num
}.

(** The synthetic feature put in front of the POIs. *)
Definition searchCenter (place : string) (g : option Geometry) : Feature :=
  mkFeature
    [("source", JString "nominatim");
     ("name", JString place);
     ("category", JString "search-center")]
    g.

(** [(f.properties as any)?.rating >= minRating] *)
Definition meetsRating (rt : Runtime) (minRating : num) (f : Feature) : bool :=
  Js.ge_number rt (Js.get "rating" (properties f)) minRating.

(** Step 4: [if (typeof minRating === "number") fc = {..filter..}]. *)
Definition filterByRating (rt : Runtime) (minRating : option num)
           (fc : FeatureCollection) : FeatureCollection :=
  match minRating with
  | Some m => mkFC (filter (meetsRating rt m) (features fc))
  | None => fc
  end.

Definition placeArgs (place : string) : NominatimSearchArgs :=
  mkArgs place (Some 1) None None None None.

(** What [execute] did: the result, the Place Resolver's cache
    afterwards, its events, and the Foursquare requests. *)
Record Run : Type := mkRun {
  result : Outcome ToolResult;
  cacheAfterRun : Cache;
  nominatimEvents : list Event;
  fsqRequests : list FsqParams
}.

(** [execute({place, query, radiusKm, limit, minRating})] *)
Definition execute (rt : Runtime) (env : Env) (w : World)
           (placeSearch : FsqParams -> PlaceSearchOutcome)
           (input : Input) (cache : Cache) : Run :=
  let '(nomi, cache', events) :=
    runNominatimSearch rt env w (placeArgs (place input)) cache in
  let notFound :=
    Failure ("Could not locate " ++ Json.name_text (place input)) None in
  match nomi with
  | Thrown => mkRun Thrown cache' events []
  | Returned (Failure _ _) => mkRun (Returned notFound) cache' events []
  | Returned (Ok data _) =>
      match features data with
      | [] => mkRun (Returned notFound) cache' events []
      | first :: _ =>
          let g := geometry first in
          match ChainedGeo.centroid g with
          | None =>
              mkRun (Returned (Failure "No usable centroid from place geometry"
                                       None))
                    cache' events []
          | Some (lng, lat) =>
              let '(sr, requests) :=
                fsqSearch rt env placeSearch
                  (mkOpts (mkLatLng lat lng) (Some (in_query input))
                          (Some (Math_round (radiusKm input * of_Z 1000)))
                          (Some (in_limit input))) in
              match sr with
              | FsqError error =>
                  mkRun (Returned (Failure error None)) cache' events requests
              | FsqOk results =>
                  match fsqResultsToGeoJSON results with
                  | Thrown => mkRun Thrown cache' events requests
                  | Returned fc =>
                      let fc := filterByRating rt (minRating input) fc in
                      let fc :=
                        mkFC (searchCenter (place input) g :: features fc) in
                      mkRun (Returned (Ok fc SrcFsq)) cache' events requests
                  end
              end
          end
      end
  end.

End foursquareByPlaceTool.

(** ** lib/tools/tripadvisor.ts: the Fallback Geocoder and the pin loop *)

Module TripAdvisorTool.

Local Open Scope string_scope.

Import NominatimService.

Record CacheValue : Type := mkCacheValue { cv_lng : num; cv_lat : num }.

Definition CACHE_TTL_MS : Z := 24 * 60 * 60 * 1000.
Definition CACHE_MAX : nat := 500.

Definition GeocodeCache : Type := TtlCache.Cache CacheValue.

Record Center : Type := mkCenter { c_lng : num; c_lat : num }.

(** What the loop does that can be seen from outside, in order. *)
Inductive Event : Type :=
| EvCacheHit (key : string)
| EvGeocodeFetch (req : Request)
| EvSleep (ms : Z).

(** The network as the loop meets it: the answer to a request and the
    time the request takes. *)
Record Network : Type := mkNetwork {
  answer : Request -> FetchOutcome;
  latency : Request -> Z
}.

(** The process state the loop runs in: the clock behind [Date.now()],
    the module-level [geocodeCache], and the events so far. *)
Record State : Type := mkState {
  clock : Z;
  geocodeCache : GeocodeCache;
  trace : list Event
}.

Definition geocodeKey (rt : Runtime) (address : string) (near : option Center)
  : string :=
  trim rt (toLowerCase rt address) ++ "|"
    ++ match near with
       | Some n => toFixed rt (c_lat n) 3 ++ "," ++ toFixed rt (c_lng n) 3
       | None => EmptyString
       end.

Definition geocodeRequest (rt : Runtime) (env : Env) (address : string)
           (near : option Center) : Request :=
  let d := Q2Qc (2 # 100) in
  mkRequest
    ([("q", address);
      ("format", "jsonv2");
      ("addressdetails", "1");
      ("polygon_geojson", "0");
      ("limit", "1")]
       ++ match near with
          | Some n =>
              [("viewbox",
                numberToString rt (c_lng n - d) ++ ","
                  ++ numberToString rt (c_lat n + d) ++ ","
                  ++ numberToString rt (c_lng n + d) ++ ","
                  ++ numberToString rt (c_lat n - d));
               ("bounded", "1")]
          | None => []
          end)
    [("User-Agent",
      opt_default (APP_USER_AGENT env) "MapChat/0.1 (+no-email-provided)")].

(** [geocodeAddressWithCache(address, near)] *)
Definition geocodeAddressWithCache (rt : Runtime) (env : Env) (net : Network)
           (address : string) (near : option Center) (st : State)
  : Outcome (option CacheValue) * State :=
  let key := geocodeKey rt address near in
  match TtlCache.cacheGet (clock st) key (geocodeCache st) with
  | (Some cached, c) =>
      (Returned (Some cached),
       mkState (clock st) c (trace st ++ [EvCacheHit key]))
  | (None, c) =>
      let req := geocodeRequest rt env address near in
      let st1 := mkState (clock st + latency net req)%Z c
                         (trace st ++ [EvGeocodeFetch req]) in
      match answer net req with
      | FetchThrows _ => (Thrown, st1)
      | Response false _ _ => (Returned None, st1)
      | Response true _ BodyThrows => (Thrown, st1)
      | Response true _ BodyNotArray => (Returned None, st1)
      | Response true _ (BodyRows []) => (Returned None, st1)
      | Response true _ (BodyRows (first :: _)) =>
          let value := mkCacheValue (parseFloat rt (lon first))
                                    (parseFloat rt (lat first)) in
          (Returned (Some value),
           mkState (clock st1)
                   (TtlCache.cacheSet CACHE_MAX (clock st1) key value
                                      CACHE_TTL_MS c)
                   (trace st1))
      end
  end.

(** [sleep(ms)] *)
Definition sleep (ms : Z) (st : State) : State :=
  mkState (clock st + ms)%Z (geocodeCache st) (trace st ++ [EvSleep ms]).

(** The [for (const item of items)] loop of [execute], with the running
    [features] and [geocodeCount]; the state is returned also when the
    loop throws, since the cache and the clock outlive the call. *)
Fixpoint pinLoop (rt : Runtime) (env : Env) (net : Network) (center : Center)
         (items : list TAItem) (features : list Feature) (geocodeCount : nat)
         (st : State) : Outcome (list Feature) * State :=
  match items with
  | [] => (Returned features, st)
  | item :: rest =>
      match asNumber rt (ta_latitude item), asNumber rt (ta_longitude item) with
      | Some latTA, Some lngTA =>
          pinLoop rt env net center rest
                  (features ++ [poiFeature item lngTA latTA])%list
                  geocodeCount st
      | _, _ =>
          let address := itemAddress item in
          if negb (truthy_opt_string address) then
            pinLoop rt env net center rest features geocodeCount st
          else
            match geocodeAddressWithCache rt env net
                    (opt_default address EmptyString) (Some center) st with
            | (Thrown, st1) => (Thrown, st1)
            | (Returned None, st1) =>
                pinLoop rt env net center rest features geocodeCount st1
            | (Returned (Some cachedOrFresh), st1) =>
                let features :=
                  (features ++ [poiFeature item (cv_lng cachedOrFresh)
                                           (cv_lat cachedOrFresh)])%list in
                let geocodeCount := S geocodeCount in
                let st2 := if (0 <? geocodeCount)%nat
                           then sleep 1100 st1 else st1 in
                pinLoop rt env net center rest features geocodeCount st2
            end
      end
  end.

(** Step 3 of [execute]: the search-centre marker, then the pins. *)
Definition buildPins (rt : Runtime) (env : Env) (net : Network)
           (place : string) (center : Center) (items : list TAItem)
           (st : State) : Outcome FeatureCollection * State :=
  let marker :=
    mkFeature
      [("source", JString "nominatim");
       ("name", JString place);
       ("category", JString "search-center")]
      (Some (Point (c_lng center, c_lat center))) in
  match pinLoop rt env net center items [marker] 0 st with
  | (Returned features, st') => (Returned (mkFC features), st')
  | (Thrown, st') => (Thrown, st')
  end.

(** *** The rate etiquette, read off a trace *)

(** The events the loop can add: a lookup served from the cache, then a
    pause; a network lookup that found the address, then a pause; a
    network lookup that found nothing, and no pause. *)
Inductive Paced : list Event -> Prop :=
| paced_done : Paced []
| paced_hit (key : string) (r : list Event) :
    Paced r -> Paced (EvCacheHit key :: EvSleep 1100 :: r)
| paced_found (req : Request) (r : list Event) :
    Paced r -> Paced (EvGeocodeFetch req :: EvSleep 1100 :: r)
| paced_missed (req : Request) (r : list Event) :
    Paced r -> Paced (EvGeocodeFetch req :: r).

(** No pause directly follows a lookup served from the cache. *)
Fixpoint noPauseAfterHit (t : list Event) : bool :=
  match t with
  | EvCacheHit _ :: ((EvSleep _ :: _) as r) => false
  | _ :: r => noPauseAfterHit r
  | [] => true
  end.

(** Between two network lookups there is a pause of 1100 ms. *)
Fixpoint pausedBetweenFetches (t : list Event) (sinceFetch : bool) : bool :=
  match t with
  | [] => true
  | EvGeocodeFetch _ :: r =>
      negb sinceFetch && pausedBetweenFetches r true
  | EvSleep ms :: r =>
      pausedBetweenFetches r (if (1100 <=? ms)%Z then false else sinceFetch)
  | EvCacheHit _ :: r => pausedBetweenFetches r sinceFetch
  end.

(** What the loop guarantees of its result [r] from the state [st]: a
    cache within bounds stays within bounds; the events added are paced
    as [Paced] says; and the features returned satisfy [P]. *)
Definition loopSpec (P : Feature -> Prop) (st : State)
           (r : Outcome (list Feature) * State) : Prop :=
  (TtlCache.bounded CACHE_MAX (geocodeCache st) ->
   TtlCache.bounded CACHE_MAX (geocodeCache (snd r)))
  /\ (exists evs, trace (snd r) = (trace st ++ evs)%list /\ Paced evs)
  /\ (forall fs, fst r = Returned fs -> Forall P fs).

End TripAdvisorTool.

(** ** Inputs of the worked examples *)

Module Examples.

Local Open Scope string_scope.

Import NominatimService.

(** A runtime for the examples: every number prints as "0", no text
    parses as a number, and strings are trimmed and lower-cased unit by
    unit. *)
Definition rt0 : Runtime :=
  mkRuntime (fun _ => 0) (fun _ => false) (fun _ => "0") (fun _ _ => "0")
            (fun _ => 0) (fun _ => None) (fun _ => 1) (of_Z 3)
            trimUnits lowerUnits.

Definition env0 : Env := mkEnv None (Some "fsq-key").

(** A Nominatim row with a polygon, and one with coordinates only. *)
Definition triangle : Geometry := Polygon [[pt 0 0; pt 6 0; pt 0 6; pt 0 0]].

Definition polygonRow : NominatimRow :=
  mkNominatimRow (Some triangle) (JString "103.7") (JString "1.34")
                 (JString "Jurong Point") (JString "shop") (JString "mall")
                 (JNumber 1) (JString "way") (JNumber 1).

Definition pointRow : NominatimRow :=
  mkNominatimRow None (JString "103.7") (JString "1.34")
                 (JString "Jurong Point") (JString "shop") (JString "mall")
                 (JNumber 1) (JString "way") (JNumber 1).

(** A world whose network answers every request with the polygon row. *)
Definition world0 : World :=
  mkWorld 0 0 (fun _ => Response true 200 (BodyRows [polygonRow])).

Definition cafe : FsqRow :=
  mkFsqRow (JNumber 1) (JNumber two) (JString "id1") (JString "Cafe")
           (Some (mkFsqLocation (JString "1 Jurong West")))
           (Some [mkFsqCategory (JString "Coffee")]) (JNumber (of_Z 120)).

Definition placeSearch0 (p : FoursquareService.FsqParams)
  : FoursquareService.PlaceSearchOutcome :=
  FoursquareService.Resolved (Some [cafe]).

Definition input0 : foursquareByPlaceTool.Input :=
  foursquareByPlaceTool.mkInput "Jurong Point" "restaurants" (of_Z 3) (of_Z 10) None.

Definition input4 : foursquareByPlaceTool.Input :=
  foursquareByPlaceTool.mkInput "Jurong Point" "restaurants" (of_Z 3) (of_Z 10)
                          (Some (of_Z 4)).

(** The collections the chained resolver returns in the examples:
    without a threshold, and with threshold 4. *)
Definition answer0 : FeatureCollection :=
  mkFC [foursquareByPlaceTool.searchCenter "Jurong Point" (Some triangle);
        fsqFeature cafe (mkFsqLocation (JString "1 Jurong West")) two 1].

Definition answer4 : FeatureCollection :=
  mkFC [foursquareByPlaceTool.searchCenter "Jurong Point" (Some triangle)].

(** Two TripAdvisor items without coordinates at one address, and one
    at another address. *)
Definition stall (name : string) (address : string) : TAItem :=
  mkTAItem (Some "1") (Some name) None
           (Some (mkTAAddress (Some address))) JUndefined JUndefined.

Definition centre0 : TripAdvisorTool.Center :=
  TripAdvisorTool.mkCenter 0 0.

Definition state0 : TripAdvisorTool.State :=
  TripAdvisorTool.mkState 0 [] [].

(** A network that finds every address, and one that finds none. *)
Definition netFound : TripAdvisorTool.Network :=
  TripAdvisorTool.mkNetwork
    (fun _ => Response true 200 (BodyRows [pointRow])) (fun _ => 300%Z).

Definition netEmpty : TripAdvisorTool.Network :=
  TripAdvisorTool.mkNetwork
    (fun _ => Response true 200 (BodyRows [])) (fun _ => 300%Z).

Definition traceOf (r : Outcome (list Feature) * TripAdvisorTool.State)
  : list TripAdvisorTool.Event :=
  TripAdvisorTool.trace (snd r).

(** A runtime whose [toLowerCase] lengthens one string, as the engine's
    does: there U+0130 (capital I with a dot above) becomes "i" followed
    by U+0307 (combining dot above).  Here the unit 221 stands for
    U+0130 and the unit 135 for U+0307. *)
Definition dottedI : string := String "221"%char EmptyString.
Definition iDot : string := String "i"%char (String "135"%char EmptyString).

Fixpoint lowerDotted (s : string) : string :=
  match s with
  | EmptyString => EmptyString
  | String c r =>
      if Ascii.eqb c "221"%char then iDot ++ lowerDotted r
      else String (lower_char c) (lowerDotted r)
  end.

Definition rtDotted : Runtime :=
  mkRuntime (fun _ => 0) (fun _ => false) (fun _ => "0") (fun _ _ => "0")
            (fun _ => 0) (fun _ => None) (fun _ => 1) (of_Z 3)
            trimUnits lowerDotted.

End Examples.

(** ** Statements about the normalised features *)

Module FeatureClaims.

Local Open Scope string_scope.

(** The rating filter as the specification words it: a feature stays
    when its [rating] property is a number at or above the threshold. *)
Definition ratingAtLeast (m : num) (f : Feature) : bool :=
  match Js.get "rating" (properties f) with
  | JNumber r => geb r m
  | _ => false
  end.

Definition propertyNames (f : Feature) : list string :=
  map fst (properties f).

End FeatureClaims.

(** ** What a centroid is drawn from *)

Module GeometryReads.

(** The coordinates [geometryCentroid] looks at: all of them, but for a
    Polygon those of the outer ring only. *)
Definition coordinatesRead (g : Geometry) : list Position :=
  match g with
  | Point c => [c]
  | MultiPoint pts => pts
  | LineString pts => pts
  | MultiLineString lines => concat lines
  | Polygon rings => outer_ring rings
  | MultiPolygon polys => concat (concat polys)
  | GeometryCollection _ => []
  end.

(** The kinds made of points and lines. *)
Definition lineLike (g : Geometry) : bool :=
  match g with
  | MultiPoint _ | LineString _ | MultiLineString _ => true
  | _ => false
  end.

End GeometryReads.

(** ** services/foursquare: the rows that become features *)

Module FsqRows.

(** [typeof lat === "number" && typeof lng === "number"] *)
Definition numeric (r : FsqRow) : option (num * num) :=
  match latitude r, longitude r with
  | JNumber lat, JNumber lng => Some (lat, lng)
  | _, _ => None
  end.

(** A row with numeric coordinates and no [location]: reading
    [r.location.address] throws. *)
Definition lacksLocation (r : FsqRow) : bool :=
  match numeric r, location r with
  | Some _, None => true
  | _, _ => false
  end.

(** The feature of a row, if it has one. *)
Definition rowFeature (r : FsqRow) : list Feature :=
  match numeric r, location r with
  | Some (lat, lng), Some loc => [fsqFeature r loc lng lat]
  | _, _ => []
  end.

End FsqRows.

(** ** lib/tools/nominatim.ts: the stand-alone search tool *)

Module NominatimTool.

Local Open Scope string_scope.

Import NominatimService.

Record Args : Type := mkToolArgs {
  tool_query : string;
  tool_limit : option num;
  tool_countrycodes : option string
}.

(** The object the tool returns: [{ok: true, data}] or
    [{ok: false, error}]; it has no [source]. *)
Inductive PlainResult : Type :=
| PlainOk (data : FeatureCollection)
| PlainError (error : string).

Definition request (rt : Runtime) (env : Env) (args : Args) : Request :=
  mkRequest
    ([("q", tool_query args);
      ("format", "jsonv2");
      ("addressdetails", "1");
      ("polygon_geojson", "1");
      ("limit", numberToString rt (opt_default (tool_limit args) (of_Z 5)))]
       ++ match tool_countrycodes args with
          | Some cc => if truthy_string cc then [("countrycodes", cc)] else []
          | None => []
          end)
    [("User-Agent", opt_default (APP_USER_AGENT env) "MapChat/0.1")].

(** [execute({query, limit, countrycodes})]: the result and the requests
    made.  Neither [fetch] nor [res.json()] is guarded: when one throws,
    the call throws. *)
Definition execute (rt : Runtime) (env : Env)
           (fetch : Request -> FetchOutcome) (args : Args)
  : Outcome PlainResult * list Request :=
  let req := request rt env args in
  (match fetch req with
   | FetchThrows _ => Thrown
   | Response false status _ =>
       Returned (PlainError ("Nominatim error " ++ numberToString rt (of_Z status)))
   | Response true _ BodyThrows => Thrown
   | Response true _ body =>
       let rows := match body with BodyRows rows => rows | _ => [] end in
       Returned (PlainOk (nominatimToFeatureCollection rt rows))
   end,
   [req]).

End NominatimTool.

(** ** lib/tools/tripadvisor.ts: [tripAdvisorByPlaceTool] *)

Module tripAdvisorByPlaceTool.

Local Open Scope string_scope.

Import NominatimService TripAdvisorTool.

Inductive Category : Type := hotels | restaurants | attractions.

Definition categoryText (c : Category) : string :=
  match c with
  | hotels => "hotels"
  | restaurants => "restaurants"
  | attractions => "attractions"
  end.

Record Input : Type := mkInput {
  place : string;
  category : Category;
  radiusKm : num
}.

(** [{lng: c[0], lat: c[1]}] *)
Definition centerOf (c : Position) : Center := mkCenter (fst c) (snd c).

(** [(geom.coordinates[0]?.[0])?.[0]] of a MultiPolygon. *)
Definition firstOfFirst (coords : list (list (list Position)))
  : option Position :=
  match coords with
  | (ring :: _) :: _ => hd_error ring
  | _ => None
  end.

(** Step 1 of [execute] after the place is resolved: the centroid of
    the geometry, else its first coordinate.  [None] is the failure
    "No usable coordinate"; reading [geom.coordinates[0][0]] of a
    Polygon without rings throws. *)
Definition resolveCenter (geom : option Geometry) : Outcome (option Center) :=
  match geom with
  | None => Returned None
  | Some g =>
      match TripAdvisorGeo.geometryCentroid g with
      | Some c => Returned (Some (centerOf c))
      | None =>
          match g with
          | Point c => Returned (Some (centerOf c))
          | Polygon coords =>
              match coords with
              | [] => Thrown
              | ring :: _ => Returned (option_map centerOf (hd_error ring))
              end
          | MultiPolygon coords =>
              Returned (option_map centerOf (firstOfFirst coords))
          | _ => Returned None
          end
      end
  end.

(** The request to TripAdvisor's nearby search. *)
Record TARequest : Type := mkTARequest {
  ta_params : list (string * string);
  ta_headers : list (string * string)
}.

Definition nearbyRequest (rt : Runtime) (key : string) (center : Center)
           (input : Input) : TARequest :=
  mkTARequest
    [("key", key);
     ("latLong",
      numberToString rt (c_lat center) ++ "%2C" ++ numberToString rt (c_lng center));
     ("category", categoryText (category input));
     ("radius", numberToString rt (radiusKm input));
     ("radiusUnit", "km")]
    [("accept", "application/json")].

(** A member of the answer that is not null: an array of items, or
    something that cannot be iterated (an object, a number, a
    boolean). *)
Inductive TAField : Type :=
| FieldItems (items : list TAItem)
| FieldOther.

(** The members [data] and [results] of the answer, [None] when absent
    or null. *)
Record TAJson : Type := mkTAJson {
  json_data : option TAField;
  json_results : option TAField
}.

Inductive TABody : Type :=
| TABodyJson (json : option TAJson)   (* [None]: the body is [null] *)
| TABodyThrows.

Inductive TAFetchOutcome : Type :=
| TAFetchThrows
| TAResponse (ok : bool) (status : Z) (body : TABody).

(** [Array.isArray(json?.data) ? json.data
     : (json?.data ?? json?.results ?? [])] *)
Definition itemsOf (json : option TAJson) : TAField :=
  match json with
  | None => FieldItems []
  | Some j =>
      match json_data j with
      | Some d => d
      | None =>
          match json_results j with
          | Some r => r
          | None => FieldItems []
          end
      end
  end.

(** TripAdvisor as the tool meets it: the answer to a request and the
    time the request takes. *)
Record TripAdvisor : Type := mkTripAdvisor {
  nearby : TARequest -> TAFetchOutcome;
  nearbyLatency : TARequest -> Z
}.

(** What [execute] did: the result, the process state afterwards, and
    the requests of steps 1 and 2. *)
Record Run : Type := mkRun {
  result : Outcome NominatimTool.PlainResult;
  stateAfter : State;
  placeRequests : list Request;
  taRequests : list TARequest
}.

Definition MISSING_KEY : string := "Missing TRIPADVISOR_API_KEY (server env var)".

Definition notLocated (place : string) : string :=
  "Could not locate " ++ Json.name_text place ++ " via Nominatim".

Definition NO_COORDINATE : string :=
  "No usable coordinate from Nominatim geometry".

(** [execute({place, category, radiusKm})], with
    [process.env.TRIPADVISOR_API_KEY] as [apiKey]. *)
Definition execute (rt : Runtime) (env : Env) (apiKey : option string)
           (net : Network) (ta : TripAdvisor) (input : Input) (st : State)
  : Run :=
  if negb (truthy_opt_string apiKey) then
    mkRun (Returned (NominatimTool.PlainError MISSING_KEY)) st [] []
  else
    let args := NominatimTool.mkToolArgs (place input) (Some 1) None in
    let '(nomi, placeReqs) := NominatimTool.execute rt env (answer net) args in
    let st1 :=
      mkState (clock st + latency net (NominatimTool.request rt env args))%Z
              (geocodeCache st) (trace st) in
    let fail error :=
      mkRun (Returned (NominatimTool.PlainError error)) st1 placeReqs [] in
    match nomi with
    | Thrown => mkRun Thrown st1 placeReqs []
    | Returned (NominatimTool.PlainError _) => fail (notLocated (place input))
    | Returned (NominatimTool.PlainOk data) =>
        match features data with
        | [] => fail (notLocated (place input))
        | first :: _ =>
            match resolveCenter (geometry first) with
            | Thrown => mkRun Thrown st1 placeReqs []
            | Returned None => fail NO_COORDINATE
            | Returned (Some center) =>
                let req :=
                  nearbyRequest rt (opt_default apiKey EmptyString) center input in
                let st2 :=
                  mkState (clock st1 + nearbyLatency ta req)%Z
                          (geocodeCache st1) (trace st1) in
                match nearby ta req with
                | TAFetchThrows => mkRun Thrown st2 placeReqs [req]
                | TAResponse false status _ =>
                    mkRun (Returned
                             (NominatimTool.PlainError
                                ("TripAdvisor error "
                                   ++ numberToString rt (of_Z status))))
                          st2 placeReqs [req]
                | TAResponse true _ TABodyThrows =>
                    mkRun Thrown st2 placeReqs [req]
                | TAResponse true _ (TABodyJson json) =>
                    match itemsOf json with
                    | FieldOther => mkRun Thrown st2 placeReqs [req]
                    | FieldItems items =>
                        match buildPins rt env net (place input) center items st2 with
                        | (Returned fc, st3) =>
                            mkRun (Returned (NominatimTool.PlainOk fc))
                                  st3 placeReqs [req]
                        | (Thrown, st3) => mkRun Thrown st3 placeReqs [req]
                        end
                    end
                end
            end
        end
    end.

(** *** The pin loop, item by item *)

(** [asNumber(item.latitude)] and [asNumber(item.longitude)], when both
    are numbers: the pin's longitude and latitude. *)
Definition ownCoordinates (rt : Runtime) (item : TAItem) : option (num * num) :=
  match asNumber rt (ta_latitude item), asNumber rt (ta_longitude item) with
  | Some latTA, Some lngTA => Some (lngTA, latTA)
  | _, _ => None
  end.

(** An item the loop handles without a lookup: it brings its
    coordinates, or it has no address to look up. *)
Definition offline (rt : Runtime) (item : TAItem) : bool :=
  match ownCoordinates rt item with
  | Some _ => true
  | None => negb (truthy_opt_string (itemAddress item))
  end.

Definition ownPin (rt : Runtime) (item : TAItem) : list Feature :=
  match ownCoordinates rt item with
  | Some (lng, lat) => [poiFeature item lng lat]
  | None => []
  end.

(** The time the events of a trace take: a request its latency, a pause
    its length, a cache hit none. *)
Definition elapsed (net : Network) (evs : list Event) : Z :=
  fold_right
    (fun e t =>
       match e with
       | EvCacheHit _ => t
       | EvGeocodeFetch req => (latency net req + t)%Z
       | EvSleep ms => (ms + t)%Z
       end)
    0%Z evs.

Definition isSleep (e : Event) : bool :=
  match e with
  | EvSleep _ => true
  | _ => false
  end.

Definition isGeocodeFetch (e : Event) : bool :=
  match e with
  | EvGeocodeFetch _ => true
  | _ => false
  end.

End tripAdvisorByPlaceTool.

(** ** components/MapCreator: what the map shows for a tool result *)

Module MapCreator.

Local Open Scope string_scope.

(** The positions [collectCoords] pushes for one geometry; a
    GeometryCollection contributes none. *)
Definition coordsOf (g : Geometry) : list Position :=
  match g with
  | Point c => [c]
  | MultiPoint pts => pts
  | LineString pts => pts
  | MultiLineString lines =>
      fold_left (fun pts line => pts ++ line)%list lines []
  | Polygon rings =>
      fold_left (fun pts ring => pts ++ ring)%list rings []
  | MultiPolygon polys =>
      fold_left
        (fun pts poly => fold_left (fun pts ring => pts ++ ring)%list poly pts)
        polys []
  | GeometryCollection _ => []
  end.

(** [collectCoords(fc)] *)
Definition collectCoords (fc : FeatureCollection) : list Position :=
  fold_left
    (fun pts f =>
       match geometry f with
       | None => pts
       | Some g => (pts ++ coordsOf g)%list
       end)
    (features fc) [].

(** [f.properties?.source === "nominatim"] *)
Definition isSearchCenter (f : Feature) : bool :=
  match Js.get "source" (properties f) with
  | JString s => String.eqb s "nominatim"
  | _ => false
  end.

(** The [fc.features.map] of [markFSQResults] that fills [sc] and
    [recs]. *)
Definition separate (fs : list Feature) : list Feature * list Feature :=
  fold_left
    (fun acc f =>
       if isSearchCenter f then (fst acc ++ [f], snd acc)%list
       else (fst acc, snd acc ++ [f])%list)
    fs ([], []).

Definition truthy (v : JsVal) : bool :=
  match v with
  | JUndefined | JNull => false
  | JBool b => b
  | JNumber n => negb (Num.eqb n 0)
  | JString s => truthy_string s
  | JArray _ => true
  end.

(** [v ?? d] *)
Definition nullish_default (v d : JsVal) : JsVal :=
  match v with
  | JUndefined | JNull => d
  | _ => v
  end.

(** What the popup of a marker interpolates: the name, the address or
    "-", the distance when it is truthy, and the tags joined. *)
Record Popup : Type := mkPopup {
  popup_name : JsVal;
  popup_address : JsVal;
  popup_distance : option JsVal;
  popup_tags : list JsVal
}.

Record Marker : Type := mkMarker { lngLat : Position; popup : Popup }.

(** What the handlers rely on from maplibre-gl, which is not part of
    the repository: the pairs its [LngLat] accepts (it rejects NaN and
    a latitude outside [-90, 90]).  [setLngLat] and [bounds.extend]
    convert their argument to a [LngLat] and throw on a pair it
    rejects. *)
Record MapLibrary : Type := mkMapLibrary { acceptsLngLat : Position -> bool }.

(** The [for (const f of recfc.features)] loop: the markers pushed, and
    whether the loop threw.  Reading [coordinates] of a null geometry
    throws; [setLngLat] takes a longitude/latitude pair that the
    library accepts and throws on the nested arrays of the other kinds
    of geometry; and [categories.join] throws when [categories] is not
    an array. *)
Fixpoint markerLoop (lib : MapLibrary) (recs : list Feature)
         (markers : list Marker) : list Marker * bool :=
  match recs with
  | [] => (markers, false)
  | f :: rest =>
      match geometry f with
      | Some (Point c) =>
          if acceptsLngLat lib c then
            match Js.get "categories" (properties f) with
            | JArray tags =>
                let distance := Js.get "distance" (properties f) in
                markerLoop lib rest
                  (markers
                     ++ [mkMarker c
                           (mkPopup (Js.get "name" (properties f))
                                    (nullish_default (Js.get "address" (properties f))
                                                     (JString "-"))
                                    (if truthy distance then Some distance else None)
                                    tags)])%list
            | _ => (markers, true)
            end
          else (markers, true)
      | _ => (markers, true)
      end
  end.

(** What the map shows: the data of the two sources, the markers, and
    the positions of the last [fitBounds]. *)
Record View : Type := mkView {
  searchResult : list Feature;
  recommendationResult : list Feature;
  markers : list Marker;
  fitted : option (list Position)
}.

(** The "fit bounds" block: the positions the view is fitted to
    afterwards, and whether the block threw.  The view is moved only
    when there is a coordinate, and [bounds.extend] throws on the first
    pair the library rejects. *)
Definition fitBounds (lib : MapLibrary) (fc : FeatureCollection)
           (before : option (list Position)) : option (list Position) * bool :=
  match collectCoords fc with
  | [] => (before, false)
  | coords =>
      if forallb (acceptsLngLat lib) coords then (Some coords, false)
      else (before, true)
  end.

(** [markNominatimResults]: the handler of "nominatim-tool-complete";
    the view afterwards and whether the handler threw. *)
Definition markNominatimResults (lib : MapLibrary) (v : View)
           (fc : FeatureCollection) : View * bool :=
  let '(fit, threw) := fitBounds lib fc (fitted v) in
  (mkView (features fc) (recommendationResult v) (markers v) fit, threw).

(** [markFSQResults]: the handler of "fsq-tool-complete"; the view
    afterwards and whether the handler threw. *)
Definition markFSQResults (lib : MapLibrary) (v : View)
           (fc : FeatureCollection) : View * bool :=
  let '(sc, recs) := separate (features fc) in
  let '(ms, threw) := markerLoop lib recs [] in
  if threw then (mkView sc recs ms (fitted v), true)
  else
    let '(fit, threw) := fitBounds lib fc (fitted v) in
    (mkView sc recs ms fit, threw).

(** The events Chat dispatches to the map. *)
Inductive MapEvent : Type :=
| NominatimToolComplete (detail : FeatureCollection)
| FsqToolComplete (detail : FeatureCollection).

(** [if (output.ok && output.data && ...)
       if (output.source === "nominatim") ... else ...] *)
Definition dispatch (output : ToolResult) : option MapEvent :=
  match output with
  | Ok data SrcNominatim => Some (NominatimToolComplete data)
  | Ok data SrcFsq => Some (FsqToolComplete data)
  | Failure _ _ => None
  end.

(** The view after the tool result [output] has reached the map. *)
Definition render (lib : MapLibrary) (v : View) (output : ToolResult)
  : View * bool :=
  match dispatch output with
  | Some (NominatimToolComplete fc) => markNominatimResults lib v fc
  | Some (FsqToolComplete fc) => markFSQResults lib v fc
  | None => (v, false)
  end.

(** The positions one feature contributes to [collectCoords]. *)
Definition featureCoords (f : Feature) : list Position :=
  match geometry f with
  | None => []
  | Some g => coordsOf g
  end.

(** A recommendation the marker loop can mark: a Point that the library
    accepts, with a [categories] that is an array. *)
Definition markable (lib : MapLibrary) (f : Feature) : bool :=
  match geometry f, Js.get "categories" (properties f) with
  | Some (Point c), JArray _ => acceptsLngLat lib c
  | _, _ => false
  end.

(** The marker of a recommendation that can be marked. *)
Definition markerOf (f : Feature) : list Marker :=
  match geometry f, Js.get "categories" (properties f) with
  | Some (Point c), JArray tags =>
      let distance := Js.get "distance" (properties f) in
      [mkMarker c
         (mkPopup (Js.get "name" (properties f))
                  (nullish_default (Js.get "address" (properties f))
                                   (JString "-"))
                  (if truthy distance then Some distance else None)
                  tags)]
  | _, _ => []
  end.

(** The recommendations before the first one that cannot be marked. *)
Fixpoint leading (lib : MapLibrary) (recs : list Feature) : list Feature :=
  match recs with
  | [] => []
  | f :: rest => if markable lib f then f :: leading lib rest else []
  end.

(** The positions of a collection that the library accepts. *)
Definition accepted (lib : MapLibrary) (fc : FeatureCollection) : bool :=
  forallb (acceptsLngLat lib) (collectCoords fc).

(** A library that accepts the latitudes from -90 to 90. *)
Definition latitudes : MapLibrary :=
  mkMapLibrary
    (fun p => Qle_bool (of_Z (-90)) (snd p) && Qle_bool (snd p) (of_Z 90)).

End MapCreator.

(** ** services/nominatim: how long a result is kept *)

Module ResolverCalls.

Import NominatimService.

(** The TTL with which [runNominatimSearch] stores the result [v] of a
    call with arguments [args]. *)
Definition keptFor (rt : Runtime) (args : NominatimSearchArgs)
           (v : ToolResult) : Z :=
  match v with
  | Ok _ _ => CACHE_TTL_MS
  | Failure _ _ =>
      if tooShort rt (query args) then CACHE_TTL_MS else (2 * 60 * 1000)%Z
  end.

End ResolverCalls.

(** ** Further inputs of worked examples *)

Module MoreExamples.

Local Open Scope string_scope.

Import NominatimService.

(** A road: Nominatim answers a LineString. *)
Definition road : Geometry := LineString [pt 0 0; pt 4 2].

Definition roadRow : NominatimRow :=
  mkNominatimRow (Some road) (JString "103.7") (JString "1.34")
                 (JString "Jurong West Street") (JString "highway")
                 (JString "residential") (JNumber 1) (JString "way") (JNumber two).

Definition worldRoad : World :=
  mkWorld 0 0 (fun _ => Response true 200 (BodyRows [roadRow])).

(** A Foursquare row without coordinates, and one with coordinates and
    no [location]. *)
Definition unplaced : FsqRow :=
  mkFsqRow JUndefined JUndefined (JString "id2") (JString "Stall")
           None None JUndefined.

Definition homeless : FsqRow :=
  mkFsqRow (JNumber 1) (JNumber two) (JString "id3") (JString "Kiosk")
           None None JUndefined.

(** An environment without the Foursquare key. *)
Definition envNoKey : Env := mkEnv None None.

(** A request for restaurants near another place. *)
Definition inputBugis : foursquareByPlaceTool.Input :=
  foursquareByPlaceTool.mkInput "Bugis" "restaurants" (of_Z 3) (of_Z 10) None.

End MoreExamples.

(** ** Inputs of the TripAdvisor examples *)

Module TripExamples.

Local Open Scope string_scope.

Import tripAdvisorByPlaceTool.

(** TripAdvisor answers one item that has an address and no
    coordinates. *)
Definition taOneStall : TripAdvisor :=
  mkTripAdvisor
    (fun _ =>
       TAResponse true 200
         (TABodyJson
            (Some (mkTAJson
                     (Some (FieldItems [Examples.stall "A" "1 Jurong West"]))
                     None))))
    (fun _ => 200%Z).

Definition hotelsNear : Input := mkInput "Jurong Point" hotels (of_Z 3).

(** An item that brings its coordinates, as numbers. *)
Definition placed : TAItem :=
  mkTAItem (Some "2") (Some "Inn") None None (JNumber 1) (JNumber two).

(** An item with neither coordinates nor an address. *)
Definition nowhere : TAItem :=
  mkTAItem (Some "3") (Some "Ghost") None None JUndefined JUndefined.

End TripExamples.

(** ** The chained resolver after the place is resolved *)

Module ChainedSteps.

Local Open Scope string_scope.

Import NominatimService FoursquareService foursquareByPlaceTool.

(** Steps 1 to 4 of [execute] once [runNominatimSearch] has answered
    [nomi]: the result and the Foursquare requests. *)
Definition afterPlace (rt : Runtime) (env : Env)
           (placeSearch : FsqParams -> PlaceSearchOutcome)
           (input : Input) (nomi : Outcome ToolResult)
  : Outcome ToolResult * list FsqParams :=
  let notFound :=
    Failure ("Could not locate " ++ Json.name_text (place input)) None in
  match nomi with
  | Thrown => (Thrown, [])
  | Returned (Failure _ _) => (Returned notFound, [])
  | Returned (Ok data _) =>
      match features data with
      | [] => (Returned notFound, [])
      | first :: _ =>
          match ChainedGeo.centroid (geometry first) with
          | None =>
              (Returned (Failure "No usable centroid from place geometry" None),
               [])
          | Some (lng, lat) =>
              let '(sr, requests) :=
                fsqSearch rt env placeSearch
                  (mkOpts (mkLatLng lat lng) (Some (in_query input))
                          (Some (Math_round (radiusKm input * of_Z 1000)))
                          (Some (in_limit input))) in
              match sr with
              | FsqError error => (Returned (Failure error None), requests)
              | FsqOk results =>
                  match fsqResultsToGeoJSON results with
                  | Thrown => (Thrown, requests)
                  | Returned fc =>
                      (Returned
                         (Ok (mkFC (searchCenter (place input) (geometry first)
                                      :: features
                                           (filterByRating rt (minRating input) fc)))
                             SrcFsq),
                       requests)
                  end
              end
          end
      end
  end.

End ChainedSteps.

(** ** The specification's example of the rating filter *)

Module RatingExamples.

Local Open Scope string_scope.

(** Features with the ratings 4.5, none, 3.9 and 4. *)
Definition mixed : FeatureCollection :=
  mkFC [mkFeature [("name", JString "a"); ("rating", JNumber (Q2Qc (45 # 10)))] None;
        mkFeature [("name", JString "b")] None;
        mkFeature [("name", JString "c"); ("rating", JNumber (Q2Qc (39 # 10)))] None;
        mkFeature [("name", JString "d"); ("rating", JNumber (of_Z 4))] None].

End RatingExamples.

(** ** Histories that fill the caches *)

Module CapacityExamples.

Import NominatimService.

(** Distinct two-letter names, for [i] below 512. *)
Definition label (i : nat) : string :=
  String (ascii_of_nat (97 + i / 32))
         (String (ascii_of_nat (97 + i mod 32)) EmptyString).

Definition placeKey (i : nat) : string :=
  cacheKey Examples.rt0 (foursquareByPlaceTool.placeArgs (label i)).

Definition addressKey (i : nat) : string :=
  TripAdvisorTool.geocodeKey Examples.rt0 (label i) None.

Definition place0 : ToolResult :=
  Ok (toFeatureCollection Examples.rt0 [Examples.polygonRow]) SrcNominatim.

(** 301 results stored under 301 keys, then the second key read. *)
Definition placeOps : list (TtlCache.CacheOp ToolResult) :=
  map (fun i => TtlCache.OpSet (Z.of_nat i) (placeKey i) place0 600000)
      (seq 0 301)
  ++ [TtlCache.OpGet ToolResult 400 (placeKey 1)].

(** 502 coordinates stored under 502 keys. *)
Definition addressOps : list (TtlCache.CacheOp TripAdvisorTool.CacheValue) :=
  map (fun i => TtlCache.OpSet (Z.of_nat i) (addressKey i)
                               (TripAdvisorTool.mkCacheValue 0 0) 86400000)
      (seq 0 502).

(** 301 places resolved one after the other. *)
Definition calls : list Call :=
  map (fun i => mkCall Examples.world0 (foursquareByPlaceTool.placeArgs (label i)))
      (seq 0 301).

(** 502 items without coordinates, each at an address of its own. *)
Definition stalls : list TAItem :=
  map (fun i => Examples.stall "A" (label i)) (seq 0 502).

End CapacityExamples.

(** ** The centroid utilities in double precision

    [closeRing], [ringCentroid] and [geometryCentroid] of
    lib/tools/tripadvisor.ts and [centroid] of the chained resolver
    once more, statement by statement, with a number as the double it
    is: [+], [-], [*] and [/] round to nearest, [===] and [>] are the
    IEEE comparisons (a NaN equals nothing, the two zeros are equal). *)

Module Doubles.

Import PrimFloat.
Local Open Scope float_scope.

(** [n] as a number, for the length of an array (exact below 2^53). *)
Definition of_nat (n : nat) : float := of_uint63 (Uint63.of_Z (Z.of_nat n)).

Definition Position : Type := (float * float)%type.

#[warnings="-register-all"]
Inductive Geometry : Type :=
| Point (coordinates : Position)
| MultiPoint (coordinates : list Position)
| LineString (coordinates : list Position)
| MultiLineString (coordinates : list (list Position))
| Polygon (coordinates : list (list Position))
| MultiPolygon (coordinates : list (list (list Position)))
| GeometryCollection (geometries : list Geometry).

Definition origin : Position := (0, 0).

(** [first[0] === last[0] && first[1] === last[1]] *)
Definition pos_eqb (p q : Position) : bool :=
  (fst p =? fst q) && (snd p =? snd q).

(** [pts.reduce(([ax, ay], [x, y]) => [ax + x, ay + y], [0, 0])] *)
Definition sum_positions (pts : list Position) : Position :=
  fold_left (fun acc p => (fst acc + fst p, snd acc + snd p)) pts origin.

(** [[sx / pts.length, sy / pts.length]] *)
Definition average (pts : list Position) : Position :=
  let s := sum_positions pts in
  (fst s / of_nat (length pts), snd s / of_nat (length pts)).

Record Shoelace : Type := mkShoelace { sl_a : float; sl_cx : float; sl_cy : float }.

Definition shoelace0 : Shoelace := mkShoelace 0 0 0.

(** [x1 * y2 - x2 * y1], the term an edge adds to the area sum. *)
Definition cross (p q : Position) : float := fst p * snd q - fst q * snd p.

(** [cross = x1*y2 - x2*y1; a += cross; cx += (x1+x2)*cross;
     cy += (y1+y2)*cross] *)
Definition shoelace_add (acc : Shoelace) (p q : Position) : Shoelace :=
  mkShoelace (sl_a acc + cross p q)
             (sl_cx acc + (fst p + fst q) * cross p q)
             (sl_cy acc + (snd p + snd q) * cross p q).

(** lib/tools/tripadvisor.ts *)
Module TripAdvisorGeo.

Definition closeRing (ring : list Position) : list Position :=
  match ring with
  | [] => ring
  | first :: _ =>
      let last := List.last ring first in
      if pos_eqb first last then ring else ring ++ [first]
  end.

Record RingCentroid : Type :=
  mkRC { rc_cx : float; rc_cy : float; rc_area : float }.

Definition ringLoop (r : list Position) : Shoelace :=
  fold_left
    (fun acc i => shoelace_add acc (nth i r origin) (nth (i + 1) r origin))
    (seq 0 (length r - 1)) shoelace0.

Definition ringCentroid (ring : list Position) : option RingCentroid :=
  let r := closeRing ring in
  let s := ringLoop r in
  let twiceArea := sl_a s in
  if twiceArea =? 0 then None
  else Some (mkRC (sl_cx s / (3 * twiceArea))
                  (sl_cy s / (3 * twiceArea))
                  (twiceArea / 2)).

Record MPAcc : Type := mkMP { sumCx : float; sumCy : float; sumA : float }.

Definition mp_step (acc : MPAcc) (poly : list (list Position)) : MPAcc :=
  match poly with
  | [] => acc
  | outer :: _ =>
      match outer with
      | [] => acc
      | _ :: _ =>
          match ringCentroid outer with
          | Some rc =>
              mkMP (sumCx acc + rc_cx rc * abs (rc_area rc))
                   (sumCy acc + rc_cy rc * abs (rc_area rc))
                   (sumA acc + abs (rc_area rc))
          | None => acc
          end
      end
  end.

Definition average_opt (pts : list Position) : option Position :=
  match pts with
  | [] => None
  | _ :: _ => Some (average pts)
  end.

Definition geometryCentroid (g : Geometry) : option Position :=
  match g with
  | Point c => Some c
  | MultiPoint pts => average_opt pts
  | LineString pts => average_opt pts
  | MultiLineString lines => average_opt (concat lines)
  | Polygon rings =>
      match rings with
      | [] => None
      | outer :: _ =>
          match outer with
          | [] => None
          | _ :: _ =>
              match ringCentroid outer with
              | Some rc => Some (rc_cx rc, rc_cy rc)
              | None => Some (average outer)
              end
          end
      end
  | MultiPolygon polys =>
      let acc := fold_left mp_step polys (mkMP 0 0 0) in
      if 0 <? sumA acc
      then Some (sumCx acc / sumA acc, sumCy acc / sumA acc)
      else average_opt (concat (concat polys))
  | GeometryCollection _ => None
  end.

End TripAdvisorGeo.

(** The Foursquare chained resolver *)
Module ChainedGeo.

Definition wrapLoop (ring : list Position) : Shoelace :=
  let n := length ring in
  fold_left
    (fun acc i =>
       shoelace_add acc (nth i ring origin) (nth ((i + 1) mod n) ring origin))
    (seq 0 n) shoelace0.

Definition mp_step (acc : Shoelace) (poly : list (list Position)) : Shoelace :=
  let ring := match poly with [] => [] | r :: _ => r end in
  if (length ring <? 3)%nat then acc
  else
    let s := wrapLoop ring in
    if sl_a s =? 0 then acc
    else mkShoelace (sl_a acc + sl_a s) (sl_cx acc + sl_cx s) (sl_cy acc + sl_cy s).

Definition centroid (g : option Geometry) : option Position :=
  match g with
  | None => None
  | Some (Point c) => Some c
  | Some (Polygon coords) =>
      let ring := match coords with [] => [] | r :: _ => r end in
      if (length ring <? 3)%nat then hd_error ring
      else
        let s := wrapLoop ring in
        if sl_a s =? 0 then hd_error ring
        else Some (sl_cx s / (3 * sl_a s), sl_cy s / (3 * sl_a s))
  | Some (MultiPolygon polys) =>
      let s := fold_left mp_step polys shoelace0 in
      if sl_a s =? 0 then
        match polys with
        | (ring :: _) :: _ => hd_error ring
        | _ => None
        end
      else Some (sl_cx s / (3 * sl_a s), sl_cy s / (3 * sl_a s))
  | Some _ => None
  end.

End ChainedGeo.

(** *** The sums of the two loops, read off the ring

    Both loops add the same three terms edge by edge, from left to
    right, each operation rounded. *)

(** The consecutive pairs of a list of points. *)
Definition pairs (r : list Position) : list (Position * Position) :=
  combine r (tl r).

(** The edges of a ring, the last point joined back to the first. *)
Definition edges (ring : list Position) : list (Position * Position) :=
  combine ring (tl ring ++ firstn 1 ring).

Definition sums (es : list (Position * Position)) : Shoelace :=
  fold_left (fun acc e => shoelace_add acc (fst e) (snd e)) es shoelace0.

(** [[cx / (3 * a), cy / (3 * a)]] *)
Definition quotient (s : Shoelace) : Position :=
  (sl_cx s / (3 * sl_a s), sl_cy s / (3 * sl_a s)).

(** The terms of the edge from [p] to [q] are finite: both products of
    the cross term and both sums of coordinates. *)
Definition finiteEdge (p q : Position) : bool :=
  is_finite (fst p * snd q) && is_finite (fst q * snd p)
  && is_finite (fst p + fst q) && is_finite (snd p + snd q).

(** The ring does not repeat its first point at its end, or the terms
    of the edge from the repeated point back to the first are finite. *)
Definition plainClosing (ring : list Position) : bool :=
  match ring with
  | [] => true
  | first :: _ =>
      let last := List.last ring first in
      negb (pos_eqb first last) || finiteEdge last first
  end.

(** The cross terms of all edges of the ring are finite. *)
Definition finiteCross (ring : list Position) : bool :=
  forallb (fun e => is_finite (cross (fst e) (snd e))) (edges ring).

(** Numerically equal numbers: the same double, or two zeros. *)
Definition same (x y : float) : Prop :=
  x = y
  \/ exists s t, FloatOps.Prim2SF x = SpecFloat.S754_zero s
                 /\ FloatOps.Prim2SF y = SpecFloat.S754_zero t.

(** None of the three sums is the negative zero. *)
Definition noNegativeZero (s : Shoelace) : Prop :=
  FloatOps.Prim2SF (sl_a s) <> SpecFloat.S754_zero true
  /\ FloatOps.Prim2SF (sl_cx s) <> SpecFloat.S754_zero true
  /\ FloatOps.Prim2SF (sl_cy s) <> SpecFloat.S754_zero true.

(** The member polygons of a MultiPolygon that count: the centroid of
    the outer ring and the absolute value of its area, for each outer
    ring that is not empty and whose computed sum is not zero. *)
Definition member (poly : list (list Position)) : list (Position * float) :=
  match poly with
  | [] => []
  | outer :: _ =>
      match outer with
      | [] => []
      | _ :: _ =>
          let s := sums (pairs (TripAdvisorGeo.closeRing outer)) in
          if sl_a s =? 0 then [] else [(quotient s, abs (sl_a s / 2))]
      end
  end.

Definition members (polys : list (list (list Position)))
  : list (Position * float) :=
  flat_map member polys.

(** A sum of numbers, added from left to right from 0. *)
Definition total (l : list float) : float := fold_left add l 0.

(** The mean of points weighted by [w]: (sum of w p) / (sum of w). *)
Definition weighted_mean (l : list (Position * float)) : Position :=
  let w := total (map snd l) in
  (total (map (fun m => fst (fst m) * snd m) l) / w,
   total (map (fun m => snd (fst m) * snd m) l) / w).

(** A member polygon the chained resolver skips: its outer ring has
    fewer than three points or a computed sum of zero. *)
Definition skipped (poly : list (list Position)) : bool :=
  let ring := match poly with [] => [] | r :: _ => r end in
  (length ring <? 3)%nat || (sl_a (sums (edges ring)) =? 0).

(** [polys[0]?.[0]?.[0]] *)
Definition first_coordinate (polys : list (list (list Position)))
  : option Position :=
  match polys with
  | (ring :: _) :: _ => hd_error ring
  | _ => None
  end.

(** *** The exact value of a double, and the exact shoelace sum *)

(** The rational a finite double stands for (0 for the zeros; the
    infinities and NaN stand for no rational and are given 0). *)
Definition exact (x : float) : Q :=
  match FloatOps.Prim2SF x with
  | SpecFloat.S754_finite s m e =>
      ((if s then Zneg m else Zpos m) # 1) * Qpower 2 e
  | _ => 0%Q
  end%Q.

(** Twice the signed area of the ring, in exact arithmetic. *)
Definition exact_area2 (ring : list Position) : Q :=
  fold_right
    (fun e acc =>
       (exact (fst (fst e)) * exact (snd (snd e))
        - exact (fst (snd e)) * exact (snd (fst e)) + acc)%Q)
    0%Q (edges ring).

End Doubles.

(** ** Rings and MultiPolygons of the worked centroid examples *)

Module DoubleExamples.

Import PrimFloat.
Import Doubles.
Local Open Scope float_scope.

(** Three points on the parallel 35.68. *)
#[warnings="-inexact-float"]
Definition collinear : list Position :=
  [(0.1, 35.68); (0.4, 35.68); (0.7, 35.68)].

(** Three points on the axis, two points. *)
Definition onAxis : list Position := [(0, 0); (1, 0); (2, 0)].

Definition twoPoints : list Position := [(0, 0); (2, 0)].

(** A right triangle with legs of 2^-50 at (1, 1). *)
Definition sliver : list Position :=
  [(1, 1); (1 + 0x1p-50, 1); (1, 1 + 0x1p-50)].

(** A closed ring through a far point. *)
#[warnings="-inexact-float"]
Definition huge : list Position :=
  [(1e200, 1e200); (0, 0); (1, 0); (1e200, 1e200)].

(** A triangle in Singapore, open and closed. *)
#[warnings="-inexact-float"]
Definition triangle : list Position :=
  [(103.7, 1.34); (103.8, 1.34); (103.7, 1.44)].

#[warnings="-inexact-float"]
Definition closedTriangle : list Position := triangle ++ [(103.7, 1.34)].

#[warnings="-inexact-float"]
Definition triangleCentre : Position :=
  (103.73333333345232, 1.3733333333350481).

(** Two triangles of areas 8 and 2, and a MultiPolygon of two flat
    members. *)
Definition islands : list (list (list Position)) :=
  [ [[(0, 0); (4, 0); (0, 4)]]; [[(10, 0); (12, 0); (10, 2)]] ].

#[warnings="-inexact-float"]
Definition islandsCentre : Position := (3.2000000000000002, 1.2).

Definition flats : list (list (list Position)) := [ [onAxis]; [twoPoints] ].

(** The same two triangles, the second one turned clockwise. *)
Definition opposed : list (list (list Position)) :=
  [ [[(0, 0); (4, 0); (0, 4)]]; [[(10, 0); (10, 2); (12, 0)]] ].

#[warnings="-inexact-float"]
Definition opposedCentre : Position :=
  (-1.7777777777777777, 1.5555555555555556).

End DoubleExamples.

(* ================================================================= *)
(** * Properties *)

(** ** Arithmetic helpers *)

Lemma eqb_true_iff (a b : num) : eqb a b = true <-> a = b.
Proof.
  unfold eqb. rewrite Qeq_bool_iff. split.
  - apply Qc_is_canon.
  - intros ->. reflexivity.
Qed.

Lemma eqb_false_iff (a b : num) : eqb a b = false <-> a <> b.
Proof.
  rewrite <- eqb_true_iff. destruct (eqb a b); split; congruence.
Qed.

Lemma pos_eqb_true_iff (p q : Position) : pos_eqb p q = true <-> p = q.
Proof.
  destruct p as [px py], q as [qx qy]. unfold pos_eqb. simpl.
  rewrite andb_true_iff, !eqb_true_iff. split.
  - intros [-> ->]. reflexivity.
  - intros H. inversion H. auto.
Qed.

Lemma shoelace_add_same (acc : Shoelace) (p : Position) :
  shoelace_add acc p p = acc.
Proof.
  destruct acc as [a cx cy], p as [x y]. unfold shoelace_add. simpl.
  f_equal; ring.
Qed.

(** ** Loops over indices are folds over edges *)

Lemma fold_left_ext_seq (A : Type) (f g : A -> nat -> A) (n : nat) :
  forall (start : nat) (acc : A),
    (forall a i, (start <= i < start + n)%nat -> f a i = g a i) ->
    fold_left f (seq start n) acc = fold_left g (seq start n) acc.
Proof.
  induction n as [|n IH]; intros start acc H; simpl; [reflexivity|].
  rewrite (H acc start) by lia. apply IH. intros a i Hi. apply H. lia.
Qed.

Lemma fold_seq_combine (l1 : list Position) :
  forall (l2 : list Position) (acc : Shoelace) (k : nat) (pre1 pre2 : list Position),
    length l1 = length l2 -> length pre1 = k -> length pre2 = k ->
    fold_left
      (fun a i => shoelace_add a (nth i (pre1 ++ l1) origin) (nth i (pre2 ++ l2) origin))
      (seq k (length l1)) acc
    = shoelace_edges (combine l1 l2) acc.
Proof.
  induction l1 as [|p l1 IH]; intros l2 acc k pre1 pre2 Hlen H1 H2.
  - reflexivity.
  - destruct l2 as [|q l2]; [discriminate|]. simpl in Hlen.
    cbn [length seq fold_left combine shoelace_edges].
    rewrite !app_nth2 by lia. rewrite H1, H2, Nat.sub_diag. cbn [nth].
    specialize (IH l2 (shoelace_add acc p q) (S k) (pre1 ++ [p]) (pre2 ++ [q])).
    rewrite <- !app_assoc in IH. cbn [app] in IH.
    rewrite IH; [reflexivity | lia | |]; rewrite length_app; simpl; lia.
Qed.

Lemma fold_index_edges (l1 l2 : list Position) :
  length l1 = length l2 ->
  fold_left (fun a i => shoelace_add a (nth i l1 origin) (nth i l2 origin))
    (seq 0 (length l1)) shoelace0
  = shoelace_edges (combine l1 l2) shoelace0.
Proof.
  intros H. exact (fold_seq_combine l1 l2 shoelace0 [] [] H eq_refl eq_refl).
Qed.

Lemma combine_app_same (A B : Type) (l1 : list A) :
  forall (l2 : list B) (a : list A) (b : list B),
    length l1 = length l2 ->
    combine (l1 ++ a) (l2 ++ b) = combine l1 l2 ++ combine a b.
Proof.
  induction l1 as [|x l1 IH]; intros [|y l2] a b H; simpl in *;
    try discriminate; [reflexivity|].
  f_equal. apply IH. lia.
Qed.

Lemma edges_cons (p : Position) (rest : list Position) :
  edges (p :: rest) = combine (p :: rest) (rest ++ [p]).
Proof. reflexivity. Qed.

(** The modular-index loop of the chained resolver visits exactly the
    edges of the ring. *)
Lemma wrapLoop_shoelace (ring : list Position) :
  ChainedGeo.wrapLoop ring = shoelace ring.
Proof.
  unfold ChainedGeo.wrapLoop, shoelace.
  destruct ring as [|p rest]; [reflexivity|].
  rewrite edges_cons.
  rewrite <- fold_index_edges by (rewrite length_app; simpl; lia).
  apply fold_left_ext_seq. intros a i Hi. f_equal.
  cbn [length] in *.
  destruct (Nat.eq_dec i (length rest)) as [->|Hne].
  - replace (length rest + 1)%nat with (S (length rest)) by lia.
    rewrite Nat.Div0.mod_same. rewrite app_nth2 by lia.
    rewrite Nat.sub_diag. reflexivity.
  - rewrite Nat.mod_small by lia.
    replace (i + 1)%nat with (S i) by lia. cbn [nth].
    rewrite app_nth1 by lia. reflexivity.
Qed.

(** The closing loop of the TripAdvisor tool visits the same edges, up
    to one edge from a point to itself when the ring came closed. *)
Lemma ringLoop_closeRing (ring : list Position) :
  TripAdvisorGeo.ringLoop (TripAdvisorGeo.closeRing ring) = shoelace ring.
Proof.
  destruct ring as [|p rest]; [reflexivity|].
  unfold TripAdvisorGeo.closeRing.
  destruct (pos_eqb p (last (p :: rest) p)) eqn:E.
  - apply pos_eqb_true_iff in E.
    assert (Hsplit : p :: rest = removelast (p :: rest) ++ [p]).
    { rewrite E at 3. apply app_removelast_last. discriminate. }
    assert (Hlen : length (removelast (p :: rest)) = length rest).
    { apply (f_equal (@length _)) in Hsplit.
      rewrite length_app in Hsplit. cbn [length] in Hsplit. lia. }
    unfold shoelace. rewrite edges_cons.
    rewrite Hsplit at 2.
    rewrite combine_app_same by exact Hlen.
    unfold shoelace_edges. rewrite fold_left_app. cbn [combine fold_left fst snd].
    rewrite shoelace_add_same.
    fold (shoelace_edges (combine (removelast (p :: rest)) rest) shoelace0).
    rewrite <- fold_index_edges by exact Hlen.
    unfold TripAdvisorGeo.ringLoop. cbn [length]. rewrite Nat.sub_succ, Nat.sub_0_r.
    rewrite Hlen. apply fold_left_ext_seq. intros a i Hi. f_equal.
    + rewrite Hsplit at 1. rewrite app_nth1 by lia. reflexivity.
    + replace (i + 1)%nat with (S i) by lia. reflexivity.
  - unfold shoelace. rewrite edges_cons.
    rewrite <- fold_index_edges by (rewrite length_app; simpl; lia).
    unfold TripAdvisorGeo.ringLoop.
    rewrite length_app. cbn [length].
    replace (S (length rest) + 1 - 1)%nat with (S (length rest)) by lia.
    apply fold_left_ext_seq. intros a i Hi. cbn [length] in Hi. f_equal.
    + rewrite app_nth1 by (simpl; lia). reflexivity.
    + replace (i + 1)%nat with (S i) by lia. reflexivity.
Qed.

(** ** Polygon centroids *)

Lemma ringCentroid_spec (ring : list Position) :
  TripAdvisorGeo.ringCentroid ring =
  if eqb (signed_area2 ring) 0 then None
  else Some (TripAdvisorGeo.mkRC (fst (area_centroid ring))
                                 (snd (area_centroid ring))
                                 (signed_area2 ring / two)).
Proof.
  unfold TripAdvisorGeo.ringCentroid. rewrite ringLoop_closeRing. reflexivity.
Qed.

Lemma signed_area2_short (ring : list Position) :
  (length ring < 3)%nat -> signed_area2 ring = 0.
Proof.
  destruct ring as [|[px py] [|[qx qy] [|r rest]]]; cbn [length]; intros H;
    try lia; unfold signed_area2, shoelace, shoelace_edges, edges, shoelace_add;
    cbn [combine tl firstn app fold_left fst snd sl_a sl_cx sl_cy shoelace0];
    ring.
Qed.

Lemma two_neq_0 : two <> 0.
Proof. apply eqb_false_iff. reflexivity. Qed.

Lemma three_neq_0 : three <> 0.
Proof. apply eqb_false_iff. reflexivity. Qed.

(** ** MultiPolygon centroids *)

Lemma members_cons (w : Qc -> Qc) (poly : list (list Position))
      (polys : list (list (list Position))) :
  CentroidClaims.members w (poly :: polys)
  = (if eqb (signed_area2 (outer_ring poly)) 0 then []
     else [(area_centroid (outer_ring poly),
            w (signed_area2 (outer_ring poly) / two))])
      ++ CentroidClaims.members w polys.
Proof. reflexivity. Qed.

Lemma geometry_mp_step_spec (acc : TripAdvisorGeo.MPAcc)
      (poly : list (list Position)) :
  TripAdvisorGeo.mp_step acc poly
  = if eqb (signed_area2 (outer_ring poly)) 0 then acc
    else
      let c := area_centroid (outer_ring poly) in
      let w := abs (signed_area2 (outer_ring poly) / two) in
      TripAdvisorGeo.mkMP (TripAdvisorGeo.sumCx acc + fst c * w)
                          (TripAdvisorGeo.sumCy acc + snd c * w)
                          (TripAdvisorGeo.sumA acc + w).
Proof.
  destruct poly as [|[|p rest] others]; try reflexivity.
  unfold TripAdvisorGeo.mp_step. rewrite ringCentroid_spec.
  cbn [outer_ring].
  destruct (eqb (signed_area2 (p :: rest)) 0); reflexivity.
Qed.

Lemma geometry_mp_fold (polys : list (list (list Position))) :
  forall acc : TripAdvisorGeo.MPAcc,
    fold_left TripAdvisorGeo.mp_step polys acc
    = let ms := CentroidClaims.members abs polys in
      TripAdvisorGeo.mkMP
        (TripAdvisorGeo.sumCx acc + sum (map (fun e => fst (fst e) * snd e) ms))
        (TripAdvisorGeo.sumCy acc + sum (map (fun e => snd (fst e) * snd e) ms))
        (TripAdvisorGeo.sumA acc + sum (map snd ms)).
Proof.
  induction polys as [|poly polys IH]; intros [cx cy a].
  - cbn. f_equal; ring.
  - cbn [fold_left]. rewrite IH, geometry_mp_step_spec, members_cons.
    destruct (eqb (signed_area2 (outer_ring poly)) 0).
    + reflexivity.
    + cbn. f_equal; ring.
Qed.

Lemma chained_mp_step_spec (acc : Shoelace) (poly : list (list Position)) :
  ChainedGeo.mp_step acc poly
  = if eqb (signed_area2 (outer_ring poly)) 0 then acc
    else
      let s := shoelace (outer_ring poly) in
      mkShoelace (sl_a acc + sl_a s) (sl_cx acc + sl_cx s) (sl_cy acc + sl_cy s).
Proof.
  unfold ChainedGeo.mp_step. fold (outer_ring poly).
  destruct (length (outer_ring poly) <? 3)%nat eqn:E.
  - apply Nat.ltb_lt in E. rewrite (signed_area2_short _ E). reflexivity.
  - rewrite wrapLoop_shoelace. reflexivity.
Qed.

Lemma chained_mp_fold (polys : list (list (list Position))) :
  forall acc : Shoelace,
    fold_left ChainedGeo.mp_step polys acc
    = let ms := CentroidClaims.members (fun a => a) polys in
      mkShoelace
        (sl_a acc + two * sum (map snd ms))
        (sl_cx acc
         + three * two * sum (map (fun e => fst (fst e) * snd e) ms))
        (sl_cy acc
         + three * two * sum (map (fun e => snd (fst e) * snd e) ms)).
Proof.
  induction polys as [|poly polys IH]; intros [a cx cy].
  - cbn. f_equal; ring.
  - cbn [fold_left]. rewrite IH, chained_mp_step_spec, members_cons.
    destruct (eqb (signed_area2 (outer_ring poly)) 0) eqn:E.
    + reflexivity.
    + apply eqb_false_iff in E. unfold signed_area2 in E.
      pose proof two_neq_0. pose proof three_neq_0.
      cbn. unfold area_centroid, signed_area2. cbn [fst snd].
      f_equal; field; auto.
Qed.

(** ** Double-precision arithmetic

    Facts about the rounded operations, from their IEEE specification
    ([FloatAxioms] relates each primitive operation to its definition
    on [spec_float]). *)

Section DoubleArithmetic.

Import PrimFloat FloatOps FloatAxioms SpecFloat.

Local Open Scope Z_scope.

Lemma Prim2SF_zero : Prim2SF 0%float = S754_zero false.
Proof. reflexivity. Qed.

(** A double that [is_finite] is a zero or a finite number. *)
Lemma is_finite_SF (x : float) :
  is_finite x = true ->
  match Prim2SF x with
  | S754_zero _ | S754_finite _ _ _ => True
  | _ => False
  end.
Proof.
  unfold is_finite, is_nan, is_infinity.
  rewrite !eqb_spec, abs_spec.
  change (Prim2SF infinity) with (S754_infinity false).
  destruct (Prim2SF x) as [s|s| |s m e]; cbn; auto.
  - destruct s; cbn; discriminate.
  - discriminate.
Qed.

(** [x - x] is [+0] for a finite [x]. *)
Lemma sub_diag (x : float) : is_finite x = true -> (x - x)%float = 0%float.
Proof.
  intros H. apply is_finite_SF in H. apply Prim2SF_inj.
  rewrite sub_spec, Prim2SF_zero.
  destruct (Prim2SF x) as [s|s| |s m e]; try contradiction.
  - now destruct s.
  - unfold SF64sub, SFsub. now rewrite Z.sub_diag.
Qed.

(** A finite number times a zero is a zero, on either side. *)
Lemma mul_zero_r (x z : float) (s : bool) :
  is_finite x = true -> Prim2SF z = S754_zero s ->
  exists t, Prim2SF (x * z)%float = S754_zero t.
Proof.
  intros H Hz. apply is_finite_SF in H. rewrite mul_spec, Hz.
  destruct (Prim2SF x) as [sx|sx| |sx m e]; try contradiction; cbn; eauto.
Qed.

Lemma mul_zero_l (z y : float) (s : bool) :
  Prim2SF z = S754_zero s -> is_finite y = true ->
  exists t, Prim2SF (z * y)%float = S754_zero t.
Proof.
  intros Hz H. apply is_finite_SF in H. rewrite mul_spec, Hz.
  destruct (Prim2SF y) as [sy|sy| |sy m e]; try contradiction; cbn; eauto.
Qed.

(** The difference of two zeros is a zero. *)
Lemma sub_zeros (u v : float) (s t : bool) :
  Prim2SF u = S754_zero s -> Prim2SF v = S754_zero t ->
  exists r, Prim2SF (u - v)%float = S754_zero r.
Proof.
  intros Hu Hv. rewrite sub_spec, Hu, Hv. destruct s, t; cbn; eauto.
Qed.

(** A zero or a finite number [is_finite]. *)
Lemma SF_is_finite (x : float) :
  match Prim2SF x with
  | S754_zero _ | S754_finite _ _ _ => True
  | _ => False
  end ->
  is_finite x = true.
Proof.
  unfold is_finite, is_nan, is_infinity.
  rewrite !eqb_spec, abs_spec.
  change (Prim2SF infinity) with (S754_infinity false).
  destruct (Prim2SF x) as [s|s| |s m e]; intros H; try contradiction.
  - reflexivity.
  - unfold SFeqb, SFcompare, SFabs.
    rewrite Z.compare_refl, Pos.compare_cont_refl. now destruct s.
Qed.

(** A finite difference has finite terms, and a finite product finite
    factors. *)
Lemma sub_finite_inv (u v : float) :
  is_finite (u - v)%float = true -> is_finite u = true /\ is_finite v = true.
Proof.
  intros H. apply is_finite_SF in H. rewrite sub_spec in H.
  split; apply SF_is_finite;
    destruct (Prim2SF u) as [[|]|[|]| |su mu eu];
    destruct (Prim2SF v) as [[|]|[|]| |sv mv ev];
    try exact I; exact H.
Qed.

Lemma mul_finite_inv (x y : float) :
  is_finite (x * y)%float = true -> is_finite x = true /\ is_finite y = true.
Proof.
  intros H. apply is_finite_SF in H. rewrite mul_spec in H.
  split; apply SF_is_finite;
    destruct (Prim2SF x) as [[|]|[|]| |sx mx ex];
    destruct (Prim2SF y) as [[|]|[|]| |sy my ey];
    try exact I; exact H.
Qed.

(** A finite number equals itself. *)
Lemma eqb_finite_refl (x : float) : is_finite x = true -> (x =? x)%float = true.
Proof.
  unfold is_finite, is_nan. destruct (x =? x)%float; [reflexivity|discriminate].
Qed.

(** Numbers that compare equal are the same double, or two zeros. *)
Lemma eqb_cases (x y : float) :
  (x =? y)%float = true ->
  x = y \/ exists s t, Prim2SF x = S754_zero s /\ Prim2SF y = S754_zero t.
Proof.
  rewrite eqb_spec. unfold SFeqb, SFcompare. intros H.
  destruct (Prim2SF x) as [sx|sx| |sx mx ex] eqn:Ex;
    destruct (Prim2SF y) as [sy|sy| |sy my ey] eqn:Ey;
    try discriminate;
    try (destruct sx; discriminate); try (destruct sy; discriminate).
  - right. eauto.
  - left. apply Prim2SF_inj. rewrite Ex, Ey.
    destruct sx, sy; try discriminate; reflexivity.
  - left. apply Prim2SF_inj. rewrite Ex, Ey.
    destruct sx, sy; try discriminate;
      destruct (ex ?= ey) eqn:Ec; try discriminate;
      destruct (Pos.compare_cont Eq mx my) eqn:Em; try discriminate;
      apply Z.compare_eq in Ec; apply Pos.compare_eq in Em; now subst.
Qed.

(** Adding a zero changes nothing, unless it is [+0] added to [-0]. *)
Lemma add_zero_r (c z : float) (s : bool) :
  Prim2SF c <> S754_zero true ->
  Prim2SF z = S754_zero s ->
  (c + z)%float = c.
Proof.
  intros Hc Hz. apply Prim2SF_inj. rewrite add_spec, Hz.
  destruct (Prim2SF c) as [sc|sc| |sc m e]; try reflexivity.
  destruct sc; [congruence|]. now destruct s.
Qed.

Lemma digits2_size (m : positive) : digits2_pos m = Pos.size m.
Proof. induction m; cbn; now rewrite ?IHm. Qed.

Lemma digits2_log2 (m : positive) : Zpos (digits2_pos m) = Z.log2 (Zpos m) + 1.
Proof.
  rewrite digits2_size. destruct m; cbn [Z.log2 Pos.size];
    rewrite ?Pos2Z.inj_succ; lia.
Qed.

Lemma shr_1_m (mrs : shr_record) :
  0 <= shr_m mrs -> shr_m (shr_1 mrs) = Z.shiftr (shr_m mrs) 1.
Proof.
  destruct mrs as [m r s]. cbn [shr_m]. intros H.
  rewrite Z.shiftr_div_pow2 by lia. change (2 ^ 1) with 2.
  destruct m as [|[p|p|]|p]; cbn [shr_1 shr_m]; try lia; try reflexivity.
  - change (Z.pos p~1) with (2 * Z.pos p + 1).
    apply Z.div_unique with 1; lia.
  - change (Z.pos p~0) with (2 * Z.pos p).
    apply Z.div_unique with 0; lia.
Qed.

Lemma iter_shr_1_m (p : positive) :
  forall mrs : shr_record,
    0 <= shr_m mrs ->
    shr_m (iter_pos shr_1 p mrs) = Z.shiftr (shr_m mrs) (Zpos p).
Proof.
  induction p as [p IH|p IH|]; intros mrs H; cbn [iter_pos].
  - assert (H1 : 0 <= shr_m (shr_1 mrs)).
    { rewrite shr_1_m by exact H. apply Z.shiftr_nonneg. exact H. }
    assert (H2 : 0 <= shr_m (iter_pos shr_1 p (shr_1 mrs))).
    { rewrite IH by exact H1. apply Z.shiftr_nonneg. exact H1. }
    rewrite IH by exact H2. rewrite IH by exact H1. rewrite shr_1_m by exact H.
    rewrite !Z.shiftr_shiftr by lia. f_equal. lia.
  - assert (H2 : 0 <= shr_m (iter_pos shr_1 p mrs)).
    { rewrite IH by exact H. apply Z.shiftr_nonneg. exact H. }
    rewrite IH by exact H2. rewrite IH by exact H.
    rewrite !Z.shiftr_shiftr by lia. f_equal. lia.
  - now apply shr_1_m.
Qed.

(** Shifting a mantissa down to the precision leaves a positive
    mantissa, and the exponent stays at or above the least one. *)
Lemma shr_fexp_positive (m : positive) (e : Z) (l : location) :
  emin prec emax <= e ->
  0 < shr_m (fst (shr_fexp prec emax (Zpos m) e l))
  /\ emin prec emax <= snd (shr_fexp prec emax (Zpos m) e l).
Proof.
  intros He. unfold shr_fexp, shr, Zdigits2.
  pose proof (digits2_log2 m) as Hd.
  assert (Hl : 0 <= Z.log2 (Zpos m)) by apply Z.log2_nonneg.
  assert (Hm : shr_m (shr_record_of_loc (Zpos m) l) = Zpos m).
  { destruct l as [|[| |]]; reflexivity. }
  destruct (fexp prec emax (Zpos (digits2_pos m) + e) - e) as [|p|p] eqn:En;
    cbn [fst snd]; rewrite ?Hm; try (split; [lia | exact He]).
  split.
  - rewrite iter_shr_1_m by (rewrite Hm; lia). rewrite Hm.
    assert (Hp : Zpos p <= Z.log2 (Zpos m)).
    { unfold fexp, emin, prec, emax in *. lia. }
    assert (Hnz : Z.shiftr (Zpos m) (Zpos p) <> 0).
    { rewrite Z.shiftr_eq_0_iff. lia. }
    pose proof (Z.shiftr_nonneg (Zpos m) (Zpos p)). lia.
  - lia.
Qed.

Lemma round_nearest_even_positive (m : Z) (l : location) :
  0 < m -> 0 < round_nearest_even m l.
Proof.
  intros H. destruct l as [|[| |]]; cbn; try lia.
  destruct (Z.even m); lia.
Qed.

(** Rounding a positive mantissa whose exponent is not below the least
    one does not give a zero. *)
Lemma binary_round_aux_not_zero (sx : bool) (m : positive) (e : Z) (l : location)
      (s : bool) :
  emin prec emax <= e ->
  binary_round_aux prec emax sx (Zpos m) e l <> S754_zero s.
Proof.
  intros He. unfold binary_round_aux.
  destruct (shr_fexp_positive m l He) as [H1 H2].
  destruct (shr_fexp prec emax (Zpos m) e l) as [mrs' e']. cbn [fst snd] in *.
  pose proof (round_nearest_even_positive (loc_of_shr_record mrs') H1) as Hr.
  destruct (round_nearest_even (shr_m mrs') (loc_of_shr_record mrs'))
    as [|q|q]; try lia.
  destruct (shr_fexp_positive q loc_Exact H2) as [H3 _].
  destruct (shr_fexp prec emax (Zpos q) e' loc_Exact) as [mrs'' e''].
  cbn [fst] in H3.
  destruct (shr_m mrs'') as [|q'|q']; try lia.
  destruct (e'' <=? emax - prec); discriminate.
Qed.

Lemma binary_round_not_zero (sx : bool) (m : positive) (e : Z) (s : bool) :
  emin prec emax <= e ->
  binary_round prec emax sx m e <> S754_zero s.
Proof.
  intros He. unfold binary_round, shl_align.
  destruct (fexp prec emax (Zpos (digits2_pos m) + e) - e) eqn:En;
    apply binary_round_aux_not_zero; try exact He.
  unfold fexp, emin in *. lia.
Qed.

(** The exponent of a finite double is not below the least one. *)
Lemma valid_exponent (x : float) (s : bool) (m : positive) (e : Z) :
  Prim2SF x = S754_finite s m e -> emin prec emax <= e.
Proof.
  intros H. pose proof (Prim2SF_valid x) as Hv. rewrite H in Hv.
  cbn [SpecFloat.valid_binary] in Hv. unfold bounded in Hv.
  apply andb_true_iff in Hv. destruct Hv as [Hc _].
  unfold canonical_mantissa in Hc. apply Z.eqb_eq in Hc.
  unfold fexp, emin in *. lia.
Qed.

(** A sum is the negative zero only when both terms are. *)
Lemma add_not_neg_zero (x y : float) :
  Prim2SF x <> S754_zero true -> Prim2SF (x + y)%float <> S754_zero true.
Proof.
  intros Hx. rewrite add_spec.
  destruct (Prim2SF x) as [sx|sx| |sx mx ex] eqn:Ex;
    destruct (Prim2SF y) as [sy|sy| |sy my ey] eqn:Ey;
    try (cbn; discriminate).
  - destruct sx; [congruence|]. destruct sy; cbn; discriminate.
  - destruct sx, sy; cbn; discriminate.
  - unfold SF64add, SFadd.
    pose proof (valid_exponent _ Ex) as Hex.
    pose proof (valid_exponent _ Ey) as Hey.
    unfold binary_normalize.
    destruct (cond_Zopp sx (Zpos (fst (shl_align mx ex (Z.min ex ey))))
              + cond_Zopp sy (Zpos (fst (shl_align my ey (Z.min ex ey)))));
      [discriminate| |]; apply binary_round_not_zero; lia.
Qed.

(** Rounding is symmetric: the sign only labels the result. *)
Lemma binary_round_aux_opp (m e : Z) (l : location) :
  binary_round_aux prec emax true m e l
  = SFopp (binary_round_aux prec emax false m e l).
Proof.
  unfold binary_round_aux.
  destruct (shr_fexp prec emax m e l) as [mrs' e'].
  destruct (shr_fexp prec emax
              (round_nearest_even (shr_m mrs') (loc_of_shr_record mrs'))
              e' loc_Exact) as [mrs'' e''].
  destruct (shr_m mrs''); try reflexivity.
  destruct (e'' <=? emax - prec); reflexivity.
Qed.

Lemma binary_round_opp (m : positive) (e : Z) :
  binary_round prec emax true m e = SFopp (binary_round prec emax false m e).
Proof.
  unfold binary_round.
  destruct (shl_align m e (fexp prec emax (Zpos (digits2_pos m) + e))) as [mz ez].
  apply binary_round_aux_opp.
Qed.

Lemma SFopp_involutive (x : spec_float) : SFopp (SFopp x) = x.
Proof. destruct x as [[|]|[|]| |[|] m e]; reflexivity. Qed.

Lemma binary_normalize_opp (m e : Z) :
  m <> 0 ->
  binary_normalize prec emax (- m) e false
  = SFopp (binary_normalize prec emax m e false).
Proof.
  destruct m as [|p|p]; intros H; cbn [Z.opp binary_normalize].
  - congruence.
  - apply binary_round_opp.
  - now rewrite binary_round_opp, SFopp_involutive.
Qed.

(** [y - x] is the opposite of [x - y], unless both are [+0]. *)
Lemma SFsub_antisym (x y : spec_float) :
  SF64sub y x = SFopp (SF64sub x y)
  \/ (SF64sub x y = S754_zero false /\ SF64sub y x = S754_zero false).
Proof.
  destruct x as [[|]|[|]| |sx mx ex]; destruct y as [[|]|[|]| |sy my ey];
    try (left; reflexivity); try (right; split; reflexivity);
    try (left; now destruct sy).
  unfold SF64sub, SFsub. rewrite (Z.min_comm ey ex).
  set (a := cond_Zopp sx (Zpos (fst (shl_align mx ex (Z.min ex ey))))).
  set (b := cond_Zopp sy (Zpos (fst (shl_align my ey (Z.min ex ey))))).
  destruct (Z.eq_dec (a - b) 0) as [E|E].
  - right. replace (b - a) with 0 by lia. rewrite E. split; reflexivity.
  - left. replace (b - a) with (- (a - b)) by lia.
    now apply binary_normalize_opp.
Qed.

(** The cross terms of an edge and of its reverse cancel in the sum. *)
Lemma cross_cancel (u v : float) :
  is_finite (u - v)%float = true ->
  (0 + (u - v) + (v - u) =? 0)%float = true.
Proof.
  intros H. apply is_finite_SF in H.
  rewrite eqb_spec, !add_spec, !sub_spec, Prim2SF_zero in *.
  destruct (SFsub_antisym (Prim2SF u) (Prim2SF v)) as [Ho|[H1 H2]].
  - rewrite Ho.
    destruct (SF64sub (Prim2SF u) (Prim2SF v)) as [s|s| |s m e];
      try contradiction.
    + now destruct s.
    + cbn [SFopp SF64add SFadd]. rewrite Z.min_id. unfold shl_align.
      rewrite Z.sub_diag. cbn [fst].
      replace (cond_Zopp s (Zpos m) + cond_Zopp (negb s) (Zpos m)) with 0
        by (destruct s; cbn [cond_Zopp negb]; lia).
      reflexivity.
  - rewrite H1, H2. reflexivity.
Qed.

End DoubleArithmetic.

(** ** Index loops are folds over pairs *)

Section IndexLoops.

Variables (A S : Type) (f : S -> A -> A -> S) (d : A).

Lemma index_fold_combine (l1 : list A) :
  forall (l2 : list A) (acc : S) (k : nat) (pre1 pre2 : list A),
    length l1 = length l2 -> length pre1 = k -> length pre2 = k ->
    fold_left
      (fun a i => f a (nth i (pre1 ++ l1) d) (nth i (pre2 ++ l2) d))
      (seq k (length l1)) acc
    = fold_left (fun a e => f a (fst e) (snd e)) (combine l1 l2) acc.
Proof.
  induction l1 as [|p l1 IH]; intros l2 acc k pre1 pre2 Hlen H1 H2.
  - reflexivity.
  - destruct l2 as [|q l2]; [discriminate|]. simpl in Hlen.
    cbn [length seq fold_left combine fst snd].
    rewrite !app_nth2 by lia. rewrite H1, H2, Nat.sub_diag. cbn [nth].
    specialize (IH l2 (f acc p q) (Datatypes.S k) (pre1 ++ [p]) (pre2 ++ [q])).
    rewrite <- !app_assoc in IH. cbn [app] in IH.
    rewrite IH; [reflexivity | lia | |]; rewrite length_app; simpl; lia.
Qed.

Lemma index_fold_pairs (l1 l2 : list A) (acc : S) :
  length l1 = length l2 ->
  fold_left (fun a i => f a (nth i l1 d) (nth i l2 d)) (seq 0 (length l1)) acc
  = fold_left (fun a e => f a (fst e) (snd e)) (combine l1 l2) acc.
Proof.
  intros H. exact (index_fold_combine l1 l2 acc [] [] H eq_refl eq_refl).
Qed.

End IndexLoops.

Lemma combine_shorter (A B : Type) (l1 : list A) :
  forall (l2 : list B) (extra : list A),
    length l1 = length l2 -> combine (l1 ++ extra) l2 = combine l1 l2.
Proof.
  induction l1 as [|x l1 IH]; intros [|y l2] extra H; simpl in *;
    try discriminate.
  - now destruct extra.
  - f_equal. apply IH. lia.
Qed.

(** ** The two shoelace loops in double precision *)

Section DoubleLoops.

Import PrimFloat.
Import Doubles.

(** The modular-index loop of the chained resolver visits the edges of
    the ring in order. *)
Lemma wrapLoop_sums (ring : list Position) :
  ChainedGeo.wrapLoop ring = sums (edges ring).
Proof.
  unfold ChainedGeo.wrapLoop, sums, edges.
  destruct ring as [|p rest]; [reflexivity|].
  cbn [tl firstn].
  rewrite <- (index_fold_pairs (fun a x y => shoelace_add a x y) origin)
    by (rewrite length_app; simpl; lia).
  apply fold_left_ext_seq. intros a i Hi. f_equal.
  cbn [length] in *.
  destruct (Nat.eq_dec i (length rest)) as [->|Hne].
  - replace (length rest + 1)%nat with (Datatypes.S (length rest)) by lia.
    rewrite Nat.Div0.mod_same. rewrite app_nth2 by lia.
    rewrite Nat.sub_diag. reflexivity.
  - rewrite Nat.mod_small by lia.
    replace (i + 1)%nat with (Datatypes.S i) by lia. cbn [nth].
    rewrite app_nth1 by lia. reflexivity.
Qed.

(** The loop of [ringCentroid] visits the consecutive pairs of the
    closed ring in order. *)
Lemma ringLoop_sums (r : list Position) :
  TripAdvisorGeo.ringLoop r = sums (pairs r).
Proof.
  unfold TripAdvisorGeo.ringLoop, sums, pairs.
  destruct r as [|p rest]; [reflexivity|].
  cbn [length tl]. rewrite Nat.sub_succ, Nat.sub_0_r.
  assert (Hsplit : p :: rest = removelast (p :: rest) ++ [last (p :: rest) p]).
  { apply app_removelast_last. discriminate. }
  assert (Hlen : length (removelast (p :: rest)) = length rest).
  { apply (f_equal (@length _)) in Hsplit.
    rewrite length_app in Hsplit. cbn [length] in Hsplit. lia. }
  assert (Hc : combine (p :: rest) rest = combine (removelast (p :: rest)) rest).
  { rewrite Hsplit at 1. now apply combine_shorter. }
  rewrite Hc.
  rewrite <- (index_fold_pairs (fun a x y => shoelace_add a x y) origin)
    by exact Hlen.
  rewrite Hlen. apply fold_left_ext_seq. intros a i Hi. f_equal.
  - rewrite Hsplit at 1. rewrite app_nth1 by lia. reflexivity.
  - replace (i + 1)%nat with (Datatypes.S i) by lia. reflexivity.
Qed.

(** A ring that does not repeat its first point is closed by
    [closeRing], and the pairs of the closed ring are the edges of the
    ring. *)
Lemma pairs_closeRing_open (first : Position) (rest : list Position) :
  pos_eqb first (last (first :: rest) first) = false ->
  pairs (TripAdvisorGeo.closeRing (first :: rest)) = edges (first :: rest).
Proof.
  intros H. unfold TripAdvisorGeo.closeRing. rewrite H.
  unfold pairs, edges. cbn [firstn].
  change (tl ((first :: rest) ++ [first])) with (rest ++ [first]).
  change (tl (first :: rest)) with rest.
  apply combine_shorter. rewrite length_app. simpl. lia.
Qed.

(** A ring that repeats its first point is left as it is, and its edges
    are its pairs followed by the edge from the repeated point to the
    first. *)
Lemma edges_closed (first : Position) (rest : list Position) :
  edges (first :: rest)
  = pairs (first :: rest) ++ [(last (first :: rest) first, first)].
Proof.
  unfold edges, pairs. cbn [tl firstn].
  assert (Hsplit : first :: rest
                   = removelast (first :: rest) ++ [last (first :: rest) first]).
  { apply app_removelast_last. discriminate. }
  assert (Hlen : length (removelast (first :: rest)) = length rest).
  { apply (f_equal (@length _)) in Hsplit.
    rewrite length_app in Hsplit. cbn [length] in Hsplit. lia. }
  remember (last (first :: rest) first) as x.
  remember (removelast (first :: rest)) as l.
  rewrite Hsplit.
  rewrite combine_app_same by exact Hlen.
  rewrite combine_shorter by exact Hlen. reflexivity.
Qed.

End DoubleLoops.

(** ** Polygon and MultiPolygon centroids in double precision *)

Section DoubleCentroids.

Import PrimFloat FloatOps FloatAxioms SpecFloat.
Import Doubles.

Local Open Scope float_scope.

Lemma sums_noNegativeZero_fold (es : list (Position * Position)) :
  forall s : Shoelace,
    noNegativeZero s ->
    noNegativeZero
      (fold_left (fun acc e => shoelace_add acc (fst e) (snd e)) es s).
Proof.
  induction es as [|e es IH]; intros s Hs; [exact Hs|].
  cbn [fold_left]. apply IH. destruct Hs as (Ha & Hx & Hy).
  unfold noNegativeZero, shoelace_add. cbn [sl_a sl_cx sl_cy].
  repeat split; now apply add_not_neg_zero.
Qed.

(** The sums of a loop are never the negative zero: they start from
    [+0]. *)
Lemma sums_noNegativeZero (es : list (Position * Position)) :
  noNegativeZero (sums es).
Proof.
  apply sums_noNegativeZero_fold.
  unfold noNegativeZero, shoelace0. cbn [sl_a sl_cx sl_cy].
  rewrite Prim2SF_zero. repeat split; discriminate.
Qed.

Lemma same_sym (x y : float) : same x y -> same y x.
Proof. intros [H|(s & t & Hx & Hy)]; [left; now symmetry | right; eauto]. Qed.

Lemma pos_eqb_same (p q : Position) :
  pos_eqb p q = true -> same (fst p) (fst q) /\ same (snd p) (snd q).
Proof.
  unfold pos_eqb. intros H. apply andb_true_iff in H. destruct H as [Hx Hy].
  split; now apply eqb_cases.
Qed.

(** The cross term of an edge between numerically equal points is a
    zero, when its two products are finite. *)
Lemma cross_same (p q : Position) :
  same (fst p) (fst q) -> same (snd p) (snd q) ->
  is_finite (fst p * snd q) = true -> is_finite (fst q * snd p) = true ->
  exists r, Prim2SF (cross p q) = S754_zero r.
Proof.
  intros Hx Hy H1 H2. unfold cross.
  destruct (mul_finite_inv _ _ H1) as [Hpx Hqy].
  destruct (mul_finite_inv _ _ H2) as [Hqx Hpy].
  destruct Hx as [Hx|(s & t & Hpz & Hqz)].
  - destruct Hy as [Hy|(s & t & Hpz & Hqz)].
    + rewrite <- Hx, <- Hy in *. exists false.
      rewrite (@sub_diag _ H1). apply Prim2SF_zero.
    + destruct (@mul_zero_r _ _ _ Hpx Hqz) as [r1 E1].
      destruct (@mul_zero_r _ _ _ Hqx Hpz) as [r2 E2].
      exact (sub_zeros _ _ E1 E2).
  - destruct (@mul_zero_l _ _ _ Hpz Hqy) as [r1 E1].
    destruct (@mul_zero_l _ _ _ Hqz Hpy) as [r2 E2].
    exact (sub_zeros _ _ E1 E2).
Qed.

(** An edge between numerically equal points adds nothing to the sums,
    when its terms are finite. *)
Lemma closing_edge_silent (s : Shoelace) (p q : Position) :
  noNegativeZero s ->
  pos_eqb q p = true ->
  finiteEdge p q = true ->
  shoelace_add s p q = s.
Proof.
  intros (Ha & Hx & Hy) Heq Hfin.
  unfold finiteEdge in Hfin. rewrite !andb_true_iff in Hfin.
  destruct Hfin as [[[H1 H2] Hxx] Hyy].
  destruct (pos_eqb_same _ _ Heq) as [Sx Sy].
  destruct (@cross_same p q (same_sym Sx) (same_sym Sy) H1 H2) as [r Hr].
  unfold shoelace_add.
  destruct (@mul_zero_r _ _ _ Hxx Hr) as [sx Hzx].
  destruct (@mul_zero_r _ _ _ Hyy Hr) as [sy Hzy].
  rewrite (@add_zero_r _ _ _ Ha Hr).
  rewrite (@add_zero_r _ _ _ Hx Hzx), (@add_zero_r _ _ _ Hy Hzy).
  now destruct s.
Qed.

Lemma sums_snoc (es : list (Position * Position)) (e : Position * Position) :
  sums (es ++ [e]) = shoelace_add (sums es) (fst e) (snd e).
Proof. unfold sums. now rewrite fold_left_app. Qed.

(** With a plain closing edge the loop over the closed ring and the
    loop with wrapped indices compute the same sums. *)
Lemma sums_plainClosing (ring : list Position) :
  plainClosing ring = true ->
  sums (pairs (TripAdvisorGeo.closeRing ring)) = sums (edges ring).
Proof.
  destruct ring as [|first rest]; [reflexivity|].
  unfold plainClosing.
  destruct (pos_eqb first (last (first :: rest) first)) eqn:Hclosed;
    cbn [negb orb]; intros Hfin.
  - unfold TripAdvisorGeo.closeRing. rewrite Hclosed.
    rewrite edges_closed, sums_snoc. cbn [fst snd].
    symmetry. apply closing_edge_silent; auto using sums_noNegativeZero.
  - now rewrite pairs_closeRing_open.
Qed.

(** [geometryCentroid] on a Polygon, in terms of the sums over the
    closed ring. *)
Lemma geometryCentroid_polygon (outer : list Position)
      (holes : list (list Position)) :
  TripAdvisorGeo.geometryCentroid (Polygon (outer :: holes))
  = match outer with
    | [] => None
    | _ :: _ =>
        let s := sums (pairs (TripAdvisorGeo.closeRing outer)) in
        if sl_a s =? 0 then Some (average outer) else Some (quotient s)
    end.
Proof.
  destruct outer as [|p rest]; [reflexivity|].
  cbn [TripAdvisorGeo.geometryCentroid]. unfold TripAdvisorGeo.ringCentroid.
  rewrite ringLoop_sums. cbn zeta.
  now destruct (sl_a (sums (pairs (TripAdvisorGeo.closeRing (p :: rest)))) =? 0).
Qed.

(** [centroid] on a Polygon, in terms of the sums over the edges. *)
Lemma centroid_polygon (outer : list Position) (holes : list (list Position)) :
  ChainedGeo.centroid (Some (Polygon (outer :: holes)))
  = if (length outer <? 3)%nat || (sl_a (sums (edges outer)) =? 0)
    then hd_error outer
    else Some (quotient (sums (edges outer))).
Proof.
  cbn [ChainedGeo.centroid]. rewrite wrapLoop_sums.
  destruct (length outer <? 3)%nat; [reflexivity|].
  now destruct (sl_a (sums (edges outer)) =? 0).
Qed.

(** A sum that starts from [+0] and adds a zero is a zero. *)
Lemma zero_plus_zero (c : float) (r : bool) :
  Prim2SF c = S754_zero r -> (0 + c =? 0) = true.
Proof.
  intros H. rewrite eqb_spec, add_spec, Prim2SF_zero, H. now destruct r.
Qed.

(** On a ring of one or two points whose cross terms are finite the
    sum over the closed ring is zero, so [geometryCentroid] answers the
    mean of the ring. *)
Lemma short_ring_sum_zero (outer : list Position) :
  (length outer < 3)%nat -> finiteCross outer = true ->
  (sl_a (sums (pairs (TripAdvisorGeo.closeRing outer))) =? 0) = true.
Proof.
  destruct outer as [|p [|q [|r rest]]]; cbn [length]; intros Hlen Hfin;
    try lia; [reflexivity| |].
  - unfold finiteCross in Hfin. cbn in Hfin. rewrite andb_true_r in Hfin.
    destruct (sub_finite_inv _ _ Hfin) as [Hp _].
    destruct (mul_finite_inv _ _ Hp) as [Hx Hy].
    unfold TripAdvisorGeo.closeRing. cbn [last]. unfold pos_eqb.
    rewrite (eqb_finite_refl _ Hx), (eqb_finite_refl _ Hy). reflexivity.
  - unfold finiteCross in Hfin. cbn [edges tl firstn app combine forallb fst snd]
      in Hfin.
    apply andb_true_iff in Hfin. destruct Hfin as [Hpq _].
    unfold TripAdvisorGeo.closeRing. cbn [last].
    destruct (pos_eqb p q) eqn:E.
    + unfold pairs, sums, shoelace_add, shoelace0.
      cbn [tl combine fold_left fst snd sl_a].
      destruct (sub_finite_inv _ _ Hpq) as [H1 H2].
      destruct (pos_eqb_same _ _ E) as [Sx Sy].
      destruct (@cross_same p q Sx Sy H1 H2) as [r Hr].
      exact (zero_plus_zero _ Hr).
    + unfold pairs, sums, shoelace_add, shoelace0.
      cbn [app tl combine fold_left fst snd sl_a].
      exact (cross_cancel _ _ Hpq).
Qed.

(** C10.  For a Polygon whose outer ring has at least three points and
    a shoelace sum that, as [centroid] computes it in double precision
    over the wrapped ring, is not zero, [geometryCentroid] of the
    TripAdvisor tool and [centroid] of the chained resolver return the
    same coordinates, the sums [cx] and [cy] each divided by three
    times the area sum, provided the ring is open or the terms of the
    edge from its repeated last point back to its first are finite.
    The ring may come open or closed. *)
Theorem C10_centroid_implementations_agree
        (outer : list Position) (holes : list (list Position)) :
  (3 <= length outer)%nat ->
  (sl_a (sums (edges outer)) =? 0) = false ->
  plainClosing outer = true ->
  TripAdvisorGeo.geometryCentroid (Polygon (outer :: holes))
  = ChainedGeo.centroid (Some (Polygon (outer :: holes)))
  /\ ChainedGeo.centroid (Some (Polygon (outer :: holes)))
     = Some (quotient (sums (edges outer))).
Proof.
  intros Hlen Hsum Hplain.
  rewrite geometryCentroid_polygon, centroid_polygon.
  rewrite (@sums_plainClosing _ Hplain). cbn zeta. rewrite Hsum.
  apply Nat.ltb_ge in Hlen. rewrite Hlen. cbn [orb].
  destruct outer as [|p rest]; [cbn in Hlen; discriminate|].
  split; reflexivity.
Qed.

(** C1.  For a Polygon with outer ring [outer]: [geometryCentroid]
    answers the mean of a non-empty ring when the shoelace sum it
    computes over the closed ring is zero, and the quotient of the
    sums otherwise; that sum is zero on every ring of one or two points
    whose cross terms are finite, so such a ring gets its mean; an
    empty ring gets no centroid.  [centroid] answers the first
    coordinate (none for an empty ring) when the ring has fewer than
    three points or its computed sum over the wrapped ring is zero, and
    the quotient of its sums otherwise.  The sums of the two functions
    are the same when the ring is open or the terms of its closing edge
    are finite. *)
Theorem C1_polygon_degenerate_fallbacks
        (outer : list Position) (holes : list (list Position)) :
  let closed := sums (pairs (TripAdvisorGeo.closeRing outer)) in
  let wrapped := sums (edges outer) in
  (outer <> [] ->
   TripAdvisorGeo.geometryCentroid (Polygon (outer :: holes))
   = if sl_a closed =? 0 then Some (average outer) else Some (quotient closed))
  /\ (outer <> [] -> (length outer < 3)%nat -> finiteCross outer = true ->
      TripAdvisorGeo.geometryCentroid (Polygon (outer :: holes))
      = Some (average outer))
  /\ TripAdvisorGeo.geometryCentroid (Polygon ([] :: holes)) = None
  /\ ChainedGeo.centroid (Some (Polygon (outer :: holes)))
     = (if (length outer <? 3)%nat || (sl_a wrapped =? 0)
        then hd_error outer
        else Some (quotient wrapped))
  /\ (plainClosing outer = true -> closed = wrapped).
Proof.
  cbn zeta. split; [|split; [|split; [reflexivity|split]]].
  - intros Hne. rewrite geometryCentroid_polygon.
    destruct outer; [contradiction | reflexivity].
  - intros Hne Hlen Hfin. rewrite geometryCentroid_polygon.
    destruct outer as [|p rest]; [contradiction|]. cbn zeta.
    now rewrite (short_ring_sum_zero _ Hlen Hfin).
  - apply centroid_polygon.
  - apply sums_plainClosing.
Qed.

Lemma total_fold (A : Type) (f : A -> float) (l : list A) :
  forall a : float,
    fold_left add (map f l) a = fold_left (fun acc x => acc + f x) l a.
Proof. induction l as [|x l IH]; intros a; cbn; [reflexivity | apply IH]. Qed.

Lemma geometry_mp_step_member (acc : TripAdvisorGeo.MPAcc)
      (poly : list (list Position)) :
  TripAdvisorGeo.mp_step acc poly
  = fold_left
      (fun acc m =>
         TripAdvisorGeo.mkMP
           (TripAdvisorGeo.sumCx acc + fst (fst m) * snd m)
           (TripAdvisorGeo.sumCy acc + snd (fst m) * snd m)
           (TripAdvisorGeo.sumA acc + snd m))
      (member poly) acc.
Proof.
  unfold TripAdvisorGeo.mp_step, member.
  destruct poly as [|outer holes]; [reflexivity|].
  destruct outer as [|p rest]; [reflexivity|].
  unfold TripAdvisorGeo.ringCentroid. rewrite ringLoop_sums. cbn zeta.
  now destruct (sl_a (sums (pairs (TripAdvisorGeo.closeRing (p :: rest)))) =? 0).
Qed.

Lemma geometry_mp_fold_members (polys : list (list (list Position))) :
  forall acc : TripAdvisorGeo.MPAcc,
    fold_left TripAdvisorGeo.mp_step polys acc
    = fold_left
        (fun acc m =>
           TripAdvisorGeo.mkMP
             (TripAdvisorGeo.sumCx acc + fst (fst m) * snd m)
             (TripAdvisorGeo.sumCy acc + snd (fst m) * snd m)
             (TripAdvisorGeo.sumA acc + snd m))
        (members polys) acc.
Proof.
  induction polys as [|poly polys IH]; intros acc; [reflexivity|].
  cbn [fold_left members flat_map]. rewrite fold_left_app.
  rewrite IH. now rewrite geometry_mp_step_member.
Qed.

Lemma mp_fold_totals (ms : list (Position * float)) :
  forall acc : TripAdvisorGeo.MPAcc,
    fold_left
      (fun acc m =>
         TripAdvisorGeo.mkMP
           (TripAdvisorGeo.sumCx acc + fst (fst m) * snd m)
           (TripAdvisorGeo.sumCy acc + snd (fst m) * snd m)
           (TripAdvisorGeo.sumA acc + snd m))
      ms acc
    = TripAdvisorGeo.mkMP
        (fold_left add (map (fun m => fst (fst m) * snd m) ms)
                   (TripAdvisorGeo.sumCx acc))
        (fold_left add (map (fun m => snd (fst m) * snd m) ms)
                   (TripAdvisorGeo.sumCy acc))
        (fold_left add (map snd ms) (TripAdvisorGeo.sumA acc)).
Proof.
  induction ms as [|m ms IH]; intros acc; [now destruct acc|].
  cbn [fold_left map]. now rewrite IH.
Qed.

Lemma chained_mp_skipped (polys : list (list (list Position))) :
  forallb skipped polys = true ->
  forall acc : Shoelace, fold_left ChainedGeo.mp_step polys acc = acc.
Proof.
  induction polys as [|poly polys IH]; intros H acc; [reflexivity|].
  cbn [forallb] in H. apply andb_true_iff in H. destruct H as [Hs Hr].
  cbn [fold_left]. rewrite <- (IH Hr acc) at 2. f_equal.
  unfold ChainedGeo.mp_step. unfold skipped in Hs.
  rewrite wrapLoop_sums.
  destruct (length _ <? 3)%nat; [reflexivity|].
  cbn [orb] in Hs. now rewrite Hs.
Qed.

(** C2.  For a MultiPolygon, [geometryCentroid] answers the mean of
    the outer-ring centroids of its members weighted by the absolute
    value of each ring's area, counting the members whose outer ring is
    not empty and has a computed shoelace sum other than zero, when the
    total of these weights is positive; otherwise it answers the mean
    of every coordinate of every ring (none if there is no coordinate).
    [centroid] of the chained resolver answers the first coordinate of
    the first polygon's outer ring (none if absent) when every member
    has fewer than three points or a computed sum of zero. *)
Theorem C2_multipolygon_centroids (polys : list (list (list Position))) :
  TripAdvisorGeo.geometryCentroid (MultiPolygon polys)
  = (if 0 <? total (map snd (members polys))
     then Some (weighted_mean (members polys))
     else TripAdvisorGeo.average_opt (concat (concat polys)))
  /\ (forallb skipped polys = true ->
      ChainedGeo.centroid (Some (MultiPolygon polys)) = first_coordinate polys).
Proof.
  split.
  - cbn [TripAdvisorGeo.geometryCentroid].
    rewrite geometry_mp_fold_members, mp_fold_totals.
    cbn [TripAdvisorGeo.sumCx TripAdvisorGeo.sumCy TripAdvisorGeo.sumA].
    reflexivity.
  - intros H. cbn [ChainedGeo.centroid].
    rewrite (@chained_mp_skipped _ H). reflexivity.
Qed.


(** Two results differ when a coordinate does. *)
Lemma some_double_neq (a b c d : float) :
  Leibniz.eqb a c && Leibniz.eqb b d = false -> Some (a, b) <> Some (c, d).
Proof.
  intros H E.
  assert (Ha : a = c).
  { exact (f_equal (fun o => match o with Some p => fst p | None => a end) E). }
  assert (Hb : b = d).
  { exact (f_equal (fun o => match o with Some p => snd p | None => b end) E). }
  apply FloatAxioms.Leibniz.eqb_spec in Ha, Hb. rewrite Ha, Hb in H.
  discriminate.
Qed.

(** C10 on a triangle away from the origin, given open and given
    closed: [closeRing] closes the open one, and both functions answer
    the same point for both. *)
Lemma C10_witness :
  let open := DoubleExamples.triangle in
  let closed := DoubleExamples.closedTriangle in
  (TripAdvisorGeo.geometryCentroid (Polygon [open])
   = ChainedGeo.centroid (Some (Polygon [open]))
   /\ ChainedGeo.centroid (Some (Polygon [open]))
      = Some (quotient (sums (edges open))))
  /\ (TripAdvisorGeo.geometryCentroid (Polygon [closed])
      = ChainedGeo.centroid (Some (Polygon [closed]))
      /\ ChainedGeo.centroid (Some (Polygon [closed]))
         = Some (quotient (sums (edges closed))))
  /\ TripAdvisorGeo.closeRing open = closed
  /\ TripAdvisorGeo.closeRing closed = closed
  /\ ChainedGeo.centroid (Some (Polygon [open]))
     = Some DoubleExamples.triangleCentre
  /\ ChainedGeo.centroid (Some (Polygon [closed]))
     = Some DoubleExamples.triangleCentre.
Proof.
  cbv zeta.
  split; [|split].
  - apply (@C10_centroid_implementations_agree DoubleExamples.triangle []);
      [simpl; lia | vm_compute; reflexivity | vm_compute; reflexivity].
  - apply (@C10_centroid_implementations_agree DoubleExamples.closedTriangle []);
      [simpl; lia | vm_compute; reflexivity | vm_compute; reflexivity].
  - repeat match goal with |- _ /\ _ => split end; vm_compute; reflexivity.
Defined.

(** On the sliver the exact shoelace sum is 2^-100 and the computed
    one is zero: [geometryCentroid] answers the mean and [centroid] the
    first point.  On the closed ring through the far point both
    computed sums are not zero, the closing edge of [centroid] adds
    infinity minus infinity, and the two answers differ. *)
Lemma C10_counterexample :
  let sliver := DoubleExamples.sliver in
  let huge := DoubleExamples.huge in
  ((3 <= length sliver)%nat
   /\ ~ (exact_area2 sliver == 0)%Q
   /\ TripAdvisorGeo.geometryCentroid (Polygon [sliver])
      <> ChainedGeo.centroid (Some (Polygon [sliver])))
  /\ ((3 <= length huge)%nat
      /\ (sl_a (sums (pairs (TripAdvisorGeo.closeRing huge))) =? 0) = false
      /\ (sl_a (sums (edges huge)) =? 0) = false
      /\ TripAdvisorGeo.geometryCentroid (Polygon [huge])
         <> ChainedGeo.centroid (Some (Polygon [huge]))).
Proof.
  cbv zeta. split; [split; [|split]|split; [|split; [|split]]].
  - simpl; lia.
  - vm_compute. discriminate.
  - vm_compute. apply some_double_neq. reflexivity.
  - simpl; lia.
  - vm_compute. reflexivity.
  - vm_compute. reflexivity.
  - vm_compute. apply some_double_neq. reflexivity.
Qed.

(** C1 on a ring of two points, on three points on the axis, and on a
    closed triangle. *)
Lemma C1_witness :
  let two := DoubleExamples.twoPoints in
  let flat := DoubleExamples.onAxis in
  TripAdvisorGeo.geometryCentroid (Polygon [two]) = Some (average two)
  /\ average two = (1, 0)
  /\ TripAdvisorGeo.geometryCentroid (Polygon [flat]) = Some (average flat)
  /\ average flat = (1, 0)
  /\ ChainedGeo.centroid (Some (Polygon [flat])) = Some (0, 0)
  /\ ChainedGeo.centroid (Some (Polygon [two])) = Some (0, 0)
  /\ sums (pairs (TripAdvisorGeo.closeRing DoubleExamples.closedTriangle))
     = sums (edges DoubleExamples.closedTriangle).
Proof.
  cbv zeta.
  pose proof (C1_polygon_degenerate_fallbacks DoubleExamples.twoPoints [])
    as H2.
  pose proof (C1_polygon_degenerate_fallbacks DoubleExamples.onAxis [])
    as H3.
  pose proof (C1_polygon_degenerate_fallbacks DoubleExamples.closedTriangle [])
    as Hc.
  cbv zeta in H2, H3, Hc.
  destruct H2 as (_ & Hshort & _ & Hchained2 & _).
  destruct H3 as (Hzero & _ & _ & Hchained3 & _).
  destruct Hc as (_ & _ & _ & _ & Hsame).
  split; [|split; [|split; [|split; [|split; [|split]]]]].
  - apply Hshort; [discriminate | simpl; lia | vm_compute; reflexivity].
  - vm_compute. reflexivity.
  - rewrite Hzero by discriminate. vm_compute. reflexivity.
  - vm_compute. reflexivity.
  - rewrite Hchained3. vm_compute. reflexivity.
  - rewrite Hchained2. vm_compute. reflexivity.
  - apply Hsame. vm_compute. reflexivity.
Defined.

(** Three points on a parallel have zero signed area, yet the computed
    sum is not zero and neither function falls back; on two points
    [geometryCentroid] answers the mean, not the first coordinate; on
    three points on the axis [centroid] answers the first coordinate,
    not the mean. *)
Lemma C1_counterexample :
  let collinear := DoubleExamples.collinear in
  let two := DoubleExamples.twoPoints in
  let flat := DoubleExamples.onAxis in
  ((3 <= length collinear)%nat
   /\ (exact_area2 collinear == 0)%Q
   /\ TripAdvisorGeo.geometryCentroid (Polygon [collinear])
      <> Some (average collinear)
   /\ ChainedGeo.centroid (Some (Polygon [collinear]))
      <> Some (average collinear)
   /\ ChainedGeo.centroid (Some (Polygon [collinear])) <> hd_error collinear)
  /\ ((length two < 3)%nat
      /\ TripAdvisorGeo.geometryCentroid (Polygon [two]) <> hd_error two)
  /\ ((3 <= length flat)%nat
      /\ (exact_area2 flat == 0)%Q
      /\ ChainedGeo.centroid (Some (Polygon [flat])) <> Some (average flat)).
Proof.
  cbv zeta.
  repeat match goal with |- _ /\ _ => split end;
    try (simpl; lia);
    try (vm_compute; reflexivity);
    vm_compute; apply some_double_neq; reflexivity.
Qed.

(** C2 on two triangles of areas 8 and 2, and on two flat members. *)
Lemma C2_witness :
  TripAdvisorGeo.geometryCentroid (MultiPolygon DoubleExamples.islands)
  = Some (weighted_mean (members DoubleExamples.islands))
  /\ map snd (members DoubleExamples.islands) = [8; 2]
  /\ weighted_mean (members DoubleExamples.islands)
     = DoubleExamples.islandsCentre
  /\ TripAdvisorGeo.geometryCentroid (MultiPolygon DoubleExamples.flats)
     = Some (average (DoubleExamples.onAxis ++ DoubleExamples.twoPoints))
  /\ ChainedGeo.centroid (Some (MultiPolygon DoubleExamples.flats))
     = Some (0, 0).
Proof.
  pose proof (C2_multipolygon_centroids DoubleExamples.islands) as [Hi _].
  pose proof (C2_multipolygon_centroids DoubleExamples.flats) as [Hf Hc].
  split; [|split; [|split; [|split]]].
  - rewrite Hi. vm_compute. reflexivity.
  - vm_compute. reflexivity.
  - vm_compute. reflexivity.
  - rewrite Hf. vm_compute. reflexivity.
  - rewrite Hc by (vm_compute; reflexivity). reflexivity.
Defined.

(** A MultiPolygon of one flat member has total area zero: [centroid]
    answers the first coordinate, not the mean of the coordinates; on
    the three points on a parallel the computed sum is not zero and
    neither function answers the mean. *)
Lemma C2_counterexample :
  let collinear := DoubleExamples.collinear in
  let flat := DoubleExamples.onAxis in
  ((exact_area2 flat == 0)%Q
   /\ ChainedGeo.centroid (Some (MultiPolygon [[flat]]))
      <> TripAdvisorGeo.average_opt (concat (concat [[flat]])))
  /\ ((exact_area2 collinear == 0)%Q
      /\ TripAdvisorGeo.geometryCentroid (MultiPolygon [[collinear]])
         <> TripAdvisorGeo.average_opt (concat (concat [[collinear]]))
      /\ ChainedGeo.centroid (Some (MultiPolygon [[collinear]]))
         <> TripAdvisorGeo.average_opt (concat (concat [[collinear]]))).
Proof.
  cbv zeta.
  repeat match goal with |- _ /\ _ => split end;
    try (vm_compute; reflexivity);
    vm_compute; apply some_double_neq; reflexivity.
Qed.

(** Where members carry area, [centroid] adds their signed sums, while
    [geometryCentroid] weights by absolute area: with a member turned
    clockwise the first answers a point left of both triangles, the
    second the same point as for the unturned triangles. *)
Example chained_signed_sums :
  ChainedGeo.centroid (Some (MultiPolygon DoubleExamples.opposed))
  = Some DoubleExamples.opposedCentre
  /\ TripAdvisorGeo.geometryCentroid (MultiPolygon DoubleExamples.opposed)
     = Some DoubleExamples.islandsCentre.
Proof. split; vm_compute; reflexivity. Qed.

End DoubleCentroids.

(** ** The Map model *)

Section JsMapFacts.

Variable V : Type.

Implicit Types (m : JsMap.t V) (k : string).

Lemma jsmap_get_none m k :
  JsMap.get k m = None <-> ~ In k (JsMap.keys m).
Proof.
  induction m as [|[k' v] m IH]; simpl.
  - tauto.
  - destruct (String.eqb k k') eqn:E.
    + apply String.eqb_eq in E. subst. split; [discriminate | tauto].
    + apply String.eqb_neq in E. rewrite IH. split.
      * intros H [H'|H']; [congruence | tauto].
      * tauto.
Qed.

Lemma jsmap_get_in m k v :
  JsMap.get k m = Some v -> In (k, v) m.
Proof.
  induction m as [|[k' v'] m IH]; simpl; [discriminate|].
  destruct (String.eqb k k') eqn:E.
  - apply String.eqb_eq in E. intros H. inversion H. subst. now left.
  - intros H. right. now apply IH.
Qed.

Lemma jsmap_keys_delete m k :
  JsMap.keys (JsMap.delete k m)
  = filter (fun k' => negb (String.eqb k k')) (JsMap.keys m).
Proof.
  induction m as [|[k' v] m IH]; simpl; [reflexivity|].
  destruct (String.eqb k k'); simpl; now rewrite <- IH.
Qed.

Lemma jsmap_keys_set m k v :
  JsMap.keys (JsMap.set k v m)
  = match JsMap.get k m with
    | Some _ => JsMap.keys m
    | None => JsMap.keys m ++ [k]
    end.
Proof.
  induction m as [|[k' v'] m IH]; simpl; [reflexivity|].
  destruct (String.eqb k k'); simpl; [reflexivity|].
  rewrite IH. now destruct (JsMap.get k m).
Qed.

Lemma jsmap_size_keys m : JsMap.size m = length (JsMap.keys m).
Proof. unfold JsMap.size, JsMap.keys. now rewrite length_map. Qed.

Lemma jsmap_delete_head m k v :
  ~ In k (JsMap.keys m) -> JsMap.delete k ((k, v) :: m) = m.
Proof.
  intros Hnotin. unfold JsMap.delete. simpl. rewrite String.eqb_refl. simpl.
  induction m as [|[k' v'] m IH]; simpl; [reflexivity|].
  simpl in Hnotin.
  destruct (String.eqb k k') eqn:E.
  - apply String.eqb_eq in E. subst. tauto.
  - simpl. f_equal. apply IH. tauto.
Qed.

Lemma jsmap_delete_size m k :
  (JsMap.size (JsMap.delete k m) <= JsMap.size m)%nat.
Proof. apply filter_length_le. Qed.

End JsMapFacts.

Lemma filter_NoDup (A : Type) (f : A -> bool) (l : list A) :
  NoDup l -> NoDup (filter f l).
Proof.
  induction 1 as [|x l Hnotin _ IH]; simpl; [constructor|].
  destruct (f x); [|exact IH].
  constructor; [|exact IH]. intros H. apply filter_In in H. tauto.
Qed.

Lemma filter_Forall (A : Type) (P : A -> Prop) (f : A -> bool) (l : list A) :
  Forall P l -> Forall P (filter f l).
Proof.
  induction 1 as [|x l Hx _ IH]; simpl; [constructor|].
  destruct (f x); [constructor|]; assumption.
Qed.

(** ** The TTL caches never outgrow their capacity *)

Lemma sorted_snoc (l : list nat) (n : nat) :
  StronglySorted lt l -> Forall (fun x => (x < n)%nat) l ->
  StronglySorted lt (l ++ [n]).
Proof.
  induction 1 as [|x l Hs IH Hx]; intros Hall; simpl.
  - repeat constructor.
  - inversion Hall; subst. constructor; [now apply IH|].
    apply Forall_app. split; [assumption|]. now repeat constructor.
Qed.

Lemma sorted_delete (k : string) (b : JsMap.t nat) :
  StronglySorted lt (map snd b) ->
  StronglySorted lt (map snd (JsMap.delete k b)).
Proof.
  unfold JsMap.delete.
  induction b as [|[k' n] b IH]; simpl; intros Hs; [constructor|].
  inversion Hs as [|? ? Hs' Hall]; subst.
  destruct (negb (String.eqb k k')); simpl; [|now apply IH].
  constructor; [now apply IH|].
  rewrite Forall_forall in *. intros x Hx. apply Hall.
  apply in_map_iff in Hx. destruct Hx as [e [<- He]].
  apply filter_In in He. apply in_map. tauto.
Qed.

Lemma truthy_string_nonempty (s : string) :
  s <> EmptyString -> truthy_string s = true.
Proof.
  intros H. unfold truthy_string. apply negb_true_iff.
  now apply String.eqb_neq.
Qed.

Section CacheFacts.

Variable V : Type.
Variable CACHE_MAX : nat.
Hypothesis capacity_positive : (1 <= CACHE_MAX)%nat.

Abbreviation Tracked := (TtlCache.Tracked V).
Abbreviation invariant := (TtlCache.invariant CACHE_MAX).
Abbreviation victim := (TtlCache.victim CACHE_MAX).

Lemma invariant_initial : invariant (TtlCache.tracked0 V).
Proof.
  constructor; simpl; try constructor. lia.
Qed.

(** A full cache always names a victim: its head. *)
Lemma victim_full (s : Tracked) :
  invariant s ->
  (CACHE_MAX <= JsMap.size (TtlCache.cache s))%nat ->
  exists first e rest,
    TtlCache.cache s = (first, e) :: rest
    /\ victim (TtlCache.cache s) = Some first
    /\ JsMap.delete first (TtlCache.cache s) = rest.
Proof.
  intros Hinv Hfull. destruct Hinv as [_ Hnd _ _ _ Htruthy].
  destruct (TtlCache.cache s) as [|[first e] rest] eqn:Ec.
  - simpl in Hfull. lia.
  - exists first, e, rest. split; [reflexivity|].
    simpl in Hnd, Htruthy. inversion Hnd; subst. inversion Htruthy; subst.
    split.
    + unfold TtlCache.victim. apply Nat.leb_le in Hfull. rewrite Hfull.
      simpl. now rewrite truthy_string_nonempty.
    + now apply jsmap_delete_head.
Qed.

Lemma victim_some (c : TtlCache.Cache V) (first : string) :
  victim c = Some first ->
  (CACHE_MAX <= JsMap.size c)%nat /\ JsMap.first_key c = Some first.
Proof.
  unfold TtlCache.victim.
  destruct (CACHE_MAX <=? JsMap.size c)%nat eqn:E; [|discriminate].
  apply Nat.leb_le in E.
  destruct (JsMap.first_key c) as [f|]; [|discriminate].
  destruct (truthy_string f); [|discriminate].
  intros H. inversion H. subst. auto.
Qed.

Lemma victim_none (s : Tracked) :
  invariant s ->
  victim (TtlCache.cache s) = None ->
  (JsMap.size (TtlCache.cache s) < CACHE_MAX)%nat.
Proof.
  intros Hinv Hnone.
  destruct (Nat.lt_ge_cases (JsMap.size (TtlCache.cache s)) CACHE_MAX)
    as [Hlt|Hge]; [exact Hlt|].
  destruct (victim_full Hinv Hge) as (first & e & rest & _ & Hv & _).
  congruence.
Qed.

Lemma invariant_delete (s : Tracked) (k : string) :
  invariant s ->
  invariant (TtlCache.mkTracked (JsMap.delete k (TtlCache.cache s))
                                (JsMap.delete k (TtlCache.births s))
                                (TtlCache.tick s)).
Proof.
  intros [Hk Hnd Hsz Hso Hfr Htr]. constructor; cbn [TtlCache.cache TtlCache.births TtlCache.tick].
  - now rewrite !jsmap_keys_delete, Hk.
  - rewrite jsmap_keys_delete. now apply filter_NoDup.
  - pose proof (jsmap_delete_size (TtlCache.cache s) k). lia.
  - now apply sorted_delete.
  - now apply filter_Forall.
  - rewrite jsmap_keys_delete. now apply filter_Forall.
Qed.

Lemma invariant_tick (s : Tracked) :
  invariant s ->
  invariant (TtlCache.mkTracked (TtlCache.cache s) (TtlCache.births s)
                                (S (TtlCache.tick s))).
Proof.
  intros [Hk Hnd Hsz Hso Hfr Htr]. constructor; cbn [TtlCache.cache TtlCache.births TtlCache.tick];
    try assumption.
  eapply Forall_impl; [|exact Hfr]. cbn. intros. lia.
Qed.

(** Inserting into a state with room left. *)
Lemma invariant_insert (s : Tracked) (k : string) (e : TtlCache.CacheEntry V) :
  invariant s ->
  (JsMap.size (TtlCache.cache s) < CACHE_MAX)%nat ->
  k <> EmptyString ->
  invariant (TtlCache.mkTracked
               (JsMap.set k e (TtlCache.cache s))
               (TtlCache.births_insert (TtlCache.tick s) k (TtlCache.births s))
               (S (TtlCache.tick s))).
Proof.
  intros [Hk Hnd Hsz Hso Hfr Htr] Hroom Hkey.
  assert (Hsame : JsMap.get k (TtlCache.births s) = None
                  <-> JsMap.get k (TtlCache.cache s) = None).
  { now rewrite !jsmap_get_none, Hk. }
  unfold TtlCache.births_insert.
  constructor; cbn [TtlCache.cache TtlCache.births TtlCache.tick].
  - rewrite jsmap_keys_set.
    destruct (JsMap.get k (TtlCache.births s)) eqn:Eb,
             (JsMap.get k (TtlCache.cache s)) eqn:Ec.
    + exact Hk.
    + destruct Hsame as [_ H]. specialize (H eq_refl). discriminate.
    + destruct Hsame as [H _]. specialize (H eq_refl). discriminate.
    + unfold JsMap.keys in *. rewrite map_app, Hk. reflexivity.
  - rewrite jsmap_keys_set.
    destruct (JsMap.get k (TtlCache.cache s)) eqn:Ec; [exact Hnd|].
    apply jsmap_get_none in Ec.
    apply NoDup_app; [exact Hnd | repeat constructor; simpl; tauto |].
    intros x Hx [<-|[]]. tauto.
  - rewrite jsmap_size_keys, jsmap_keys_set.
    rewrite jsmap_size_keys in Hroom, Hsz.
    destruct (JsMap.get k (TtlCache.cache s)); [lia|].
    rewrite length_app. simpl. lia.
  - destruct (JsMap.get k (TtlCache.births s)); [exact Hso|].
    rewrite map_app. cbn [map snd]. apply sorted_snoc; [exact Hso|].
    rewrite Forall_map. exact Hfr.
  - assert (Hfr' : Forall (fun e0 : string * nat =>
                             (snd e0 < S (TtlCache.tick s))%nat)
                          (TtlCache.births s)).
    { eapply Forall_impl; [|exact Hfr]. cbn. intros. lia. }
    destruct (JsMap.get k (TtlCache.births s)); [exact Hfr'|].
    apply Forall_app. split; [exact Hfr'|]. repeat constructor.
  - rewrite jsmap_keys_set.
    destruct (JsMap.get k (TtlCache.cache s)); [exact Htr|].
    apply Forall_app. split; [exact Htr|]. now repeat constructor.
Qed.

Lemma invariant_step (s : Tracked) (op : TtlCache.CacheOp V) :
  invariant s ->
  TtlCache.op_key op <> EmptyString ->
  invariant (TtlCache.tracked_step CACHE_MAX s op).
Proof.
  intros Hinv Hkey. destruct op as [now k|now k v ttl]; cbn [TtlCache.op_key] in Hkey;
    unfold TtlCache.tracked_step, TtlCache.step, TtlCache.births_step.
  - unfold TtlCache.cacheGet.
    destruct (JsMap.get k (TtlCache.cache s)) as [hit|]; cbn [snd].
    + destruct (TtlCache.expires hit <? now)%Z; cbn [snd].
      * apply (invariant_tick (invariant_delete k Hinv)).
      * now apply invariant_tick.
    + now apply invariant_tick.
  - unfold TtlCache.cacheSet.
    destruct (victim (TtlCache.cache s)) as [first|] eqn:Ev.
    + pose proof (invariant_delete first Hinv) as Hinv'.
      apply (invariant_insert
               (s := TtlCache.mkTracked (JsMap.delete first (TtlCache.cache s))
                                        (JsMap.delete first (TtlCache.births s))
                                        (TtlCache.tick s))); try assumption.
      cbn [TtlCache.cache].
      destruct (victim_some _ Ev) as [Hfull _].
      destruct (victim_full Hinv Hfull) as (f & e & rest & Hc & Hv & Hd).
      assert (f = first) by congruence. subst f.
      rewrite Hd. destruct Hinv as [_ _ Hsz _ _ _]. rewrite Hc in Hsz.
      unfold JsMap.size in *. cbn [length] in Hsz. lia.
    + apply (invariant_insert (s := s)); try assumption.
      now apply victim_none.
Qed.

Lemma run_snoc (ops : list (TtlCache.CacheOp V)) (op : TtlCache.CacheOp V) :
  TtlCache.run CACHE_MAX (ops ++ [op])
  = TtlCache.tracked_step CACHE_MAX (TtlCache.run CACHE_MAX ops) op.
Proof. unfold TtlCache.run. now rewrite fold_left_app. Qed.

Lemma invariant_run (ops : list (TtlCache.CacheOp V)) :
  Forall (fun op => TtlCache.op_key op <> EmptyString) ops ->
  invariant (TtlCache.run CACHE_MAX ops).
Proof.
  induction ops as [|op ops IH] using rev_ind; intros Hall.
  - apply invariant_initial.
  - apply Forall_app in Hall. destruct Hall as [Hops Hop].
    inversion Hop; subst. rewrite run_snoc.
    apply invariant_step; auto.
Qed.

Lemma cacheGet_hit_keeps (now : Z) (k : string) (c : TtlCache.Cache V) (v : V) :
  fst (TtlCache.cacheGet now k c) = Some v ->
  snd (TtlCache.cacheGet now k c) = c.
Proof.
  unfold TtlCache.cacheGet.
  destruct (JsMap.get k c) as [hit|]; [|discriminate].
  destruct (TtlCache.expires hit <? now)%Z; [discriminate | reflexivity].
Qed.

(** The capacity law holds after every history of operations on keys
    that are not the empty string. *)
Lemma capacity_law_holds (ops : list (TtlCache.CacheOp V)) :
  Forall (fun op => TtlCache.op_key op <> EmptyString) ops ->
  TtlCache.capacity_law CACHE_MAX ops.
Proof.
  intros Hall. pose proof (invariant_run Hall) as Hinv.
  unfold TtlCache.capacity_law. cbn zeta.
  set (s := TtlCache.run CACHE_MAX ops) in *.
  split; [apply Hinv|]. split; [apply Hinv|].
  split; [intros now k v; apply cacheGet_hit_keeps|].
  intros now k v ttl Hfull.
  destruct (victim_full Hinv Hfull) as (first & e & rest & Hc & Hv & Hd).
  destruct Hinv as [Hk Hnd _ Hso _ _].
  destruct (TtlCache.births s) as [|[bk born] brest] eqn:Eb.
  { rewrite Hc in Hk. discriminate. }
  rewrite Hc in Hk, Hnd. simpl in Hk. inversion Hk; subst bk.
  exists first, e, rest, born.
  split; [exact Hc|]. split; [exact Hv|]. split.
  - unfold TtlCache.cacheSet. now rewrite Hv, Hd.
  - split.
    + simpl. now rewrite String.eqb_refl.
    + intros k' born' Hne Hget. simpl in Hget.
      destruct (String.eqb k' first) eqn:E.
      * apply String.eqb_eq in E. contradiction.
      * apply jsmap_get_in in Hget.
        simpl in Hso. inversion Hso as [|? ? _ Hlt]; subst.
        rewrite Forall_forall in Hlt. apply Hlt.
        change born' with (snd (k', born')). now apply in_map.
Qed.

Lemma bounded_empty : TtlCache.bounded CACHE_MAX (V := V) [].
Proof. exists [], 0%nat. apply invariant_initial. Qed.

Lemma bounded_size (c : TtlCache.Cache V) :
  TtlCache.bounded CACHE_MAX c -> (JsMap.size c <= CACHE_MAX)%nat.
Proof. intros (b & t & Hinv). exact (TtlCache.inv_size Hinv). Qed.

Lemma bounded_cacheGet (now : Z) (k : string) (c : TtlCache.Cache V) :
  k <> EmptyString ->
  TtlCache.bounded CACHE_MAX c ->
  TtlCache.bounded CACHE_MAX (snd (TtlCache.cacheGet now k c)).
Proof.
  intros Hk (b & t & Hinv).
  pose proof (invariant_step (TtlCache.OpGet V now k) Hinv Hk) as H.
  eexists _, _. exact H.
Qed.

Lemma bounded_cacheSet (now : Z) (k : string) (v : V) (ttl : Z)
      (c : TtlCache.Cache V) :
  k <> EmptyString ->
  TtlCache.bounded CACHE_MAX c ->
  TtlCache.bounded CACHE_MAX (TtlCache.cacheSet CACHE_MAX now k v ttl c).
Proof.
  intros Hk (b & t & Hinv).
  pose proof (invariant_step (TtlCache.OpSet now k v ttl) Hinv Hk) as H.
  eexists _, _. exact H.
Qed.

End CacheFacts.

(** ** JSON strings can be read back *)

Lemma string_app_assoc (a b c : string) :
  ((a ++ b) ++ c = a ++ (b ++ c))%string.
Proof. induction a as [|x a IH]; simpl; [reflexivity | now rewrite IH]. Qed.

Lemma unescape_escape (c : ascii) (r : string) :
  Json.unescape (Json.escape c ++ r) = Some (c, r).
Proof.
  destruct c as [[] [] [] [] [] [] [] []]; reflexivity.
Qed.

(** Two JSON strings followed by anything are equal texts only for
    equal strings. *)
Lemma json_body_prefix_free (s1 : string) :
  forall (s2 r1 r2 : string),
    (Json.body s1 ++ r1 = Json.body s2 ++ r2)%string -> s1 = s2.
Proof.
  induction s1 as [|c1 s1 IH]; intros [|c2 s2] r1 r2 H; cbn [Json.body] in H.
  - reflexivity.
  - apply (f_equal Json.unescape) in H.
    rewrite string_app_assoc, unescape_escape in H. discriminate.
  - apply (f_equal Json.unescape) in H.
    rewrite string_app_assoc, unescape_escape in H. discriminate.
  - apply (f_equal Json.unescape) in H.
    rewrite !string_app_assoc, !unescape_escape in H.
    inversion H; subst. f_equal. eapply IH. eassumption.
Qed.

(** ** The Place Resolver *)

Section JsMapUpdates.

Variable V : Type.

Lemma jsmap_get_set_same (m : JsMap.t V) (k : string) (v : V) :
  JsMap.get k (JsMap.set k v m) = Some v.
Proof.
  induction m as [|[k' v'] m IH]; simpl.
  - now rewrite String.eqb_refl.
  - destruct (String.eqb k k') eqn:E; simpl; rewrite E; [reflexivity | exact IH].
Qed.

Lemma jsmap_in_set (m : JsMap.t V) (k : string) (v : V) (k0 : string) (v0 : V) :
  In (k0, v0) (JsMap.set k v m) -> (k0 = k /\ v0 = v) \/ In (k0, v0) m.
Proof.
  induction m as [|[k' v'] m IH]; simpl.
  - intros [H|[]]. inversion H. auto.
  - destruct (String.eqb k k') eqn:E; simpl.
    + apply String.eqb_eq in E. subst k'.
      intros [H|H]; [inversion H; auto | auto].
    + intros [H|H]; [auto|]. destruct (IH H); auto.
Qed.

Lemma jsmap_in_delete (m : JsMap.t V) (k : string) (k0 : string) (v0 : V) :
  In (k0, v0) (JsMap.delete k m) -> In (k0, v0) m.
Proof. unfold JsMap.delete. intros H. apply filter_In in H. tauto. Qed.

End JsMapUpdates.

Section JsMapLookups.

Variable V : Type.

Lemma jsmap_get_delete_same (m : JsMap.t V) (k : string) :
  JsMap.get k (JsMap.delete k m) = None.
Proof.
  apply jsmap_get_none. rewrite jsmap_keys_delete. intros H.
  apply filter_In in H. destruct H as [_ H].
  rewrite String.eqb_refl in H. discriminate.
Qed.

Lemma jsmap_get_delete_other (m : JsMap.t V) (k k' : string) :
  k' <> k -> JsMap.get k' (JsMap.delete k m) = JsMap.get k' m.
Proof.
  intros Hne. unfold JsMap.delete.
  induction m as [|[k0 v0] m IH]; [reflexivity|]. cbn [filter fst].
  destruct (String.eqb k k0) eqn:E; cbn [negb JsMap.get].
  - apply String.eqb_eq in E. subst k0.
    apply String.eqb_neq in Hne. now rewrite Hne.
  - now rewrite IH.
Qed.

Lemma jsmap_get_set_other (m : JsMap.t V) (k k' : string) (v : V) :
  k' <> k -> JsMap.get k' (JsMap.set k v m) = JsMap.get k' m.
Proof.
  intros Hne. apply String.eqb_neq in Hne.
  induction m as [|[k0 v0] m IH]; cbn [JsMap.set JsMap.get].
  - now rewrite Hne.
  - destruct (String.eqb k k0) eqn:E; cbn [JsMap.get].
    + apply String.eqb_eq in E. subst k0. now rewrite Hne.
    + now rewrite IH.
Qed.

End JsMapLookups.

Section CacheLookups.

Variable V : Type.

Lemma cacheGet_fresh (now : Z) (k : string) (c : TtlCache.Cache V)
      (e : TtlCache.CacheEntry V) :
  JsMap.get k c = Some e ->
  (now <= TtlCache.expires e)%Z ->
  TtlCache.cacheGet now k c = (Some (TtlCache.value e), c).
Proof.
  intros Hget Hle. unfold TtlCache.cacheGet. rewrite Hget.
  assert (H : (TtlCache.expires e <? now)%Z = false) by (apply Z.ltb_ge; lia).
  now rewrite H.
Qed.

Lemma cacheGet_stale (now : Z) (k : string) (c : TtlCache.Cache V)
      (e : TtlCache.CacheEntry V) :
  JsMap.get k c = Some e ->
  (TtlCache.expires e < now)%Z ->
  TtlCache.cacheGet now k c = (None, JsMap.delete k c).
Proof.
  intros Hget Hlt. unfold TtlCache.cacheGet. rewrite Hget.
  assert (H : (TtlCache.expires e <? now)%Z = true) by (apply Z.ltb_lt; lia).
  now rewrite H.
Qed.

(** After a miss the key is not in the cache. *)
Lemma cacheGet_miss (now : Z) (k : string) (c : TtlCache.Cache V) :
  fst (TtlCache.cacheGet now k c) = None ->
  JsMap.get k (snd (TtlCache.cacheGet now k c)) = None.
Proof.
  unfold TtlCache.cacheGet.
  destruct (JsMap.get k c) as [hit|] eqn:E; cbn [fst snd]; [|now intros _].
  destruct (TtlCache.expires hit <? now)%Z; cbn [fst snd]; [|discriminate].
  intros _. apply jsmap_get_delete_same.
Qed.

Lemma cacheGet_absent (now : Z) (k : string) (c : TtlCache.Cache V) :
  JsMap.get k c = None -> TtlCache.cacheGet now k c = (None, c).
Proof. intros H. unfold TtlCache.cacheGet. now rewrite H. Qed.

Lemma cacheGet_other (now : Z) (k k' : string) (c : TtlCache.Cache V) :
  k' <> k ->
  JsMap.get k' (snd (TtlCache.cacheGet now k c)) = JsMap.get k' c.
Proof.
  intros Hne. unfold TtlCache.cacheGet.
  destruct (JsMap.get k c) as [hit|]; [|reflexivity].
  destruct (TtlCache.expires hit <? now)%Z; cbn [snd]; [|reflexivity].
  now apply jsmap_get_delete_other.
Qed.

End CacheLookups.

Section CacheSteps.

Variable V : Type.
Variable CACHE_MAX : nat.

Lemma cacheGet_subset (now : Z) (key : string) (c : TtlCache.Cache V)
      (k : string) (e : TtlCache.CacheEntry V) :
  In (k, e) (snd (TtlCache.cacheGet now key c)) -> In (k, e) c.
Proof.
  unfold TtlCache.cacheGet.
  destruct (JsMap.get key c) as [hit|]; [|auto].
  destruct (TtlCache.expires hit <? now)%Z; cbn [snd]; [|auto].
  apply jsmap_in_delete.
Qed.

Lemma cacheGet_value (now : Z) (key : string) (c : TtlCache.Cache V) (v : V) :
  fst (TtlCache.cacheGet now key c) = Some v ->
  exists e, JsMap.get key c = Some e /\ TtlCache.value e = v
            /\ snd (TtlCache.cacheGet now key c) = c.
Proof.
  unfold TtlCache.cacheGet.
  destruct (JsMap.get key c) as [hit|]; [|discriminate].
  destruct (TtlCache.expires hit <? now)%Z; cbn [fst snd]; [discriminate|].
  intros H. inversion H. eauto.
Qed.

Lemma cacheSet_in (t : Z) (key : string) (v : V) (ttl : Z)
      (c : TtlCache.Cache V) (k : string) (e : TtlCache.CacheEntry V) :
  In (k, e) (TtlCache.cacheSet CACHE_MAX t key v ttl c) ->
  (k = key /\ e = TtlCache.mkEntry v (t + ttl)%Z) \/ In (k, e) c.
Proof.
  unfold TtlCache.cacheSet. intros H. apply jsmap_in_set in H.
  destruct H as [H|H]; [now left|right].
  destruct (TtlCache.victim CACHE_MAX c); [|exact H].
  eapply jsmap_in_delete. exact H.
Qed.

Lemma cacheSet_get (t : Z) (key : string) (v : V) (ttl : Z)
      (c : TtlCache.Cache V) :
  JsMap.get key (TtlCache.cacheSet CACHE_MAX t key v ttl c)
  = Some (TtlCache.mkEntry v (t + ttl)%Z).
Proof. unfold TtlCache.cacheSet. apply jsmap_get_set_same. Qed.

End CacheSteps.

Lemma toFeatureCollection_geometries (rt : Runtime) (rows : list NominatimRow) :
  Forall (fun f => geometry f <> None) (features (toFeatureCollection rt rows)).
Proof.
  unfold toFeatureCollection. cbn [features]. apply Forall_map.
  apply Forall_forall. intros it _. discriminate.
Qed.

Section PlaceResolver.

Import NominatimService CacheContents.

Variable rt : Runtime.
Variable env : Env.

Lemma wellFormed_cacheGet (w : World) (key : string) (c : Cache) :
  wellFormed c -> wellFormed (snd (TtlCache.cacheGet (now w) key c)).
Proof.
  intros Hwf k e Hin. apply (Hwf k). eapply cacheGet_subset. exact Hin.
Qed.

Lemma wellFormed_cacheSet (t : Z) (key : string)
      (res : ToolResult) (ttl : Z) (c : Cache) :
  wellFormed c ->
  goodResult res ->
  wellFormed (TtlCache.cacheSet CACHE_MAX t key res ttl c).
Proof.
  intros Hwf Hg k e Hin. apply cacheSet_in in Hin.
  destruct Hin as [[-> ->]|Hin]; [exact Hg | now apply (Hwf k)].
Qed.

(** A call started from a well-formed cache leaves a well-formed cache
    and returns a good result. *)
Lemma runNominatimSearch_spec (w : World) (args : NominatimSearchArgs)
      (c : Cache) :
  wellFormed c ->
  wellFormed (snd (fst (runNominatimSearch rt env w args c)))
  /\ forall res,
       fst (fst (runNominatimSearch rt env w args c)) = Returned res ->
       goodResult res.
Proof.
  intros Hwf.
  pose proof (wellFormed_cacheGet w (cacheKey rt args) Hwf) as Hwf1.
  pose proof (@cacheGet_value _ (now w) (cacheKey rt args) c) as Hval.
  unfold runNominatimSearch.
  destruct (TtlCache.cacheGet (now w) (cacheKey rt args) c)
    as [[cached|] c1] eqn:Eg; cbn [fst snd] in *.
  - split; [exact Hwf1|].
    intros res H. injection H as <-.
    destruct (Hval cached eq_refl) as (e & Hget & Hv & _).
    rewrite <- Hv. apply (Hwf (cacheKey rt args)). now apply jsmap_get_in.
  - assert (Hok : forall rows,
               goodResult (Ok (toFeatureCollection rt rows) SrcNominatim)).
    { intros rows. split; [reflexivity | apply toFeatureCollection_geometries]. }
    destruct (tooShort rt (query args)); cbn [fst snd].
    + split; [now apply wellFormed_cacheSet|].
      intros res H. injection H as <-. exact I.
    + destruct (fetch w (request rt env args)) as [message|[|] status body];
        cbn [fst snd].
      * split; [now apply wellFormed_cacheSet|].
        intros res H. injection H as <-. exact I.
      * destruct body as [rows| |]; cbn [fst snd].
        -- split; [apply wellFormed_cacheSet; auto|].
           intros res H. injection H as <-. apply Hok.
        -- split; [apply wellFormed_cacheSet; auto|].
           intros res H. injection H as <-. apply Hok.
        -- split; [exact Hwf1 | discriminate].
      * split; [now apply wellFormed_cacheSet|].
        intros res H. injection H as <-. exact I.
Qed.

Lemma wellFormed_empty : wellFormed [].
Proof. intros k e []. Qed.

Lemma cacheAfter_snoc (history : list Call) (call : Call) :
  cacheAfter rt env (history ++ [call])
  = snd (fst (runNominatimSearch rt env (call_world call) (call_args call)
                                 (cacheAfter rt env history))).
Proof. unfold cacheAfter. now rewrite fold_left_app. Qed.

(** After every history of calls the cache is well formed. *)
Lemma history_spec (history : list Call) :
  wellFormed (cacheAfter rt env history).
Proof.
  induction history as [|call history IH] using rev_ind.
  - apply wellFormed_empty.
  - rewrite cacheAfter_snoc. now apply runNominatimSearch_spec.
Qed.

End PlaceResolver.

(** After any history of calls, a successful result of the Place
    Resolver is tagged as Nominatim's and all its features have a
    geometry. *)
Lemma place_result_good
      (rt : Runtime) (env : NominatimService.Env)
      (history : list NominatimService.Call)
      (w : NominatimService.World)
      (args : NominatimService.NominatimSearchArgs)
      (data : FeatureCollection) (tag : Provenance) :
  fst (fst (NominatimService.runNominatimSearch
              rt env w args (NominatimService.cacheAfter rt env history)))
  = Returned (Ok data tag) ->
  tag = SrcNominatim
  /\ Forall (fun f => geometry f <> None) (features data).
Proof.
  intros H.
  pose proof (history_spec rt env history) as Hwf.
  destruct (@runNominatimSearch_spec rt env w args _ Hwf) as [_ Hres].
  exact (Hres _ H).
Qed.

(** A call that finds a live entry under its key returns the entry's
    value, makes no request and leaves the cache alone. *)
Lemma runNominatimSearch_again
      (rt : Runtime) (env : NominatimService.Env)
      (w : NominatimService.World)
      (args : NominatimService.NominatimSearchArgs)
      (c : NominatimService.Cache) (e : TtlCache.CacheEntry ToolResult) :
  JsMap.get (NominatimService.cacheKey rt args) c = Some e ->
  (NominatimService.now w <= TtlCache.expires e)%Z ->
  NominatimService.runNominatimSearch rt env w args c
  = (Returned (TtlCache.value e), c, []).
Proof.
  intros Hget Hle. unfold NominatimService.runNominatimSearch.
  now rewrite (cacheGet_fresh _ _ Hget Hle).
Qed.

(** ** Queries that are too short *)

(** C7.  A call of the Place Resolver whose query has fewer than 2
    characters once trimmed makes no network request.  When the cache
    holds no live entry under the canonical key of the query, the call
    returns the failure "Query too short" and stores it under that key
    with the default TTL of 600000 ms (10 minutes), not the failure TTL
    of 120000 ms.  But the cache is read before the query is checked, so
    a live entry under the key is returned as it is.  The key holds the
    query in lower case, and lower-casing can lengthen a string: when a
    longer query has the same key and a call with it was answered by
    Nominatim, the too-short query is given that answer, not the
    failure, for as long as the entry lives. *)
Theorem C7_too_short_query_reads_cache_first
        (rt : Runtime) (env : NominatimService.Env)
        (w : NominatimService.World)
        (args : NominatimService.NominatimSearchArgs)
        (c : NominatimService.Cache) :
  NominatimService.tooShort rt (NominatimService.query args) = true ->
  let key := NominatimService.cacheKey rt args in
  let failure := Failure "Query too short" None in
  let r := NominatimService.runNominatimSearch rt env w args c in
  existsb NominatimService.isFetch (snd r) = false
  /\ (fst (TtlCache.cacheGet (NominatimService.now w) key c) = None ->
      fst (fst r) = Returned failure
      /\ snd r = [NominatimService.EvCacheSet key failure 600000]
      /\ JsMap.get key (snd (fst r))
         = Some (TtlCache.mkEntry failure (NominatimService.later w + 600000)%Z))
  /\ (forall e : TtlCache.CacheEntry ToolResult,
        JsMap.get key c = Some e ->
        (NominatimService.now w <= TtlCache.expires e)%Z ->
        r = (Returned (TtlCache.value e), c, []))
  /\ (forall (w1 : NominatimService.World)
             (args1 : NominatimService.NominatimSearchArgs)
             (c1 : NominatimService.Cache)
             (status : Z) (rows : list NominatimRow),
        NominatimService.cacheKey rt args1 = key ->
        NominatimService.tooShort rt (NominatimService.query args1) = false ->
        fst (TtlCache.cacheGet (NominatimService.now w1) key c1) = None ->
        NominatimService.fetch w1 (NominatimService.request rt env args1)
        = NominatimService.Response true status (NominatimService.BodyRows rows) ->
        c = snd (fst (NominatimService.runNominatimSearch rt env w1 args1 c1)) ->
        (NominatimService.now w <= NominatimService.later w1 + 600000)%Z ->
        r = (Returned (Ok (toFeatureCollection rt rows) SrcNominatim), c, [])).
Proof.
  intros Hshort key failure r.
  assert (Hlive : forall e : TtlCache.CacheEntry ToolResult,
             JsMap.get key c = Some e ->
             (NominatimService.now w <= TtlCache.expires e)%Z ->
             r = (Returned (TtlCache.value e), c, [])).
  { intros e Hget Hle. now apply runNominatimSearch_again. }
  split; [|split; [|split; [exact Hlive|]]].
  - subst r. unfold NominatimService.runNominatimSearch. fold key.
    destruct (TtlCache.cacheGet (NominatimService.now w) key c) as [[cached|] c'];
      [reflexivity|].
    rewrite Hshort. reflexivity.
  - subst r. unfold NominatimService.runNominatimSearch. fold key.
    destruct (TtlCache.cacheGet (NominatimService.now w) key c) as [[cached|] c'];
      cbn [fst]; [discriminate|].
    intros _. rewrite Hshort. cbn [fst snd].
    split; [reflexivity|]. split; [reflexivity|].
    now rewrite cacheSet_get.
  - intros w1 args1 c1 status rows Hkey Hlong Hmiss Hfetch Hc Hle.
    assert (Hget : JsMap.get key c
                   = Some (TtlCache.mkEntry
                             (Ok (toFeatureCollection rt rows) SrcNominatim)
                             (NominatimService.later w1 + 600000)%Z)).
    { rewrite Hc. unfold NominatimService.runNominatimSearch.
      rewrite Hkey.
      destruct (TtlCache.cacheGet (NominatimService.now w1) key c1)
        as [[cached|] c']; cbn [fst] in Hmiss; [discriminate|].
      rewrite Hlong, Hfetch. cbn [fst snd].
      now rewrite cacheSet_get. }
    exact (Hlive _ Hget Hle).
Qed.

(** The query "i" followed by the combining dot is answered by
    Nominatim; the query of a blank and the dotted capital I, one
    character once trimmed, then gets that answer. *)
Lemma C7_witness :
  let long := foursquareByPlaceTool.placeArgs Examples.iDot in
  let short := foursquareByPlaceTool.placeArgs (" " ++ Examples.dottedI)%string in
  let c := snd (fst (NominatimService.runNominatimSearch
                       Examples.rtDotted Examples.env0 Examples.world0 long [])) in
  NominatimService.tooShort Examples.rtDotted (NominatimService.query short) = true
  /\ NominatimService.tooShort Examples.rtDotted (NominatimService.query long) = false
  /\ NominatimService.runNominatimSearch
       Examples.rtDotted Examples.env0 Examples.world0 short c
     = (Returned (Ok (toFeatureCollection Examples.rtDotted [Examples.polygonRow])
                     SrcNominatim), c, [])
  /\ fst (fst (NominatimService.runNominatimSearch
                 Examples.rtDotted Examples.env0 Examples.world0 short []))
     = Returned (Failure "Query too short" None).
Proof.
  cbv zeta.
  split; [reflexivity|]. split; [reflexivity|]. split.
  - destruct (@C7_too_short_query_reads_cache_first
                Examples.rtDotted Examples.env0 Examples.world0
                (foursquareByPlaceTool.placeArgs (" " ++ Examples.dottedI)%string)
                (snd (fst (NominatimService.runNominatimSearch
                             Examples.rtDotted Examples.env0 Examples.world0
                             (foursquareByPlaceTool.placeArgs Examples.iDot) [])))
                eq_refl) as (_ & _ & _ & H).
    apply (H Examples.world0 (foursquareByPlaceTool.placeArgs Examples.iDot) []
             200%Z [Examples.polygonRow]);
      solve [reflexivity | vm_compute; discriminate].
  - destruct (@C7_too_short_query_reads_cache_first
                Examples.rtDotted Examples.env0 Examples.world0
                (foursquareByPlaceTool.placeArgs (" " ++ Examples.dottedI)%string)
                [] eq_refl) as (_ & H & _).
    apply H. reflexivity.
Defined.

(** With the runtime of the examples, the same too-short query asked
    twice: the second call is served from the cache and stores
    nothing. *)
Example too_short_twice :
  snd (NominatimService.runNominatimSearch
         Examples.rt0 Examples.env0 Examples.world0
         (foursquareByPlaceTool.placeArgs " a ")
         (NominatimService.cacheAfter
            Examples.rt0 Examples.env0
            [NominatimService.mkCall Examples.world0
                                     (foursquareByPlaceTool.placeArgs "A")]))
  = [].
Proof. reflexivity. Qed.

(** ** The keys the program builds are never the empty string *)

Lemma cacheKey_nonempty (rt : Runtime)
      (args : NominatimService.NominatimSearchArgs) :
  NominatimService.cacheKey rt args <> EmptyString.
Proof. unfold NominatimService.cacheKey. cbn [append]. discriminate. Qed.

Lemma geocodeKey_nonempty (rt : Runtime) (address : string)
      (near : option TripAdvisorTool.Center) :
  TripAdvisorTool.geocodeKey rt address near <> EmptyString.
Proof.
  unfold TripAdvisorTool.geocodeKey.
  destruct (trim rt (toLowerCase rt address)); cbn [append]; discriminate.
Qed.

(** The Place Resolver keeps its cache within bounds. *)
Lemma runNominatimSearch_bounded (rt : Runtime) (env : NominatimService.Env)
      (w : NominatimService.World)
      (args : NominatimService.NominatimSearchArgs)
      (c : NominatimService.Cache) :
  TtlCache.bounded NominatimService.CACHE_MAX c ->
  TtlCache.bounded NominatimService.CACHE_MAX
    (snd (fst (NominatimService.runNominatimSearch rt env w args c))).
Proof.
  intros Hb.
  assert (Hmax : (1 <= NominatimService.CACHE_MAX)%nat).
  { unfold NominatimService.CACHE_MAX. lia. }
  pose proof (@cacheKey_nonempty rt args) as Hk.
  pose proof (bounded_cacheGet Hmax (NominatimService.now w) Hk Hb) as Hg.
  unfold NominatimService.runNominatimSearch.
  destruct (TtlCache.cacheGet (NominatimService.now w)
                              (NominatimService.cacheKey rt args) c)
    as [[cached|] c1]; cbn [fst snd] in *; [exact Hg|].
  destruct (NominatimService.tooShort rt (NominatimService.query args));
    cbn [fst snd]; [now apply bounded_cacheSet|].
  destruct (NominatimService.fetch w _) as [message|[|] status body];
    cbn [fst snd]; try (now apply bounded_cacheSet).
  destruct body; cbn [fst snd]; try (now apply bounded_cacheSet).
  exact Hg.
Qed.

Lemma cacheAfter_bounded (rt : Runtime) (env : NominatimService.Env)
      (history : list NominatimService.Call) :
  TtlCache.bounded NominatimService.CACHE_MAX
                   (NominatimService.cacheAfter rt env history).
Proof.
  induction history as [|call history IH] using rev_ind.
  - apply bounded_empty. unfold NominatimService.CACHE_MAX. lia.
  - rewrite cacheAfter_snoc. now apply runNominatimSearch_bounded.
Qed.

(** One fallback lookup: a cache within bounds stays within bounds, and
    the lookup adds one event, a cache hit or a network request. *)
Lemma geocodeAddressWithCache_spec (rt : Runtime) (env : NominatimService.Env)
      (net : TripAdvisorTool.Network) (address : string)
      (near : option TripAdvisorTool.Center) (st : TripAdvisorTool.State) :
  let r := TripAdvisorTool.geocodeAddressWithCache rt env net address near st in
  (TtlCache.bounded TripAdvisorTool.CACHE_MAX (TripAdvisorTool.geocodeCache st) ->
   TtlCache.bounded TripAdvisorTool.CACHE_MAX
                    (TripAdvisorTool.geocodeCache (snd r)))
  /\ ((exists key,
          TripAdvisorTool.trace (snd r)
          = TripAdvisorTool.trace st ++ [TripAdvisorTool.EvCacheHit key]
          /\ exists v, fst r = Returned (Some v))
      \/ (exists req,
             TripAdvisorTool.trace (snd r)
             = TripAdvisorTool.trace st ++ [TripAdvisorTool.EvGeocodeFetch req])).
Proof.
  assert (Hmax : (1 <= TripAdvisorTool.CACHE_MAX)%nat).
  { unfold TripAdvisorTool.CACHE_MAX. lia. }
  pose proof (@geocodeKey_nonempty rt address near) as Hk.
  pose proof (fun Hb => bounded_cacheGet (c := TripAdvisorTool.geocodeCache st)
                          Hmax (TripAdvisorTool.clock st) Hk Hb) as Hg.
  unfold TripAdvisorTool.geocodeAddressWithCache. cbn zeta.
  destruct (TtlCache.cacheGet (TripAdvisorTool.clock st)
                              (TripAdvisorTool.geocodeKey rt address near)
                              (TripAdvisorTool.geocodeCache st))
    as [[cached|] c1]; cbn [fst snd] in *.
  - split; [exact Hg|]. left. eexists. split; [reflexivity|].
    eexists. reflexivity.
  - destruct (TripAdvisorTool.answer net _)
      as [message|[|] status [[|first rows]| |]];
      cbn [fst snd TripAdvisorTool.geocodeCache TripAdvisorTool.trace];
      (split; [first [exact Hg | intros Hb; apply bounded_cacheSet; auto]
              | right; eexists; reflexivity]).
Qed.

(** What the pin loop guarantees of its result [r] from the state
    [st]. *)
Lemma pinLoop_spec (P : Feature -> Prop)
      (rt : Runtime) (env : NominatimService.Env)
      (net : TripAdvisorTool.Network) (center : TripAdvisorTool.Center) :
  (forall item lng lat, P (poiFeature item lng lat)) ->
  forall (items : list TAItem) (features : list Feature) (count : nat)
         (st : TripAdvisorTool.State),
    Forall P features ->
    TripAdvisorTool.loopSpec
      P st (TripAdvisorTool.pinLoop rt env net center items features count st).
Proof.
  intros HP. induction items as [|item items IH]; intros features count st Hf.
  - cbn. split; [auto|]. split.
    + exists []. split; [now rewrite app_nil_r | constructor].
    + intros fs H. injection H as <-. exact Hf.
  - cbn [TripAdvisorTool.pinLoop].
    assert (Hpin : forall lng lat,
               Forall P (features ++ [poiFeature item lng lat])).
    { intros. apply Forall_app. split; [exact Hf|]. repeat constructor.
      apply HP. }
    assert (Hgeo :
              TripAdvisorTool.loopSpec P st
                (if negb (truthy_opt_string (itemAddress item)) then
                   TripAdvisorTool.pinLoop rt env net center items features
                                           count st
                 else
                   match TripAdvisorTool.geocodeAddressWithCache
                           rt env net
                           (NominatimService.opt_default (itemAddress item)
                                                         EmptyString)
                           (Some center) st with
                   | (Thrown, st1) => (Thrown, st1)
                   | (Returned None, st1) =>
                       TripAdvisorTool.pinLoop rt env net center items features
                                               count st1
                   | (Returned (Some cachedOrFresh), st1) =>
                       TripAdvisorTool.pinLoop
                         rt env net center items
                         (features
                            ++ [poiFeature item
                                  (TripAdvisorTool.cv_lng cachedOrFresh)
                                  (TripAdvisorTool.cv_lat cachedOrFresh)])
                         (S count)
                         (if (0 <? S count)%nat
                          then TripAdvisorTool.sleep 1100 st1 else st1)
                   end)).
    { destruct (negb (truthy_opt_string (itemAddress item))); [now apply IH|].
      pose proof (@geocodeAddressWithCache_spec
                    rt env net
                    (NominatimService.opt_default (itemAddress item) EmptyString)
                    (Some center) st) as Hg.
      cbn zeta in Hg.
      destruct (TripAdvisorTool.geocodeAddressWithCache rt env net _ _ st)
        as [[[v|]|] st1]; cbn [fst snd] in Hg; destruct Hg as [Hb1 Hev].
      - (* a coordinate, cached or fresh: the pin and the pause *)
        cbn [Nat.ltb Nat.leb].
        specialize (IH (features
                          ++ [poiFeature item (TripAdvisorTool.cv_lng v)
                                         (TripAdvisorTool.cv_lat v)])
                       (S count) (TripAdvisorTool.sleep 1100 st1) (Hpin _ _)).
        destruct IH as (Hb' & (evs & Ht & Hp) & Hfs).
        split; [auto|]. split; [|exact Hfs].
        cbn [TripAdvisorTool.sleep TripAdvisorTool.trace] in Ht.
        destruct Hev as [(key & Hk & _)|(req & Hr)].
        + exists (TripAdvisorTool.EvCacheHit key
                    :: TripAdvisorTool.EvSleep 1100 :: evs).
          split; [|now constructor].
          rewrite Ht, Hk, <- !app_assoc. reflexivity.
        + exists (TripAdvisorTool.EvGeocodeFetch req
                    :: TripAdvisorTool.EvSleep 1100 :: evs).
          split; [|now constructor].
          rewrite Ht, Hr, <- !app_assoc. reflexivity.
      - (* no coordinate: no pin, no pause *)
        specialize (IH features count st1 Hf).
        destruct IH as (Hb' & (evs & Ht & Hp) & Hfs).
        split; [auto|]. split; [|exact Hfs].
        destruct Hev as [(key & _ & (v & Hv))|(req & Hr)]; [discriminate|].
        exists (TripAdvisorTool.EvGeocodeFetch req :: evs).
        split; [|now constructor].
        rewrite Ht, Hr, <- !app_assoc. reflexivity.
      - (* the lookup threw *)
        split; [exact Hb1|]. split; [|discriminate].
        destruct Hev as [(key & _ & (v & Hv))|(req & Hr)]; [discriminate|].
        exists [TripAdvisorTool.EvGeocodeFetch req].
        split; [exact Hr | repeat constructor]. }
    destruct (asNumber rt (ta_latitude item)) as [latTA|]; [|exact Hgeo].
    destruct (asNumber rt (ta_longitude item)) as [lngTA|]; [|exact Hgeo].
    apply IH. apply Hpin.
Qed.

(** After every history of calls the Place Resolver's cache holds at
    most 300 entries. *)
Lemma place_cache_within_capacity (rt : Runtime) (env : NominatimService.Env)
      (history : list NominatimService.Call) :
  (JsMap.size (NominatimService.cacheAfter rt env history) <= 300)%nat.
Proof.
  apply (bounded_size (CACHE_MAX := NominatimService.CACHE_MAX)).
  apply cacheAfter_bounded.
Qed.

(** The pin loop leaves an address cache of at most 500 entries when it
    found one within bounds, whether it returns or throws. *)
Lemma geocode_cache_within_capacity
      (rt : Runtime) (env : NominatimService.Env)
      (net : TripAdvisorTool.Network) (center : TripAdvisorTool.Center)
      (items : list TAItem) (features : list Feature) (count : nat)
      (st : TripAdvisorTool.State) :
  TtlCache.bounded TripAdvisorTool.CACHE_MAX (TripAdvisorTool.geocodeCache st) ->
  (JsMap.size
     (TripAdvisorTool.geocodeCache
        (snd (TripAdvisorTool.pinLoop rt env net center items features count st)))
   <= 500)%nat.
Proof.
  intros Hb.
  apply (bounded_size (CACHE_MAX := TripAdvisorTool.CACHE_MAX)).
  assert (Hf : Forall (fun _ : Feature => True) features).
  { apply Forall_forall. auto. }
  destruct (@pinLoop_spec (fun _ => True) rt env net center (fun _ _ _ => I)
                          items features count st Hf) as (H & _ & _).
  exact (H Hb).
Qed.

(** The events the pin loop adds are paced: a pause follows each lookup
    that yields a coordinate, from the cache or from the network, and
    no other. *)
Lemma pinLoop_paced
      (rt : Runtime) (env : NominatimService.Env)
      (net : TripAdvisorTool.Network) (center : TripAdvisorTool.Center)
      (items : list TAItem) (features : list Feature) (count : nat)
      (st : TripAdvisorTool.State) :
  exists evs,
    TripAdvisorTool.trace
      (snd (TripAdvisorTool.pinLoop rt env net center items features count st))
    = TripAdvisorTool.trace st ++ evs
    /\ TripAdvisorTool.Paced evs.
Proof.
  assert (Hf : Forall (fun _ : Feature => True) features).
  { apply Forall_forall. auto. }
  destruct (@pinLoop_spec (fun _ => True) rt env net center (fun _ _ _ => I)
                          items features count st Hf) as (_ & H & _).
  exact H.
Qed.

(** A paced trace with a lookup served from the cache has a pause right
    after it. *)
Lemma paced_hit_pauses (evs : list TripAdvisorTool.Event) :
  TripAdvisorTool.Paced evs ->
  (exists key, In (TripAdvisorTool.EvCacheHit key) evs) ->
  TripAdvisorTool.noPauseAfterHit evs = false.
Proof.
  induction 1 as [|key r Hp IH|req r Hp IH|req r Hp IH]; intros [k Hin].
  - destruct Hin.
  - reflexivity.
  - cbn. apply IH. exists k.
    destruct Hin as [Hin|[Hin|Hin]]; try discriminate. exact Hin.
  - cbn. apply IH. exists k.
    destruct Hin as [Hin|Hin]; try discriminate. exact Hin.
Qed.

(** C6.  After every history of [cacheGet] and [cacheSet] operations on
    non-empty keys (every key the program builds is non-empty), the
    Nominatim result cache holds at most 300 entries and the address
    geocode cache at most 500; a [cacheSet] that finds the cache full
    deletes the first entry of the map, the one whose key was inserted
    before every other key still present; a read that hits changes
    nothing, so reads do not refresh an entry's place.  In particular
    the Place Resolver's cache holds at most 300 entries after any
    history of calls, and the pin loop leaves at most 500 entries in an
    address cache that some history produced. *)
Theorem C6_cache_capacity
        (ops : list (TtlCache.CacheOp ToolResult))
        (ops' : list (TtlCache.CacheOp TripAdvisorTool.CacheValue))
        (rt : Runtime) (env : NominatimService.Env)
        (history : list NominatimService.Call)
        (net : TripAdvisorTool.Network) (center : TripAdvisorTool.Center)
        (items : list TAItem) (features : list Feature) (count : nat)
        (st : TripAdvisorTool.State) :
  Forall (fun op => TtlCache.op_key op <> EmptyString) ops ->
  Forall (fun op => TtlCache.op_key op <> EmptyString) ops' ->
  TtlCache.bounded TripAdvisorTool.CACHE_MAX (TripAdvisorTool.geocodeCache st) ->
  (NominatimService.CACHE_MAX = 300%nat
   /\ TtlCache.capacity_law NominatimService.CACHE_MAX ops)
  /\ (TripAdvisorTool.CACHE_MAX = 500%nat
      /\ TtlCache.capacity_law TripAdvisorTool.CACHE_MAX ops')
  /\ (JsMap.size (NominatimService.cacheAfter rt env history) <= 300)%nat
  /\ (JsMap.size
        (TripAdvisorTool.geocodeCache
           (snd (TripAdvisorTool.pinLoop rt env net center items features
                                         count st)))
      <= 500)%nat.
Proof.
  intros H H' Hb. split; [|split; [|split]].
  - split; [reflexivity|]. apply capacity_law_holds; [|exact H].
    unfold NominatimService.CACHE_MAX. lia.
  - split; [reflexivity|]. apply capacity_law_holds; [|exact H'].
    unfold TripAdvisorTool.CACHE_MAX. lia.
  - apply place_cache_within_capacity.
  - now apply geocode_cache_within_capacity.
Qed.

Lemma nonempty_keys (V : Type) (K : nat -> string) (op : nat -> TtlCache.CacheOp V)
      (l : list nat) :
  (forall i, TtlCache.op_key (op i) = K i) ->
  (forall i, K i <> EmptyString) ->
  Forall (fun o => TtlCache.op_key o <> EmptyString) (map op l).
Proof.
  intros Hk Hne. apply Forall_map, Forall_forall. intros i _.
  rewrite Hk. apply Hne.
Qed.

(** The two caches filled beyond their capacity.  301 places leave 300
    entries in the result cache and 502 addresses leave 500 in the
    address cache; the keys stored first are gone and the next ones are
    still there, also the one that was read in between.  The same
    happens through the Place Resolver and through the pin loop. *)
Lemma C6_witness :
  ((NominatimService.CACHE_MAX = 300%nat
    /\ TtlCache.capacity_law NominatimService.CACHE_MAX CapacityExamples.placeOps)
   /\ (TripAdvisorTool.CACHE_MAX = 500%nat
       /\ TtlCache.capacity_law TripAdvisorTool.CACHE_MAX
                                CapacityExamples.addressOps)
   /\ (JsMap.size
         (NominatimService.cacheAfter
            Examples.rt0 Examples.env0 CapacityExamples.calls)
       <= 300)%nat
   /\ (JsMap.size
         (TripAdvisorTool.geocodeCache
            (snd (TripAdvisorTool.pinLoop
                    Examples.rt0 Examples.env0 Examples.netFound
                    Examples.centre0 CapacityExamples.stalls
                    [] 0 Examples.state0)))
       <= 500)%nat)
  /\ (let c := TtlCache.cache
                 (TtlCache.run NominatimService.CACHE_MAX
                               CapacityExamples.placeOps) in
      JsMap.size c = 300%nat
      /\ JsMap.get (CapacityExamples.placeKey 0) c = None
      /\ TtlCache.victim NominatimService.CACHE_MAX c
         = Some (CapacityExamples.placeKey 1))
  /\ (let c := TtlCache.cache
                 (TtlCache.run TripAdvisorTool.CACHE_MAX
                               CapacityExamples.addressOps) in
      JsMap.size c = 500%nat
      /\ JsMap.get (CapacityExamples.addressKey 1) c = None
      /\ TtlCache.victim TripAdvisorTool.CACHE_MAX c
         = Some (CapacityExamples.addressKey 2))
  /\ (let c := NominatimService.cacheAfter
                 Examples.rt0 Examples.env0 CapacityExamples.calls in
      JsMap.size c = 300%nat
      /\ JsMap.get (CapacityExamples.placeKey 0) c = None)
  /\ (let c := TripAdvisorTool.geocodeCache
                 (snd (TripAdvisorTool.pinLoop
                         Examples.rt0 Examples.env0 Examples.netFound
                         Examples.centre0 CapacityExamples.stalls
                         [] 0 Examples.state0)) in
      JsMap.size c = 500%nat
      /\ JsMap.get (TripAdvisorTool.geocodeKey
                      Examples.rt0 (CapacityExamples.label 1)
                      (Some Examples.centre0)) c = None).
Proof.
  split.
  - apply C6_cache_capacity.
    + unfold CapacityExamples.placeOps. apply Forall_app. split.
      * apply nonempty_keys with (K := CapacityExamples.placeKey);
          [reflexivity | intros i; apply cacheKey_nonempty].
      * repeat constructor. apply cacheKey_nonempty.
    + unfold CapacityExamples.addressOps.
      apply nonempty_keys with (K := CapacityExamples.addressKey);
        [reflexivity | intros i; apply geocodeKey_nonempty].
    + apply bounded_empty. unfold TripAdvisorTool.CACHE_MAX. lia.
  - cbv zeta.
    repeat match goal with |- _ /\ _ => split end; vm_compute; reflexivity.
Defined.

(** Eviction follows insertion, not use: with room for two entries,
    after inserting "a" then "b", reading "a", and inserting "c", the
    entry evicted is "a". *)
Example eviction_is_not_lru :
  JsMap.keys
    (TtlCache.cache
       (TtlCache.run 2
          [TtlCache.OpSet 0 "a" 1%nat 100; TtlCache.OpSet 1 "b" 2%nat 100;
           TtlCache.OpGet nat 2 "a"; TtlCache.OpSet 3 "c" 3%nat 100]))
  = ["b"; "c"]%string.
Proof. reflexivity. Qed.

(** ** The normalisers *)

Lemma fsqLoop_Forall (P : Feature -> Prop) :
  (forall r loc lng lat, P (fsqFeature r loc lng lat)) ->
  forall (results : list FsqRow) (acc features : list Feature),
    Forall P acc ->
    fsqLoop results acc = Returned features ->
    Forall P features.
Proof.
  intros HP. induction results as [|r results IH]; intros acc features Hacc H.
  - cbn in H. injection H as <-. exact Hacc.
  - cbn [fsqLoop] in H.
    destruct (latitude r) as [| | |lat| |]; try (eapply IH; eassumption).
    destruct (longitude r) as [| | |lng| |]; try (eapply IH; eassumption).
    destruct (location r) as [loc|]; [|discriminate].
    eapply IH; [|exact H]. apply Forall_app. split; [exact Hacc|].
    repeat constructor. apply HP.
Qed.

Lemma fsqResultsToGeoJSON_Forall (P : Feature -> Prop) :
  (forall r loc lng lat, P (fsqFeature r loc lng lat)) ->
  forall (results : option (list FsqRow)) (fc : FeatureCollection),
    fsqResultsToGeoJSON results = Returned fc ->
    Forall P (features fc).
Proof.
  intros HP results fc H. unfold fsqResultsToGeoJSON in H.
  destruct (fsqLoop _ []) as [fs|] eqn:E; [|discriminate].
  injection H as <-. cbn [features].
  eapply fsqLoop_Forall; [exact HP | constructor | exact E].
Qed.

(** C5 (as amended).  Every Feature of the Foursquare normaliser carries
    [source] = "foursquare" (and every TripAdvisor pin [source] =
    "tripadvisor"); the Features of the Nominatim normalisers carry the
    six properties display_name, category, type, importance, osm_type
    and osm_id, and no [source]: the origin of a result of the Place
    Resolver is the tag of the result itself, which is Nominatim's
    after any history of calls. *)
Theorem C5_source_property
        (rt : Runtime) (results : option (list FsqRow))
        (fc : FeatureCollection) (items : list NominatimRow)
        (item : TAItem) (lng lat : Qc)
        (env : NominatimService.Env)
        (history : list NominatimService.Call)
        (w : NominatimService.World)
        (args : NominatimService.NominatimSearchArgs)
        (data : FeatureCollection) (tag : Provenance) :
  (fsqResultsToGeoJSON results = Returned fc ->
   Forall (fun f => Js.get "source" (properties f) = JString "foursquare"
                    /\ carries "source" f)
          (features fc))
  /\ (Js.get "source" (properties (poiFeature item lng lat))
      = JString "tripadvisor")
  /\ Forall (fun f =>
               FeatureClaims.propertyNames f
               = ["display_name"; "category"; "type"; "importance";
                  "osm_type"; "osm_id"]%string
               /\ Js.has "source" (properties f) = false
               /\ ~ carries "source" f)
            (features (toFeatureCollection rt items)
               ++ features (nominatimToFeatureCollection rt items))
  /\ (fst (fst (NominatimService.runNominatimSearch
                  rt env w args (NominatimService.cacheAfter rt env history)))
      = Returned (Ok data tag) ->
      tag = SrcNominatim).
Proof.
  split; [|split; [|split]].
  - apply fsqResultsToGeoJSON_Forall. intros r loc x y.
    split; [reflexivity|]. unfold carries. cbn. discriminate.
  - reflexivity.
  - apply Forall_app. split; cbn [features toFeatureCollection
                                    nominatimToFeatureCollection];
      apply Forall_map; apply Forall_forall; intros it _;
      (split; [reflexivity|split; [reflexivity|]]);
      unfold carries; cbn; congruence.
  - intros H. apply place_result_good in H. apply H.
Qed.

(** The claim C5 as stated fails for the Nominatim normaliser: the
    feature made from a row carries no [source] property. *)
Lemma C5_counterexample :
  ~ Forall (carries "source")
      (features (toFeatureCollection Examples.rt0 [Examples.polygonRow])).
Proof.
  intros H. inversion H as [|f l Hf _]; subst. apply Hf. reflexivity.
Qed.

Lemma C5_witness :
  Forall (fun f => Js.get "source" (properties f) = JString "foursquare"
                   /\ carries "source" f)
         [fsqFeature Examples.cafe (mkFsqLocation (JString "1 Jurong West"))
                     two 1]
  /\ SrcNominatim = SrcNominatim.
Proof.
  pose proof (C5_source_property
                Examples.rt0 (Some [Examples.cafe])
                (mkFC [fsqFeature Examples.cafe
                                  (mkFsqLocation (JString "1 Jurong West"))
                                  two 1])
                [] (Examples.stall "a" "b") 0 0
                Examples.env0 [] Examples.world0
                (foursquareByPlaceTool.placeArgs "Jurong Point")
                (toFeatureCollection Examples.rt0 [Examples.polygonRow])
                SrcNominatim) as (H1 & _ & _ & H4).
  split; [exact (H1 eq_refl) | exact (H4 eq_refl)].
Defined.

(** ** The Chained Recommendation Resolver *)

Section Chained.

Import NominatimService FoursquareService foursquareByPlaceTool.

Variable rt : Runtime.
Variable env : Env.

(** What a successful [execute] went through. *)
Lemma execute_success (w : World) (placeSearch : FsqParams -> PlaceSearchOutcome)
      (input : Input) (cache : Cache) (fc : FeatureCollection)
      (src : Provenance) :
  result (execute rt env w placeSearch input cache) = Returned (Ok fc src) ->
  exists nfc nsrc first rest g c results normalized,
    fst (fst (runNominatimSearch rt env w (placeArgs (place input)) cache))
    = Returned (Ok nfc nsrc)
    /\ features nfc = first :: rest
    /\ geometry first = Some g
    /\ ChainedGeo.centroid (Some g) = Some c
    /\ fst (fsqSearch rt env placeSearch
              (mkOpts (mkLatLng (snd c) (fst c)) (Some (in_query input))
                      (Some (Math_round (radiusKm input * of_Z 1000)))
                      (Some (in_limit input))))
       = FsqOk results
    /\ fsqResultsToGeoJSON results = Returned normalized
    /\ fc = mkFC (searchCenter (place input) (Some g)
                    :: features (filterByRating rt (minRating input) normalized))
    /\ src = SrcFsq.
Proof.
  unfold execute.
  destruct (runNominatimSearch rt env w (placeArgs (place input)) cache)
    as [[nomi cache'] events].
  destruct nomi as [[nfc nsrc|error status]|]; cbn [result]; try discriminate.
  destruct (features nfc) as [|first rest] eqn:Ef; cbn [result];
    try discriminate.
  destruct (geometry first) as [g|] eqn:Eg; [|cbn; discriminate].
  destruct (ChainedGeo.centroid (Some g)) as [[lng lat]|] eqn:Ec;
    cbn [result]; try discriminate.
  destruct (fsqSearch rt env placeSearch _) as [sr requests] eqn:Es.
  destruct sr as [results|error]; cbn [result]; try discriminate.
  destruct (fsqResultsToGeoJSON results) as [normalized|] eqn:En;
    cbn [result]; try discriminate.
  intros H. injection H as <- <-.
  exists nfc, nsrc, first, rest, g, (lng, lat), results, normalized.
  cbn [fst snd]. rewrite Es. cbn [fst]. repeat split; auto.
Qed.

End Chained.

(** C3.  Whenever the chained resolver succeeds, the first feature of
    the collection it returns is the search-centre feature: its
    properties are source "nominatim", name the place asked for, and
    category "search-center", and its geometry is the geometry of the
    Place Resolver's first feature as resolved, whatever the centroid
    computed from it; the result is tagged as coming from Foursquare. *)
Theorem C3_search_center_first
        (rt : Runtime) (env : NominatimService.Env)
        (w : NominatimService.World)
        (placeSearch : FoursquareService.FsqParams ->
                       FoursquareService.PlaceSearchOutcome)
        (input : foursquareByPlaceTool.Input) (cache : NominatimService.Cache)
        (fc : FeatureCollection) (src : Provenance) :
  foursquareByPlaceTool.result
    (foursquareByPlaceTool.execute rt env w placeSearch input cache)
  = Returned (Ok fc src) ->
  exists (g : Geometry) (pois : list Feature)
         (resolved : FeatureCollection) (tag : Provenance),
    features fc
    = mkFeature [("source", JString "nominatim");
                 ("name", JString (foursquareByPlaceTool.place input));
                 ("category", JString "search-center")]%string
                (Some g)
        :: pois
    /\ fst (fst (NominatimService.runNominatimSearch
                   rt env w
                   (foursquareByPlaceTool.placeArgs (foursquareByPlaceTool.place input))
                   cache))
       = Returned (Ok resolved tag)
    /\ option_map geometry (hd_error (features resolved)) = Some (Some g)
    /\ src = SrcFsq.
Proof.
  intros H. apply execute_success in H.
  destruct H as (nfc & nsrc & first & rest & g & c & results & normalized
                 & Hn & Hf & Hg & _ & _ & _ & -> & ->).
  exists g, (features (foursquareByPlaceTool.filterByRating
                         rt (foursquareByPlaceTool.minRating input) normalized)),
         nfc, nsrc.
  split; [reflexivity|]. split; [exact Hn|]. split; [|reflexivity].
  rewrite Hf. cbn. now rewrite Hg.
Qed.

(** Scenario B with a polygon for "Jurong Point": the first feature
    keeps the polygon; the centroid (2,2) appears nowhere in it. *)
Example chained_keeps_polygon :
  foursquareByPlaceTool.result
    (foursquareByPlaceTool.execute Examples.rt0 Examples.env0 Examples.world0
                             Examples.placeSearch0 Examples.input0 [])
  = Returned
      (Ok (mkFC [foursquareByPlaceTool.searchCenter "Jurong Point"
                                              (Some Examples.triangle);
                 fsqFeature Examples.cafe
                            (mkFsqLocation (JString "1 Jurong West")) two 1])
          SrcFsq).
Proof. reflexivity. Qed.

Lemma C3_witness :
  exists (g : Geometry) (pois : list Feature)
         (resolved : FeatureCollection) (tag : Provenance),
    [foursquareByPlaceTool.searchCenter "Jurong Point" (Some Examples.triangle);
     fsqFeature Examples.cafe (mkFsqLocation (JString "1 Jurong West")) two 1]
    = mkFeature [("source", JString "nominatim");
                 ("name", JString "Jurong Point");
                 ("category", JString "search-center")]%string
                (Some g)
        :: pois
    /\ fst (fst (NominatimService.runNominatimSearch
                   Examples.rt0 Examples.env0 Examples.world0
                   (foursquareByPlaceTool.placeArgs "Jurong Point") []))
       = Returned (Ok resolved tag)
    /\ option_map geometry (hd_error (features resolved)) = Some (Some g)
    /\ SrcFsq = SrcFsq.
Proof.
  apply (C3_search_center_first
           Examples.rt0 Examples.env0 Examples.world0 Examples.placeSearch0
           Examples.input0 []
           (fc := mkFC [foursquareByPlaceTool.searchCenter "Jurong Point"
                                                     (Some Examples.triangle);
                        fsqFeature Examples.cafe
                                   (mkFsqLocation (JString "1 Jurong West"))
                                   two 1])).
  reflexivity.
Defined.

(** ** The rating filter *)

Lemma meetsRating_spec (rt : Runtime) (m : Qc) (f : Feature) :
  match Js.get "rating" (properties f) with
  | JNumber _ | JUndefined => True
  | _ => False
  end ->
  foursquareByPlaceTool.meetsRating rt m f = FeatureClaims.ratingAtLeast m f.
Proof.
  unfold foursquareByPlaceTool.meetsRating, FeatureClaims.ratingAtLeast, Js.ge_number.
  destruct (Js.get "rating" (properties f)); cbn; tauto.
Qed.

Lemma normalized_without_rating (results : option (list FsqRow))
      (normalized : FeatureCollection) :
  fsqResultsToGeoJSON results = Returned normalized ->
  Forall (fun f => Js.get "rating" (properties f) = JUndefined)
         (features normalized).
Proof.
  apply fsqResultsToGeoJSON_Forall. reflexivity.
Qed.

(** On features whose rating is a number or missing, the filter keeps
    exactly those rated at or above the threshold. *)
Lemma filterByRating_numeric (rt : Runtime) (m : Qc) (fc : FeatureCollection) :
  Forall (fun f => match Js.get "rating" (properties f) with
                   | JNumber _ | JUndefined => True
                   | _ => False
                   end)
         (features fc) ->
  features (foursquareByPlaceTool.filterByRating rt (Some m) fc)
  = filter (FeatureClaims.ratingAtLeast m) (features fc).
Proof.
  intros H. cbn. apply filter_ext_in. intros f Hf.
  apply meetsRating_spec. rewrite Forall_forall in H. now apply H.
Qed.

(** No normalised Foursquare feature has a rating, so a threshold, once
    given, leaves no POI. *)
Lemma rating_filter_drops_all (rt : Runtime) (m : Qc)
      (results : option (list FsqRow)) (normalized : FeatureCollection) :
  fsqResultsToGeoJSON results = Returned normalized ->
  features (foursquareByPlaceTool.filterByRating rt (Some m) normalized) = [].
Proof.
  intros H. apply normalized_without_rating in H. cbn.
  induction H as [|f l Hf _ IH]; cbn; [reflexivity|].
  unfold foursquareByPlaceTool.meetsRating at 1, Js.ge_number. rewrite Hf. cbn.
  exact IH.
Qed.

(** [execute] is the Place Resolver's call followed by the steps after
    it. *)
Lemma execute_afterPlace
      (rt : Runtime) (env : NominatimService.Env)
      (w : NominatimService.World)
      (placeSearch : FoursquareService.FsqParams ->
                     FoursquareService.PlaceSearchOutcome)
      (input : foursquareByPlaceTool.Input) (cache : NominatimService.Cache) :
  foursquareByPlaceTool.execute rt env w placeSearch input cache
  = let r := NominatimService.runNominatimSearch
               rt env w
               (foursquareByPlaceTool.placeArgs (foursquareByPlaceTool.place input))
               cache in
    let a := ChainedSteps.afterPlace rt env placeSearch input (fst (fst r)) in
    foursquareByPlaceTool.mkRun (fst a) (snd (fst r)) (snd r) (snd a).
Proof.
  unfold foursquareByPlaceTool.execute, ChainedSteps.afterPlace. cbn zeta.
  destruct (NominatimService.runNominatimSearch rt env w _ cache)
    as [[nomi c1] evs]; cbn [fst snd].
  destruct nomi as [[data src|error status]|]; try reflexivity.
  destruct (features data) as [|first rest]; try reflexivity.
  destruct (ChainedGeo.centroid (geometry first)) as [[lng lat]|];
    try reflexivity.
  destruct (FoursquareService.fsqSearch rt env placeSearch _)
    as [[results|error] requests]; try reflexivity.
  destruct (fsqResultsToGeoJSON results); reflexivity.
Qed.

(** What Foursquare answered is what [fsqSearch] hands on. *)
Lemma fsqSearch_ok (rt : Runtime) (env : NominatimService.Env)
      (placeSearch : FoursquareService.FsqParams ->
                     FoursquareService.PlaceSearchOutcome)
      (opts : FoursquareService.FsqSearchOpts) (results : option (list FsqRow)) :
  fst (FoursquareService.fsqSearch rt env placeSearch opts)
  = FoursquareService.FsqOk results ->
  placeSearch (FoursquareService.fsqParams rt opts)
  = FoursquareService.Resolved results
  /\ snd (FoursquareService.fsqSearch rt env placeSearch opts)
     = [FoursquareService.fsqParams rt opts].
Proof.
  unfold FoursquareService.fsqSearch.
  destruct (negb (truthy_opt_string (NominatimService.FOURSQUARE_API_KEY env)));
    cbn [fst snd]; [discriminate|].
  destruct (placeSearch (FoursquareService.fsqParams rt opts)) as [res|message];
    cbn [fst snd]; [|discriminate].
  intros H. injection H as <-. split; reflexivity.
Qed.

(** C4.  In a successful run of the chained resolver one request went
    to Foursquare, and the POI features after the search centre come
    from the normalised answer to it: all of them, in their order, when
    no minimum rating is given; when one is given, exactly those whose
    [rating] property is a number at or above it, in their order,
    features without a rating left out.  The normaliser gives no
    feature a rating, so with a threshold no POI is left.  The filter
    keeps by rating on every collection whose ratings are numbers or
    missing: a feature stays if and only if it has a rating at or above
    the threshold. *)
Theorem C4_rating_filter
        (rt : Runtime) (env : NominatimService.Env)
        (w : NominatimService.World)
        (placeSearch : FoursquareService.FsqParams ->
                       FoursquareService.PlaceSearchOutcome)
        (input : foursquareByPlaceTool.Input) (cache : NominatimService.Cache)
        (fc : FeatureCollection) (src : Provenance) :
  let run := foursquareByPlaceTool.execute rt env w placeSearch input cache in
  foursquareByPlaceTool.result run = Returned (Ok fc src) ->
  (exists (params : FoursquareService.FsqParams)
          (results : option (list FsqRow)) (normalized : FeatureCollection),
      foursquareByPlaceTool.fsqRequests run = [params]
      /\ placeSearch params = FoursquareService.Resolved results
      /\ fsqResultsToGeoJSON results = Returned normalized
      /\ tl (features fc)
         = features (foursquareByPlaceTool.filterByRating
                       rt (foursquareByPlaceTool.minRating input) normalized)
      /\ (foursquareByPlaceTool.minRating input = None ->
          tl (features fc) = features normalized)
      /\ (forall m,
             foursquareByPlaceTool.minRating input = Some m ->
             tl (features fc)
             = filter (FeatureClaims.ratingAtLeast m) (features normalized)
             /\ tl (features fc) = []))
  /\ (forall (m : Qc) (any : FeatureCollection),
         Forall (fun f => match Js.get "rating" (properties f) with
                          | JNumber _ | JUndefined => True
                          | _ => False
                          end)
                (features any) ->
         features (foursquareByPlaceTool.filterByRating rt (Some m) any)
         = filter (FeatureClaims.ratingAtLeast m) (features any)
         /\ forall f,
              In f (features (foursquareByPlaceTool.filterByRating rt (Some m) any))
              <-> In f (features any)
                  /\ exists r, Js.get "rating" (properties f) = JNumber r
                               /\ m <= r)
  /\ (forall any : FeatureCollection,
         foursquareByPlaceTool.filterByRating rt None any = any).
Proof.
  cbn zeta. intros H.
  split; [|split; [|reflexivity]].
  - pose proof H as Hs. apply execute_success in Hs.
    destruct Hs as (nfc & nsrc & first & rest & g & c & results & normalized
                    & Hn1 & Hn2 & Hn3 & Hn4 & Hsr & Hn & -> & _).
    destruct (fsqSearch_ok _ _ _ _ Hsr) as [Hps Hreq].
    exists (FoursquareService.fsqParams
              rt (FoursquareService.mkOpts
                    (FoursquareService.mkLatLng (snd c) (fst c))
                    (Some (foursquareByPlaceTool.in_query input))
                    (Some (Math_round (foursquareByPlaceTool.radiusKm input
                                       * of_Z 1000)))
                    (Some (foursquareByPlaceTool.in_limit input)))),
           results, normalized.
    split.
    { rewrite execute_afterPlace. cbn zeta.
      cbn [foursquareByPlaceTool.fsqRequests].
      rewrite Hn1. unfold ChainedSteps.afterPlace. rewrite Hn2, Hn3, Hn4.
      destruct c as [lng lat]. cbn [fst snd] in *.
      destruct (FoursquareService.fsqSearch rt env placeSearch _)
        as [sr requests]; cbn [fst snd] in *. subst sr requests.
      rewrite Hn. reflexivity. }
    split; [exact Hps|]. split; [exact Hn|].
    cbn [features tl]. split; [reflexivity|]. split.
    + intros Hm. now rewrite Hm.
    + intros m Hm. rewrite Hm. split.
      * apply filterByRating_numeric.
        eapply Forall_impl; [|exact (normalized_without_rating _ Hn)].
        intros f Hf. now rewrite Hf.
      * exact (rating_filter_drops_all rt m _ Hn).
  - intros m any Hnum.
    pose proof (filterByRating_numeric rt m any Hnum) as Heq.
    split; [exact Heq|].
    intros f. rewrite Heq, filter_In.
    unfold FeatureClaims.ratingAtLeast.
    split.
    + intros [Hin Hr]. split; [exact Hin|].
      destruct (Js.get "rating" (properties f)); try discriminate.
      eexists. split; [reflexivity|]. now apply Qle_bool_iff in Hr.
    + intros [Hin [r [Hr Hle]]]. split; [exact Hin|]. rewrite Hr.
      now apply Qle_bool_iff.
Qed.

(** With threshold 4, a cafe that Foursquare returned is left out, as
    it carries no rating; without a threshold it stays.  On the
    specification's example the filter keeps the ratings 4.5 and 4 and
    drops 3.9 and the feature without a rating. *)
Lemma C4_witness :
  tl (features Examples.answer4) = []
  /\ tl (features Examples.answer0)
     = [fsqFeature Examples.cafe (mkFsqLocation (JString "1 Jurong West")) two 1]
  /\ features (foursquareByPlaceTool.filterByRating
                 Examples.rt0 (Some (of_Z 4)) RatingExamples.mixed)
     = filter (FeatureClaims.ratingAtLeast (of_Z 4))
              (features RatingExamples.mixed)
  /\ map (fun f => Js.get "name" (properties f))
         (filter (FeatureClaims.ratingAtLeast (of_Z 4))
                 (features RatingExamples.mixed))
     = [JString "a"; JString "d"].
Proof.
  destruct (@C4_rating_filter
              Examples.rt0 Examples.env0 Examples.world0 Examples.placeSearch0
              Examples.input4 [] Examples.answer4 SrcFsq eq_refl)
    as ((p4 & r4 & n4 & _ & Hp4 & Hn4 & _ & _ & H4) & Hany & _).
  destruct (@C4_rating_filter
              Examples.rt0 Examples.env0 Examples.world0 Examples.placeSearch0
              Examples.input0 [] Examples.answer0 SrcFsq eq_refl)
    as ((p0 & r0 & n0 & _ & Hp0 & Hn0 & _ & H0 & _) & _ & _).
  split; [|split; [|split]].
  - exact (proj2 (H4 _ eq_refl)).
  - rewrite (H0 eq_refl).
    unfold Examples.placeSearch0 in Hp0. injection Hp0 as <-.
    cbn in Hn0. injection Hn0 as <-. reflexivity.
  - apply Hany. unfold RatingExamples.mixed. cbn [features].
    repeat constructor.
  - reflexivity.
Defined.

(** ** Every returned feature has a geometry *)

Lemma filterByRating_Forall (P : Feature -> Prop) (rt : Runtime)
      (minRating : option Qc) (fc : FeatureCollection) :
  Forall P (features fc) ->
  Forall P (features (foursquareByPlaceTool.filterByRating rt minRating fc)).
Proof.
  intros H. destruct minRating as [m|]; cbn; [|exact H].
  now apply filter_Forall.
Qed.

Lemma buildPins_geometries
      (rt : Runtime) (env : NominatimService.Env)
      (net : TripAdvisorTool.Network) (place : string)
      (center : TripAdvisorTool.Center) (items : list TAItem)
      (st : TripAdvisorTool.State) (pins : FeatureCollection) :
  fst (TripAdvisorTool.buildPins rt env net place center items st)
  = Returned pins ->
  Forall (fun f => geometry f <> None) (features pins).
Proof.
  unfold TripAdvisorTool.buildPins.
  match goal with
  | |- context [TripAdvisorTool.pinLoop rt env net center items ?fs 0 st] =>
      assert (Hf : Forall (fun f => geometry f <> None) fs)
        by (repeat constructor; cbn; discriminate);
      destruct (@pinLoop_spec (fun f => geometry f <> None) rt env net center
                              (fun _ _ _ => ltac:(cbn; discriminate))
                              items fs 0%nat st Hf) as (_ & _ & H);
      destruct (TripAdvisorTool.pinLoop rt env net center items fs 0 st)
        as [[features|] st']
  end; cbn [fst] in *; [|discriminate].
  intros E. injection E as <-. now apply H.
Qed.

(** C9.  Every feature of a collection returned by a successful call of
    the Place Resolver, after any history of calls, and by a successful
    call of the chained resolver, has a geometry; so have the features
    of the normalisers and the pins of the TripAdvisor tool.  In the
    chained resolver the geometry put into the search-centre feature is
    never null: the centroid of a null geometry is null, and the call
    has then already failed. *)
Theorem C9_features_have_geometry
        (rt : Runtime) (env : NominatimService.Env)
        (history : list NominatimService.Call)
        (w : NominatimService.World)
        (args : NominatimService.NominatimSearchArgs)
        (data : FeatureCollection) (tag : Provenance)
        (w' : NominatimService.World)
        (placeSearch : FoursquareService.FsqParams ->
                       FoursquareService.PlaceSearchOutcome)
        (input : foursquareByPlaceTool.Input) (cache : NominatimService.Cache)
        (fc : FeatureCollection) (src : Provenance)
        (items : list NominatimRow)
        (results : option (list FsqRow)) (normalized : FeatureCollection)
        (net : TripAdvisorTool.Network) (place : string)
        (center : TripAdvisorTool.Center)
        (taItems : list TAItem) (st : TripAdvisorTool.State)
        (pins : FeatureCollection) :
  (fst (fst (NominatimService.runNominatimSearch
               rt env w args (NominatimService.cacheAfter rt env history)))
   = Returned (Ok data tag) ->
   Forall (fun f => geometry f <> None) (features data))
  /\ (foursquareByPlaceTool.result
        (foursquareByPlaceTool.execute rt env w' placeSearch input cache)
      = Returned (Ok fc src) ->
      Forall (fun f => geometry f <> None) (features fc)
      /\ exists resolved tag' first rest g,
          fst (fst (NominatimService.runNominatimSearch
                      rt env w'
                      (foursquareByPlaceTool.placeArgs
                         (foursquareByPlaceTool.place input))
                      cache))
          = Returned (Ok resolved tag')
          /\ features resolved = first :: rest
          /\ geometry first = Some g
          /\ ChainedGeo.centroid (geometry first) <> None
          /\ hd_error (features fc)
             = Some (foursquareByPlaceTool.searchCenter
                       (foursquareByPlaceTool.place input) (geometry first)))
  /\ ChainedGeo.centroid None = None
  /\ Forall (fun f => geometry f <> None)
            (features (toFeatureCollection rt items)
               ++ features (nominatimToFeatureCollection rt items))
  /\ (fsqResultsToGeoJSON results = Returned normalized ->
      Forall (fun f => geometry f <> None) (features normalized))
  /\ (fst (TripAdvisorTool.buildPins rt env net place center taItems st)
      = Returned pins ->
      Forall (fun f => geometry f <> None) (features pins)).
Proof.
  split; [|split; [|split; [|split; [|split]]]].
  - intros H. apply place_result_good in H. apply H.
  - intros H. apply execute_success in H.
    destruct H as (nfc & nsrc & first & rest & g & c & res & norm
                   & Hn & Hf & Hg & Hc & _ & Hnorm & -> & _).
    split.
    + cbn [features]. constructor; [cbn; discriminate|].
      apply filterByRating_Forall.
      apply (fsqResultsToGeoJSON_Forall
               (fun f => geometry f <> None)) with (results := res);
        [|exact Hnorm].
      intros; cbn; discriminate.
    + exists nfc, nsrc, first, rest, g.
      split; [exact Hn|]. split; [exact Hf|]. split; [exact Hg|].
      rewrite Hg. split; [rewrite Hc; discriminate | reflexivity].
  - reflexivity.
  - apply Forall_app. split; apply toFeatureCollection_geometries.
  - apply fsqResultsToGeoJSON_Forall. intros; cbn; discriminate.
  - apply buildPins_geometries.
Qed.

Lemma C9_witness :
  Forall (fun f => geometry f <> None)
         (features (toFeatureCollection Examples.rt0 [Examples.polygonRow]))
  /\ Forall (fun f => geometry f <> None) (features Examples.answer0)
  /\ Forall (fun f => geometry f <> None)
            [fsqFeature Examples.cafe
                        (mkFsqLocation (JString "1 Jurong West")) two 1]
  /\ Forall (fun f => geometry f <> None)
            [foursquareByPlaceTool.searchCenter
               "Jurong Point" (Some (Point (0, 0)))].
Proof.
  pose proof (C9_features_have_geometry
                Examples.rt0 Examples.env0 [] Examples.world0
                (foursquareByPlaceTool.placeArgs "Jurong Point")
                (toFeatureCollection Examples.rt0 [Examples.polygonRow])
                SrcNominatim
                Examples.world0 Examples.placeSearch0 Examples.input0 []
                Examples.answer0 SrcFsq [] (Some [Examples.cafe])
                (mkFC [fsqFeature Examples.cafe
                                  (mkFsqLocation (JString "1 Jurong West"))
                                  two 1])
                Examples.netFound "Jurong Point" Examples.centre0 []
                Examples.state0
                (mkFC [foursquareByPlaceTool.searchCenter
                         "Jurong Point" (Some (Point (0, 0)))]))
    as (H1 & H2 & _ & _ & H5 & H6).
  split; [exact (H1 eq_refl)|].
  split; [exact (proj1 (H2 eq_refl))|].
  split; [exact (H5 eq_refl) | exact (H6 eq_refl)].
Defined.

(** ** The pause of the Fallback Geocoder *)

(** C8 (the code at two inputs).  Two items at one address, found by the
    network: the second lookup is served from the cache and is still
    followed by a pause of 1100 ms.  Two items at different addresses,
    neither found: two network lookups follow each other with no pause
    between them.  The loop pauses after every lookup that yields a
    coordinate, cached or fresh, and after no other. *)
Theorem C8_pause_follows_result_not_fetch :
  let find := TripAdvisorTool.geocodeRequest Examples.rt0 Examples.env0 in
  let key := TripAdvisorTool.geocodeKey Examples.rt0 in
  let here := Some Examples.centre0 in
  let run net items :=
    Examples.traceOf
      (TripAdvisorTool.pinLoop Examples.rt0 Examples.env0 net Examples.centre0
                               items [] 0 Examples.state0) in
  let sameAddress :=
    run Examples.netFound
        [Examples.stall "A" "1 Jurong West"; Examples.stall "B" "1 Jurong West"] in
  let notFound :=
    run Examples.netEmpty
        [Examples.stall "A" "1 Jurong West"; Examples.stall "B" "2 Jurong East"] in
  (sameAddress
   = [TripAdvisorTool.EvGeocodeFetch (find "1 Jurong West"%string here);
      TripAdvisorTool.EvSleep 1100;
      TripAdvisorTool.EvCacheHit (key "1 Jurong West"%string here);
      TripAdvisorTool.EvSleep 1100]
   /\ TripAdvisorTool.noPauseAfterHit sameAddress = false)
  /\ (notFound
      = [TripAdvisorTool.EvGeocodeFetch (find "1 Jurong West"%string here);
         TripAdvisorTool.EvGeocodeFetch (find "2 Jurong East"%string here)]
      /\ TripAdvisorTool.pausedBetweenFetches notFound false = false).
Proof. repeat split. Qed.

(** Scenario C: the query "a" on a fresh cache. *)
(** * Further properties of the code *)

(** ** Rings: closing *)

Lemma last_default (A : Type) (l : list A) (d d' : A) :
  l <> [] -> last l d = last l d'.
Proof.
  intros Hne. rewrite (app_removelast_last d' Hne) at 1. apply last_last.
Qed.

(** X1.  [closeRing] returns a ring that ends where it starts, keeps
    the first point, adds at most the first point at the end, and
    leaves a ring that it has closed as it is. *)
Theorem X1_closeRing_closes (ring : list Position) (d : Position) :
  let r := TripAdvisorGeo.closeRing ring in
  last r d = hd d ring
  /\ hd_error r = hd_error ring
  /\ (r = ring \/ r = ring ++ firstn 1 ring)
  /\ TripAdvisorGeo.closeRing r = r.
Proof.
  destruct ring as [|p rest]; cbn zeta.
  - repeat split. now left.
  - assert (Hpp : pos_eqb p p = true) by now apply pos_eqb_true_iff.
    destruct (pos_eqb p (last (p :: rest) p)) eqn:E.
    + assert (Hr : TripAdvisorGeo.closeRing (p :: rest) = p :: rest).
      { unfold TripAdvisorGeo.closeRing. now rewrite E. }
      rewrite !Hr.
      split; [|split; [reflexivity|split; [now left|reflexivity]]].
      apply pos_eqb_true_iff in E. rewrite E at 2.
      apply last_default. discriminate.
    + assert (Hr : TripAdvisorGeo.closeRing (p :: rest) = (p :: rest) ++ [p]).
      { unfold TripAdvisorGeo.closeRing. now rewrite E. }
      rewrite !Hr.
      split; [|split; [reflexivity|split; [now right|]]].
      * apply last_last.
      * change ((p :: rest) ++ [p]) with (p :: (rest ++ [p])).
        unfold TripAdvisorGeo.closeRing.
        change (p :: (rest ++ [p])) with ((p :: rest) ++ [p]).
        rewrite last_last. now rewrite Hpp.
Qed.

(** ** When there is no centroid *)

Lemma concat_nil_outer (poly : list (list Position)) :
  concat poly = [] -> outer_ring poly = [].
Proof.
  destruct poly as [|r rest]; [reflexivity|]. cbn.
  intros H. apply app_eq_nil in H. tauto.
Qed.

Lemma members_no_coordinates (w : Qc -> Qc)
      (polys : list (list (list Position))) :
  concat (concat polys) = [] -> CentroidClaims.members w polys = [].
Proof.
  induction polys as [|poly polys IH]; [reflexivity|].
  cbn [concat]. rewrite concat_app. intros H. apply app_eq_nil in H.
  destruct H as [Hp Hr]. rewrite members_cons, (IH Hr).
  rewrite (concat_nil_outer _ Hp). reflexivity.
Qed.

Lemma geometryCentroid_none_reads (g : Geometry) :
  TripAdvisorGeo.geometryCentroid g = None ->
  GeometryReads.coordinatesRead g = [].
Proof.
  destruct g as [p|pts|pts|lines|rings|polys|gs];
    cbn [GeometryReads.coordinatesRead].
  - discriminate.
  - destruct pts; [reflexivity | discriminate].
  - destruct pts; [reflexivity | discriminate].
  - cbn. destruct (concat lines); [reflexivity | discriminate].
  - destruct rings as [|[|p rest] holes]; cbn [outer_ring]; try reflexivity.
    cbn [TripAdvisorGeo.geometryCentroid].
    destruct (TripAdvisorGeo.ringCentroid (p :: rest)); discriminate.
  - cbn [TripAdvisorGeo.geometryCentroid].
    destruct (gtb _ 0); [discriminate|].
    destruct (concat (concat polys)); [reflexivity | discriminate].
  - reflexivity.
Qed.

Lemma geometryCentroid_reads_none (g : Geometry) :
  GeometryReads.coordinatesRead g = [] ->
  TripAdvisorGeo.geometryCentroid g = None.
Proof.
  destruct g as [p|pts|pts|lines|rings|polys|gs];
    cbn [GeometryReads.coordinatesRead].
  - discriminate.
  - now intros ->.
  - now intros ->.
  - cbn. now intros ->.
  - destruct rings as [|outer holes]; [reflexivity|].
    cbn [outer_ring]. now intros ->.
  - intros H. cbn [TripAdvisorGeo.geometryCentroid].
    rewrite geometry_mp_fold, (members_no_coordinates _ _ H), H.
    reflexivity.
  - reflexivity.
Qed.

(** X5.  [geometryCentroid] of the TripAdvisor tool has no answer
    exactly when there is no coordinate for it to read: a Polygon whose
    outer ring is missing or empty, any other kind without a
    coordinate, and every GeometryCollection. *)
Theorem X5_geometryCentroid_none_iff_empty (g : Geometry) :
  TripAdvisorGeo.geometryCentroid g = None
  <-> GeometryReads.coordinatesRead g = [].
Proof.
  split.
  - apply geometryCentroid_none_reads.
  - apply geometryCentroid_reads_none.
Qed.

(** ** The TTL caches: what is stored is found, and nothing else moves *)


(** X6.  What [cacheSet] stores, [cacheGet] finds under the same key up
    to and including the moment of expiry, and the read changes nothing;
    once that moment has passed, the read finds nothing and drops the
    entry, and no other entry. *)
Theorem X6_cache_round_trip
        (V : Type) (CACHE_MAX : nat) (t : Z) (k : string) (v : V) (ttl : Z)
        (c : TtlCache.Cache V) (now : Z) :
  let c' := TtlCache.cacheSet CACHE_MAX t k v ttl c in
  ((now <= t + ttl)%Z -> TtlCache.cacheGet now k c' = (Some v, c'))
  /\ ((t + ttl < now)%Z ->
      fst (TtlCache.cacheGet now k c') = None
      /\ JsMap.get k (snd (TtlCache.cacheGet now k c')) = None
      /\ forall k', k' <> k ->
           JsMap.get k' (snd (TtlCache.cacheGet now k c')) = JsMap.get k' c').
Proof.
  cbn zeta. pose proof (cacheSet_get CACHE_MAX t k v ttl c) as Hget.
  split.
  - intros Hle. now rewrite (cacheGet_fresh _ _ Hget).
  - intros Hlt. rewrite (cacheGet_stale _ _ Hget) by exact Hlt. cbn [fst snd].
    split; [reflexivity|]. split; [apply jsmap_get_delete_same|].
    intros k' Hne. now apply jsmap_get_delete_other.
Qed.

Lemma X6_witness :
  TtlCache.cacheGet 100 "a" (TtlCache.cacheSet 2 0 "a" 7%nat 100 [])
  = (Some 7%nat, TtlCache.cacheSet 2 0 "a" 7%nat 100 [])
  /\ fst (TtlCache.cacheGet 101 "a" (TtlCache.cacheSet 2 0 "a" 7%nat 100 []))
     = None.
Proof.
  split.
  - apply (X6_cache_round_trip 2 0 "a" 7%nat 100 [] 100). cbn. lia.
  - apply (X6_cache_round_trip 2 0 "a" 7%nat 100 [] 101). cbn. lia.
Defined.

(** X7.  A cache operation on one key leaves the entries of the other
    keys alone, with one exception: a [cacheSet] that finds the cache
    full drops the head of the map.  Below capacity nothing is
    dropped. *)
Theorem X7_cache_frame
        (V : Type) (CACHE_MAX : nat) (now : Z) (k k' : string) (v : V) (ttl : Z)
        (c : TtlCache.Cache V) :
  k' <> k ->
  JsMap.get k' (snd (TtlCache.cacheGet now k c)) = JsMap.get k' c
  /\ JsMap.get k' (TtlCache.cacheSet CACHE_MAX now k v ttl c)
     = match TtlCache.victim CACHE_MAX c with
       | Some first => if String.eqb k' first then None else JsMap.get k' c
       | None => JsMap.get k' c
       end
  /\ ((JsMap.size c < CACHE_MAX)%nat ->
      JsMap.get k' (TtlCache.cacheSet CACHE_MAX now k v ttl c) = JsMap.get k' c).
Proof.
  intros Hne. split; [now apply cacheGet_other|].
  assert (Hset : JsMap.get k' (TtlCache.cacheSet CACHE_MAX now k v ttl c)
                 = match TtlCache.victim CACHE_MAX c with
                   | Some first =>
                       if String.eqb k' first then None else JsMap.get k' c
                   | None => JsMap.get k' c
                   end).
  { unfold TtlCache.cacheSet. rewrite jsmap_get_set_other by exact Hne.
    destruct (TtlCache.victim CACHE_MAX c) as [first|]; [|reflexivity].
    destruct (String.eqb k' first) eqn:E.
    - apply String.eqb_eq in E. subst first. apply jsmap_get_delete_same.
    - apply String.eqb_neq in E. now apply jsmap_get_delete_other. }
  split; [exact Hset|].
  intros Hroom. rewrite Hset. unfold TtlCache.victim.
  assert (H : (CACHE_MAX <=? JsMap.size c)%nat = false)
    by (apply Nat.leb_gt; exact Hroom).
  now rewrite H.
Qed.

Lemma X7_witness :
  JsMap.get "a" (TtlCache.cacheSet 1 5 "b" 2%nat 100
                                   (TtlCache.cacheSet 1 0 "a" 1%nat 100 []))
  = None
  /\ JsMap.get "a" (TtlCache.cacheSet 2 5 "b" 2%nat 100
                                      (TtlCache.cacheSet 2 0 "a" 1%nat 100 []))
     = Some (TtlCache.mkEntry 1%nat 100).
Proof.
  split.
  - destruct (@X7_cache_frame nat 1 5 "b" "a" 2%nat 100
                (TtlCache.cacheSet 1 0 "a" 1%nat 100 [])) as (_ & H & _).
    + discriminate.
    + exact H.
  - destruct (@X7_cache_frame nat 2 5 "b" "a" 2%nat 100
                (TtlCache.cacheSet 2 0 "a" 1%nat 100 [])) as (_ & _ & H).
    + discriminate.
    + apply H. cbn. lia.
Defined.


(** ** The Place Resolver: one request, and what it keeps *)

(** X8.  In every call the Place Resolver makes at most one request,
    and none when the cache answers or the query is too short.  A call
    that throws has sent its request and stored nothing; an OK response
    whose body cannot be read makes the call throw.  Whatever a call
    stores is the result it returns, under the canonical key of the
    arguments: found places and the "too short" failure for 10 minutes,
    network and HTTP failures for 2 minutes. *)
Theorem X8_one_request_and_what_is_stored
        (rt : Runtime) (env : NominatimService.Env)
        (w : NominatimService.World)
        (args : NominatimService.NominatimSearchArgs)
        (c : NominatimService.Cache) :
  let key := NominatimService.cacheKey rt args in
  let req := NominatimService.request rt env args in
  let r := NominatimService.runNominatimSearch rt env w args c in
  (length (filter NominatimService.isFetch (snd r)) <= 1)%nat
  /\ (forall q, In (NominatimService.EvFetch q) (snd r) ->
        q = req
        /\ NominatimService.tooShort rt (NominatimService.query args) = false
        /\ fst (TtlCache.cacheGet (NominatimService.now w) key c) = None)
  /\ (fst (fst r) = Thrown ->
      snd r = [NominatimService.EvFetch req]
      /\ snd (fst r) = snd (TtlCache.cacheGet (NominatimService.now w) key c))
  /\ (forall status,
        fst (TtlCache.cacheGet (NominatimService.now w) key c) = None ->
        NominatimService.tooShort rt (NominatimService.query args) = false ->
        NominatimService.fetch w req
        = NominatimService.Response true status NominatimService.BodyThrows ->
        fst (fst r) = Thrown)
  /\ (forall k v ttl,
        In (NominatimService.EvCacheSet k v ttl) (snd r) ->
        k = key
        /\ fst (fst r) = Returned v
        /\ JsMap.get key (snd (fst r))
           = Some (TtlCache.mkEntry v (NominatimService.later w + ttl)%Z)
        /\ ttl = ResolverCalls.keptFor rt args v).
Proof.
  cbn zeta. unfold NominatimService.runNominatimSearch, ResolverCalls.keptFor.
  destruct (TtlCache.cacheGet (NominatimService.now w)
                              (NominatimService.cacheKey rt args) c)
    as [[cached|] c1]; cbn [fst snd].
  { repeat split; try (cbn; lia); try discriminate; intros; contradiction. }
  destruct (NominatimService.tooShort rt (NominatimService.query args)) eqn:Et.
  { cbn [fst snd]. split; [cbn; lia|]. split.
    - intros q [H|[]]. discriminate.
    - split; [discriminate|]. split; [discriminate|].
      intros k v ttl [H|[]]. injection H as <- <- <-.
      rewrite cacheSet_get. auto. }
  destruct (NominatimService.fetch w (NominatimService.request rt env args))
    as [message|[|] status [rows| |]]; cbn [fst snd];
    (split; [cbn; lia|]);
    (split; [intros q Hin; repeat (destruct Hin as [Hin|Hin]; try discriminate);
             try contradiction; injection Hin as <-; auto|]);
    (split; [first [discriminate | intros _; split; reflexivity]|]);
    (split; [first [reflexivity | intros st _ _ H; discriminate H]|]);
    intros k v ttl Hin; repeat (destruct Hin as [Hin|Hin]; try discriminate);
    try contradiction; injection Hin as <- <- <-;
    rewrite ?cacheSet_get; auto.
Qed.

(** A returned result is in the cache afterwards; an entry the call
    stored itself lasts at least 2 minutes. *)
Lemma runNominatimSearch_stored
      (rt : Runtime) (env : NominatimService.Env)
      (w : NominatimService.World)
      (args : NominatimService.NominatimSearchArgs)
      (c : NominatimService.Cache) (res : ToolResult) :
  let r := NominatimService.runNominatimSearch rt env w args c in
  fst (fst r) = Returned res ->
  exists e,
    JsMap.get (NominatimService.cacheKey rt args) (snd (fst r)) = Some e
    /\ TtlCache.value e = res
    /\ (snd r <> [] ->
        (NominatimService.later w + 120000 <= TtlCache.expires e)%Z).
Proof.
  cbn zeta.
  pose proof (@cacheGet_value _ (NominatimService.now w)
                              (NominatimService.cacheKey rt args) c) as Hval.
  unfold NominatimService.runNominatimSearch.
  destruct (TtlCache.cacheGet (NominatimService.now w)
                              (NominatimService.cacheKey rt args) c)
    as [[cached|] c1]; cbn [fst snd] in *.
  { intros H. injection H as <-.
    destruct (Hval cached eq_refl) as (e & Hget & Hv & ->).
    exists e. split; [exact Hget|]. split; [exact Hv | congruence]. }
  assert (Hstored :
            forall ttl (evs : list NominatimService.Event),
              (120000 <= ttl)%Z ->
              exists e,
                JsMap.get (NominatimService.cacheKey rt args)
                          (TtlCache.cacheSet NominatimService.CACHE_MAX
                             (NominatimService.later w)
                             (NominatimService.cacheKey rt args) res ttl c1)
                = Some e
                /\ TtlCache.value e = res
                /\ (evs <> [] ->
                    (NominatimService.later w + 120000 <= TtlCache.expires e)%Z)).
  { intros ttl evs Httl. eexists. split; [apply cacheSet_get|].
    split; [reflexivity|]. cbn. lia. }
  destruct (NominatimService.tooShort rt (NominatimService.query args)).
  { cbn [fst snd]. intros H. injection H as <-.
    apply Hstored. unfold NominatimService.CACHE_TTL_MS. lia. }
  destruct (NominatimService.fetch w _) as [message|[|] status [rows| |]];
    cbn [fst snd]; try discriminate; intros H; injection H as <-;
    apply Hstored; unfold NominatimService.CACHE_TTL_MS; lia.
Qed.

(** X9.  A result the Place Resolver returns is in its cache
    afterwards, under the canonical key of the call.  A later call with
    the same canonical key returns that same result, failures included,
    without a request and without touching the cache, whenever the entry
    is still in the cache (300 other keys can evict it) and has not
    expired.  An entry stored by the call itself lasts at least 2
    minutes. *)
Theorem X9_result_served_again
        (rt : Runtime) (env : NominatimService.Env)
        (w1 : NominatimService.World)
        (args1 : NominatimService.NominatimSearchArgs)
        (c : NominatimService.Cache) (res : ToolResult) :
  let r1 := NominatimService.runNominatimSearch rt env w1 args1 c in
  fst (fst r1) = Returned res ->
  exists e,
    JsMap.get (NominatimService.cacheKey rt args1) (snd (fst r1)) = Some e
    /\ TtlCache.value e = res
    /\ (snd r1 <> [] ->
        (NominatimService.later w1 + 120000 <= TtlCache.expires e)%Z)
    /\ forall (env2 : NominatimService.Env) (w2 : NominatimService.World)
              (args2 : NominatimService.NominatimSearchArgs)
              (c2 : NominatimService.Cache),
        NominatimService.cacheKey rt args2 = NominatimService.cacheKey rt args1 ->
        JsMap.get (NominatimService.cacheKey rt args1) c2 = Some e ->
        (NominatimService.now w2 <= TtlCache.expires e)%Z ->
        NominatimService.runNominatimSearch rt env2 w2 args2 c2
        = (Returned res, c2, []).
Proof.
  cbn zeta. intros Hres.
  destruct (@runNominatimSearch_stored rt env w1 args1 c res Hres)
    as (e & Hget & Hv & Hfresh).
  exists e. split; [exact Hget|]. split; [exact Hv|]. split; [exact Hfresh|].
  intros env2 w2 args2 c2 Hk Hget2 Hle. rewrite <- Hv.
  apply runNominatimSearch_again; [|exact Hle].
  now rewrite Hk.
Qed.

(** "Jurong Point" is resolved, then "Bugis"; asked again, also in
    another spelling, "Jurong Point" is served from the cache. *)
Lemma X9_witness :
  let run args c :=
    NominatimService.runNominatimSearch
      Examples.rt0 Examples.env0 Examples.world0 args c in
  let c1 := snd (fst (run (foursquareByPlaceTool.placeArgs "Jurong Point") [])) in
  let c2 := snd (fst (run (foursquareByPlaceTool.placeArgs "Bugis") c1)) in
  snd (run (foursquareByPlaceTool.placeArgs "Bugis") c1) <> []
  /\ run (foursquareByPlaceTool.placeArgs " jurong POINT ") c2
     = (Returned (Ok (toFeatureCollection Examples.rt0 [Examples.polygonRow])
                     SrcNominatim), c2, []).
Proof.
  cbv zeta.
  destruct (@X9_result_served_again
              Examples.rt0 Examples.env0 Examples.world0
              (foursquareByPlaceTool.placeArgs "Jurong Point") []
              (Ok (toFeatureCollection Examples.rt0 [Examples.polygonRow])
                  SrcNominatim)
              eq_refl) as (e & H1 & _ & _ & H).
  split; [vm_compute; discriminate|].
  apply H.
  - reflexivity.
  - rewrite <- H1. reflexivity.
  - cbn in H1. injection H1 as <-. cbn. lia.
Defined.

(** ** The canonical key *)

Lemma string_app_inv_head (a b c : string) :
  (a ++ b = a ++ c)%string -> b = c.
Proof.
  induction a as [|x a IH]; cbn; [auto|]. intros H. injection H as H. auto.
Qed.

(** X10.  Two calls share a cache entry only if their queries agree
    once trimmed and put in lower case; and they do share it whenever
    the queries agree in that way and the other arguments agree once
    the defaults are filled in (limit 5, no country codes, polygons on,
    no language). *)
Theorem X10_cache_key_normalises
        (rt : Runtime) (a1 a2 : NominatimService.NominatimSearchArgs) :
  (NominatimService.cacheKey rt a1 = NominatimService.cacheKey rt a2 ->
   toLowerCase rt (trim rt (NominatimService.query a1))
   = toLowerCase rt (trim rt (NominatimService.query a2)))
  /\ (toLowerCase rt (trim rt (NominatimService.query a1))
      = toLowerCase rt (trim rt (NominatimService.query a2)) ->
      NominatimService.opt_default (NominatimService.limit a1) (of_Z 5)
      = NominatimService.opt_default (NominatimService.limit a2) (of_Z 5) ->
      NominatimService.opt_default (NominatimService.countrycodes a1) EmptyString
      = NominatimService.opt_default (NominatimService.countrycodes a2) EmptyString ->
      NominatimService.opt_default (NominatimService.polygon a1) true
      = NominatimService.opt_default (NominatimService.polygon a2) true ->
      NominatimService.opt_default (NominatimService.language a1) EmptyString
      = NominatimService.opt_default (NominatimService.language a2) EmptyString ->
      NominatimService.near a1 = NominatimService.near a2 ->
      NominatimService.cacheKey rt a1 = NominatimService.cacheKey rt a2).
Proof.
  split.
  - unfold NominatimService.cacheKey, Json.string_text.
    cbn [Json.name_text append]. intros H. inversion H as [H'].
    now apply json_body_prefix_free in H'.
  - intros Hq Hl Hc Hp Hla Hn.
    unfold NominatimService.cacheKey, NominatimService.keyTail.
    now rewrite Hq, Hl, Hc, Hp, Hla, Hn.
Qed.

Lemma X10_witness :
  NominatimService.cacheKey Examples.rt0
    (NominatimService.mkArgs "  Jurong POINT " None None None None None)
  = NominatimService.cacheKey Examples.rt0
      (NominatimService.mkArgs "jurong point" (Some (of_Z 5)) (Some EmptyString)
                               (Some true) None None).
Proof.
  apply (X10_cache_key_normalises Examples.rt0
           (NominatimService.mkArgs "  Jurong POINT " None None None None None)
           (NominatimService.mkArgs "jurong point" (Some (of_Z 5))
                                    (Some EmptyString) (Some true) None None));
    reflexivity.
Defined.

(** ** Limits sent to the providers *)

Lemma Qle_bool_false (x y : Qc) : Qle_bool x y = false -> y < x.
Proof.
  intros H. apply Qcnot_le_lt. intros Hle.
  apply Qle_bool_iff in Hle. congruence.
Qed.

Lemma Qle_bool_true (x y : Qc) : Qle_bool x y = true -> x <= y.
Proof. intros H. now apply Qle_bool_iff in H. Qed.

Lemma clamp_bounds (lo hi x : Qc) :
  lo <= hi ->
  lo <= clamp lo hi x /\ clamp lo hi x <= hi
  /\ (lo <= x -> x <= hi -> clamp lo hi x = x).
Proof.
  intros Hlh. unfold clamp.
  destruct (Qle_bool x lo) eqn:E1.
  - apply Qle_bool_true in E1.
    destruct (Qle_bool hi lo) eqn:E2.
    + apply Qle_bool_true in E2.
      assert (hi = lo) by (apply Qcle_antisym; assumption). subst hi.
      split; [apply Qcle_refl|]. split; [apply Qcle_refl|].
      intros H1 _. now apply Qcle_antisym.
    + split; [apply Qcle_refl|]. split; [exact Hlh|].
      intros H1 _. now apply Qcle_antisym.
  - apply Qle_bool_false in E1.
    destruct (Qle_bool hi x) eqn:E2.
    + apply Qle_bool_true in E2.
      split; [exact Hlh|]. split; [apply Qcle_refl|].
      intros _ H2. now apply Qcle_antisym.
    + apply Qle_bool_false in E2.
      split; [now apply Qclt_le_weak|]. split; [now apply Qclt_le_weak|].
      reflexivity.
Qed.

(** X11.  The Place Resolver asks Nominatim for between 1 and 10 rows
    and Foursquare is asked for between 1 and 50 places, whatever limit
    the caller passes; a limit within the range is sent as it is.  The
    stand-alone Nominatim tool sends the caller's limit unchanged. *)
Theorem X11_limits_are_clamped
        (rt : Runtime) (env : NominatimService.Env)
        (args : NominatimService.NominatimSearchArgs)
        (opts : FoursquareService.FsqSearchOpts)
        (targs : NominatimTool.Args) :
  (exists n,
      In ("limit"%string, numberToString rt n)
         (NominatimService.params (NominatimService.request rt env args))
      /\ 1 <= n /\ n <= of_Z 10
      /\ (forall l, NominatimService.limit args = Some l ->
                    1 <= l -> l <= of_Z 10 -> n = l))
  /\ (1 <= FoursquareService.p_limit (FoursquareService.fsqParams rt opts)
      /\ FoursquareService.p_limit (FoursquareService.fsqParams rt opts) <= of_Z 50
      /\ (forall l, FoursquareService.opt_limit opts = Some l ->
                    1 <= l -> l <= of_Z 50 ->
                    FoursquareService.p_limit (FoursquareService.fsqParams rt opts) = l))
  /\ In ("limit"%string,
         numberToString rt
           (NominatimService.opt_default (NominatimTool.tool_limit targs) (of_Z 5)))
        (NominatimService.params (NominatimTool.request rt env targs)).
Proof.
  assert (H10 : 1 <= of_Z 10) by discriminate.
  assert (H50 : 1 <= of_Z 50) by discriminate.
  split; [|split].
  - exists (clamp 1 (of_Z 10)
                  (NominatimService.opt_default (NominatimService.limit args)
                                                (of_Z 5))).
    destruct (clamp_bounds
                (NominatimService.opt_default (NominatimService.limit args)
                                              (of_Z 5)) H10) as (Hlo & Hhi & Hid).
    split; [cbn; tauto|]. split; [exact Hlo|]. split; [exact Hhi|].
    intros l Hl. rewrite Hl in *. exact Hid.
  - cbn [FoursquareService.fsqParams FoursquareService.p_limit].
    destruct (clamp_bounds
                (NominatimService.opt_default (FoursquareService.opt_limit opts)
                                              (of_Z 10)) H50) as (Hlo & Hhi & Hid).
    split; [exact Hlo|]. split; [exact Hhi|].
    intros l Hl. rewrite Hl in *. exact Hid.
  - cbn. tauto.
Qed.

(** ** The Foursquare normaliser, row by row *)

Lemma fsqLoop_rows (results : list FsqRow) :
  forall acc : list Feature,
    fsqLoop results acc
    = if existsb FsqRows.lacksLocation results then Thrown
      else Returned (acc ++ flat_map FsqRows.rowFeature results).
Proof.
  induction results as [|r results IH]; intros acc.
  - cbn. now rewrite app_nil_r.
  - cbn [fsqLoop existsb flat_map].
    unfold FsqRows.lacksLocation at 1, FsqRows.rowFeature at 1, FsqRows.numeric.
    destruct (latitude r) as [| | |lat| |]; try (rewrite IH; reflexivity).
    destruct (longitude r) as [| | |lng| |]; try (rewrite IH; reflexivity).
    destruct (location r) as [loc|]; [|reflexivity].
    rewrite IH. cbn [orb app]. now rewrite <- app_assoc.
Qed.

Lemma rowFeature_length (rows : list FsqRow) :
  (length (flat_map FsqRows.rowFeature rows) <= length rows)%nat.
Proof.
  induction rows as [|r rows IH]; [cbn; lia|].
  cbn [flat_map length]. rewrite length_app.
  assert (length (FsqRows.rowFeature r) <= 1)%nat.
  { unfold FsqRows.rowFeature.
    destruct (FsqRows.numeric r) as [[lat lng]|]; [|cbn; lia].
    destruct (location r); cbn; lia. }
  lia.
Qed.

(** X12.  When [fsqResultsToGeoJSON] returns, it has made one Point
    feature for each row whose latitude and longitude are both numbers,
    in the order of the rows, and skipped the other rows, so there are
    never more features than rows; and each of those rows had a
    [location].  It throws when a row with numeric coordinates has no
    [location].  Without a list of rows it returns an empty
    collection. *)
Theorem X12_fsq_features_row_by_row (results : option (list FsqRow)) :
  let rows := match results with Some rs => rs | None => [] end in
  (forall fc : FeatureCollection,
      fsqResultsToGeoJSON results = Returned fc ->
      features fc = flat_map FsqRows.rowFeature rows
      /\ existsb FsqRows.lacksLocation rows = false
      /\ (length (features fc) <= length rows)%nat)
  /\ (existsb FsqRows.lacksLocation rows = true ->
      fsqResultsToGeoJSON results = Thrown)
  /\ fsqResultsToGeoJSON None = Returned (mkFC []).
Proof.
  cbn zeta.
  assert (H : fsqResultsToGeoJSON results
              = if existsb FsqRows.lacksLocation
                     (match results with Some rs => rs | None => [] end)
                then Thrown
                else Returned
                       (mkFC (flat_map FsqRows.rowFeature
                                (match results with Some rs => rs | None => [] end)))).
  { unfold fsqResultsToGeoJSON. rewrite fsqLoop_rows.
    now destruct (existsb FsqRows.lacksLocation _). }
  split; [|split; [|reflexivity]].
  - intros fc Hfc. rewrite H in Hfc.
    destruct (existsb FsqRows.lacksLocation _); [discriminate|].
    injection Hfc as <-. cbn [features].
    split; [reflexivity|]. split; [reflexivity | apply rowFeature_length].
  - intros Hl. now rewrite H, Hl.
Qed.

(** A row without coordinates is skipped; a row with coordinates and no
    [location] makes the normaliser throw, whatever comes after it. *)
Example fsq_rows_skipped_and_thrown :
  fsqResultsToGeoJSON (Some [MoreExamples.unplaced; Examples.cafe])
  = Returned (mkFC [fsqFeature Examples.cafe
                               (mkFsqLocation (JString "1 Jurong West")) two 1])
  /\ fsqResultsToGeoJSON (Some [Examples.cafe; MoreExamples.homeless; Examples.cafe])
     = Thrown.
Proof. split; reflexivity. Qed.

(** ** The chained resolver: when Foursquare is asked *)

(** X13.  The chained resolver asks Foursquare at most once, and only
    after the Place Resolver has returned a place whose first feature
    has a centroid, and only with an API key.  Without the key it never
    succeeds and sends Foursquare nothing; the Place Resolver has been
    consulted all the same, and its cache and events are those of that
    one call. *)
Theorem X13_foursquare_asked_last
        (rt : Runtime) (env : NominatimService.Env)
        (w : NominatimService.World)
        (placeSearch : FoursquareService.FsqParams ->
                       FoursquareService.PlaceSearchOutcome)
        (input : foursquareByPlaceTool.Input) (cache : NominatimService.Cache) :
  let run := foursquareByPlaceTool.execute rt env w placeSearch input cache in
  let place :=
    NominatimService.runNominatimSearch
      rt env w
      (foursquareByPlaceTool.placeArgs (foursquareByPlaceTool.place input))
      cache in
  (length (foursquareByPlaceTool.fsqRequests run) <= 1)%nat
  /\ (foursquareByPlaceTool.fsqRequests run <> [] ->
      truthy_opt_string (NominatimService.FOURSQUARE_API_KEY env) = true
      /\ exists data src first rest c,
          fst (fst place) = Returned (Ok data src)
          /\ features data = first :: rest
          /\ ChainedGeo.centroid (geometry first) = Some c)
  /\ (truthy_opt_string (NominatimService.FOURSQUARE_API_KEY env) = false ->
      foursquareByPlaceTool.fsqRequests run = []
      /\ forall fc src,
          foursquareByPlaceTool.result run <> Returned (Ok fc src))
  /\ foursquareByPlaceTool.nominatimEvents run = snd place
  /\ foursquareByPlaceTool.cacheAfterRun run = snd (fst place).
Proof.
  cbn zeta. unfold foursquareByPlaceTool.execute.
  destruct (NominatimService.runNominatimSearch rt env w _ cache)
    as [[nomi cache'] events]; cbn [fst snd].
  destruct nomi as [[data src|error status]|];
    cbn [foursquareByPlaceTool.fsqRequests foursquareByPlaceTool.result
         foursquareByPlaceTool.nominatimEvents
         foursquareByPlaceTool.cacheAfterRun length];
    try (repeat split; (lia || congruence || discriminate)).
  destruct (features data) as [|first rest] eqn:Ef;
    cbn [foursquareByPlaceTool.fsqRequests foursquareByPlaceTool.result
         foursquareByPlaceTool.nominatimEvents
         foursquareByPlaceTool.cacheAfterRun length];
    try (repeat split; (lia || congruence || discriminate)).
  destruct (ChainedGeo.centroid (geometry first)) as [[lng lat]|] eqn:Ec;
    cbn [foursquareByPlaceTool.fsqRequests foursquareByPlaceTool.result
         foursquareByPlaceTool.nominatimEvents
         foursquareByPlaceTool.cacheAfterRun length];
    try (repeat split; (lia || congruence || discriminate)).
  unfold FoursquareService.fsqSearch.
  destruct (truthy_opt_string (NominatimService.FOURSQUARE_API_KEY env)) eqn:Ek;
    cbn [negb].
  - destruct (placeSearch _) as [results|message];
      [destruct (fsqResultsToGeoJSON results)|];
      cbn [foursquareByPlaceTool.fsqRequests foursquareByPlaceTool.result
           foursquareByPlaceTool.nominatimEvents
           foursquareByPlaceTool.cacheAfterRun length];
      (split; [lia|]); (split; [intros _; split; [reflexivity|];
               exists data, src, first, rest, (lng, lat); auto|]);
      (split; [discriminate|]); split; reflexivity.
  - cbn [foursquareByPlaceTool.fsqRequests foursquareByPlaceTool.result
         foursquareByPlaceTool.nominatimEvents
         foursquareByPlaceTool.cacheAfterRun length].
    repeat split; (lia || congruence || discriminate).
Qed.

(** Without the Foursquare key the place is still looked up, and the
    key is found missing only afterwards. *)
Example chained_without_key :
  let run :=
    foursquareByPlaceTool.execute Examples.rt0 MoreExamples.envNoKey
      Examples.world0 Examples.placeSearch0 Examples.input0 [] in
  foursquareByPlaceTool.result run
  = Returned (Failure "Missing FOURSQUARE_API_KEY" None)
  /\ existsb NominatimService.isFetch (foursquareByPlaceTool.nominatimEvents run)
     = true
  /\ foursquareByPlaceTool.fsqRequests run = [].
Proof. repeat split. Qed.

(** ** Lines and points in the chained resolver *)

Lemma centroid_lineLike (g : Geometry) :
  GeometryReads.lineLike g = true -> ChainedGeo.centroid (Some g) = None.
Proof. destruct g; cbn; congruence. Qed.

(** X14.  When the place resolves to a line or to points (a
    LineString, a MultiLineString or a MultiPoint), [centroid] of the
    chained resolver has no answer, so the resolver fails with "No
    usable centroid from place geometry" and asks Foursquare nothing;
    for the same geometry [geometryCentroid] of the TripAdvisor tool
    answers the mean of the coordinates whenever there is one. *)
Theorem X14_chained_resolver_rejects_lines
        (rt : Runtime) (env : NominatimService.Env)
        (w : NominatimService.World)
        (placeSearch : FoursquareService.FsqParams ->
                       FoursquareService.PlaceSearchOutcome)
        (input : foursquareByPlaceTool.Input) (cache : NominatimService.Cache)
        (data : FeatureCollection) (src : Provenance)
        (first : Feature) (rest : list Feature) (g : Geometry) :
  fst (fst (NominatimService.runNominatimSearch
              rt env w
              (foursquareByPlaceTool.placeArgs (foursquareByPlaceTool.place input))
              cache))
  = Returned (Ok data src) ->
  features data = first :: rest ->
  geometry first = Some g ->
  GeometryReads.lineLike g = true ->
  let run := foursquareByPlaceTool.execute rt env w placeSearch input cache in
  foursquareByPlaceTool.result run
  = Returned (Failure "No usable centroid from place geometry" None)
  /\ foursquareByPlaceTool.fsqRequests run = []
  /\ (GeometryReads.coordinatesRead g <> [] ->
      TripAdvisorGeo.geometryCentroid g
      = Some (average (GeometryReads.coordinatesRead g))).
Proof.
  intros Hn Hf Hg Hline. cbn zeta. unfold foursquareByPlaceTool.execute.
  destruct (NominatimService.runNominatimSearch rt env w _ cache)
    as [[nomi cache'] events]; cbn [fst snd] in Hn. subst nomi.
  rewrite Hf, Hg, (centroid_lineLike _ Hline).
  split; [reflexivity|]. split; [reflexivity|].
  destruct g as [p|pts|pts|lines|rings|polys|gs]; try discriminate;
    cbn [GeometryReads.coordinatesRead TripAdvisorGeo.geometryCentroid];
    intros Hne.
  - destruct pts; [congruence | reflexivity].
  - destruct pts; [congruence | reflexivity].
  - destruct (concat lines); [congruence | reflexivity].
Qed.

Lemma X14_witness :
  foursquareByPlaceTool.result
    (foursquareByPlaceTool.execute Examples.rt0 Examples.env0
       MoreExamples.worldRoad Examples.placeSearch0 Examples.input0 [])
  = Returned (Failure "No usable centroid from place geometry" None)
  /\ foursquareByPlaceTool.fsqRequests
       (foursquareByPlaceTool.execute Examples.rt0 Examples.env0
          MoreExamples.worldRoad Examples.placeSearch0 Examples.input0 [])
     = []
  /\ (GeometryReads.coordinatesRead MoreExamples.road <> [] ->
      TripAdvisorGeo.geometryCentroid MoreExamples.road
      = Some (average (GeometryReads.coordinatesRead MoreExamples.road))).
Proof.
  apply (@X14_chained_resolver_rejects_lines
           Examples.rt0 Examples.env0 MoreExamples.worldRoad
           Examples.placeSearch0 Examples.input0 []
           (toFeatureCollection Examples.rt0 [MoreExamples.roadRow]) SrcNominatim
           (nominatimFeature Examples.rt0 MoreExamples.roadRow) []
           MoreExamples.road);
    reflexivity.
Defined.

(** ** The Fallback Geocoder: what it remembers *)

(** X15.  The fallback geocoder remembers what it finds and nothing
    else.  After a lookup that returned coordinates the cache holds them
    under the key of the address and the centre; a later lookup of the
    same address near the same centre is served from the cache, with the
    same coordinates and without a request, whenever that entry is still
    in the cache (500 other addresses can evict it) and has not expired.
    After a lookup that found nothing the cache holds no entry for the
    address, and a lookup on a cache without such an entry goes to the
    network. *)
Theorem X15_geocoder_remembers_found_only
        (rt : Runtime) (env : NominatimService.Env)
        (net : TripAdvisorTool.Network) (address : string)
        (near : option TripAdvisorTool.Center) (st : TripAdvisorTool.State) :
  let key := TripAdvisorTool.geocodeKey rt address near in
  let req := TripAdvisorTool.geocodeRequest rt env address near in
  let r := TripAdvisorTool.geocodeAddressWithCache rt env net address near st in
  (forall v,
      fst r = Returned (Some v) ->
      exists e,
        JsMap.get key (TripAdvisorTool.geocodeCache (snd r)) = Some e
        /\ TtlCache.value e = v
        /\ forall (net' : TripAdvisorTool.Network) (st' : TripAdvisorTool.State),
            JsMap.get key (TripAdvisorTool.geocodeCache st') = Some e ->
            (TripAdvisorTool.clock st' <= TtlCache.expires e)%Z ->
            TripAdvisorTool.geocodeAddressWithCache rt env net' address near st'
            = (Returned (Some v),
               TripAdvisorTool.mkState
                 (TripAdvisorTool.clock st') (TripAdvisorTool.geocodeCache st')
                 (TripAdvisorTool.trace st' ++ [TripAdvisorTool.EvCacheHit key])))
  /\ (fst r <> Thrown ->
      (forall v, fst r <> Returned (Some v)) ->
      JsMap.get key (TripAdvisorTool.geocodeCache (snd r)) = None)
  /\ (forall (net' : TripAdvisorTool.Network) (st' : TripAdvisorTool.State),
        JsMap.get key (TripAdvisorTool.geocodeCache st') = None ->
        TripAdvisorTool.trace
          (snd (TripAdvisorTool.geocodeAddressWithCache
                  rt env net' address near st'))
        = TripAdvisorTool.trace st' ++ [TripAdvisorTool.EvGeocodeFetch req]).
Proof.
  cbn zeta.
  assert (Hhit :
            forall (e : TtlCache.CacheEntry TripAdvisorTool.CacheValue)
                   (net' : TripAdvisorTool.Network)
                   (st' : TripAdvisorTool.State),
              JsMap.get (TripAdvisorTool.geocodeKey rt address near)
                        (TripAdvisorTool.geocodeCache st') = Some e ->
              (TripAdvisorTool.clock st' <= TtlCache.expires e)%Z ->
              TripAdvisorTool.geocodeAddressWithCache rt env net' address near st'
              = (Returned (Some (TtlCache.value e)),
                 TripAdvisorTool.mkState
                   (TripAdvisorTool.clock st') (TripAdvisorTool.geocodeCache st')
                   (TripAdvisorTool.trace st'
                      ++ [TripAdvisorTool.EvCacheHit
                            (TripAdvisorTool.geocodeKey rt address near)]))).
  { intros e net' st' Hget Hle.
    unfold TripAdvisorTool.geocodeAddressWithCache.
    now rewrite (cacheGet_fresh _ _ Hget Hle). }
  assert (Hmiss :
            forall (net' : TripAdvisorTool.Network)
                   (st' : TripAdvisorTool.State),
              JsMap.get (TripAdvisorTool.geocodeKey rt address near)
                        (TripAdvisorTool.geocodeCache st') = None ->
              TripAdvisorTool.trace
                (snd (TripAdvisorTool.geocodeAddressWithCache
                        rt env net' address near st'))
              = TripAdvisorTool.trace st'
                  ++ [TripAdvisorTool.EvGeocodeFetch
                        (TripAdvisorTool.geocodeRequest rt env address near)]).
  { intros net' st' Hget.
    unfold TripAdvisorTool.geocodeAddressWithCache.
    rewrite (cacheGet_absent _ _ _ Hget).
    destruct (TripAdvisorTool.answer net' _)
      as [message|[|] status [[|first rows]| |]]; reflexivity. }
  split; [|split; [|exact Hmiss]].
  - pose proof (@cacheGet_value _ (TripAdvisorTool.clock st)
                  (TripAdvisorTool.geocodeKey rt address near)
                  (TripAdvisorTool.geocodeCache st)) as Hval.
    set (r := TripAdvisorTool.geocodeAddressWithCache rt env net address near st).
    unfold TripAdvisorTool.geocodeAddressWithCache in r. subst r.
    destruct (TtlCache.cacheGet (TripAdvisorTool.clock st)
                                (TripAdvisorTool.geocodeKey rt address near)
                                (TripAdvisorTool.geocodeCache st))
      as [[cached|] c1]; cbn [fst snd] in *.
    + destruct (Hval cached eq_refl) as (e & Hget & Hv & ->).
      intros v H. injection H as <-. exists e.
      cbn [TripAdvisorTool.geocodeCache].
      split; [exact Hget|]. split; [exact Hv|].
      intros net' st' Hg Hle. rewrite <- Hv. now apply Hhit.
    + destruct (TripAdvisorTool.answer net _)
        as [message|[|] status [[|first rows]| |]];
        cbn [fst snd TripAdvisorTool.geocodeCache TripAdvisorTool.clock];
        intros v H; try discriminate.
      injection H as <-. eexists. split; [apply cacheSet_get|].
      split; [reflexivity|].
      intros net' st' Hg Hle. exact (Hhit _ net' st' Hg Hle).
  - pose proof (@cacheGet_miss _ (TripAdvisorTool.clock st)
                  (TripAdvisorTool.geocodeKey rt address near)
                  (TripAdvisorTool.geocodeCache st)) as Hnone.
    set (r := TripAdvisorTool.geocodeAddressWithCache rt env net address near st).
    unfold TripAdvisorTool.geocodeAddressWithCache in r. subst r.
    destruct (TtlCache.cacheGet (TripAdvisorTool.clock st)
                                (TripAdvisorTool.geocodeKey rt address near)
                                (TripAdvisorTool.geocodeCache st))
      as [[cached|] c1]; cbn [fst snd] in *.
    + intros _ H. exfalso. now apply (H cached).
    + specialize (Hnone eq_refl).
      destruct (TripAdvisorTool.answer net _)
        as [message|[|] status [[|first rows]| |]];
        cbn [fst snd TripAdvisorTool.geocodeCache TripAdvisorTool.clock];
        intros Ht Hv; try exact Hnone;
        try (exfalso; apply Ht; reflexivity).
      exfalso. eapply Hv. reflexivity.
Qed.

(** An address is found, then another one; looked up again, the first
    is served from the cache. *)
Lemma X15_witness :
  let lookup address st :=
    TripAdvisorTool.geocodeAddressWithCache
      Examples.rt0 Examples.env0 Examples.netFound address
      (Some Examples.centre0) st in
  let st1 := snd (lookup "1 Jurong West"%string Examples.state0) in
  let st2 := snd (lookup "2 Boon Lay Way"%string st1) in
  fst (lookup "1 Jurong West"%string st2)
  = Returned (Some (TripAdvisorTool.mkCacheValue 0 0))
  /\ TripAdvisorTool.trace (snd (lookup "1 Jurong West"%string st2))
     = TripAdvisorTool.trace st2
       ++ [TripAdvisorTool.EvCacheHit
             (TripAdvisorTool.geocodeKey Examples.rt0 "1 Jurong West"
                                         (Some Examples.centre0))].
Proof.
  cbv zeta.
  destruct (@X15_geocoder_remembers_found_only
              Examples.rt0 Examples.env0 Examples.netFound "1 Jurong West"
              (Some Examples.centre0) Examples.state0) as (H & _ & _).
  destruct (H (TripAdvisorTool.mkCacheValue 0 0) eq_refl) as (e & H1 & _ & H3).
  assert (Hget :
            JsMap.get
              (TripAdvisorTool.geocodeKey Examples.rt0 "1 Jurong West"
                                          (Some Examples.centre0))
              (TripAdvisorTool.geocodeCache
                 (snd (TripAdvisorTool.geocodeAddressWithCache
                         Examples.rt0 Examples.env0 Examples.netFound
                         "2 Boon Lay Way" (Some Examples.centre0)
                         (snd (TripAdvisorTool.geocodeAddressWithCache
                                 Examples.rt0 Examples.env0 Examples.netFound
                                 "1 Jurong West" (Some Examples.centre0)
                                 Examples.state0)))))
            = Some e).
  { rewrite <- H1. reflexivity. }
  assert (Hle :
            (TripAdvisorTool.clock
               (snd (TripAdvisorTool.geocodeAddressWithCache
                       Examples.rt0 Examples.env0 Examples.netFound
                       "2 Boon Lay Way" (Some Examples.centre0)
                       (snd (TripAdvisorTool.geocodeAddressWithCache
                               Examples.rt0 Examples.env0 Examples.netFound
                               "1 Jurong West" (Some Examples.centre0)
                               Examples.state0))))
             <= TtlCache.expires e)%Z).
  { cbn in H1. injection H1 as <-. vm_compute. discriminate. }
  rewrite (H3 Examples.netFound _ Hget Hle).
  split; reflexivity.
Defined.

(** ** The pin loop, item by item *)

Lemma pinLoop_cons
      (rt : Runtime) (env : NominatimService.Env)
      (net : TripAdvisorTool.Network) (center : TripAdvisorTool.Center)
      (item : TAItem) (rest : list TAItem) (features : list Feature)
      (count : nat) (st : TripAdvisorTool.State) :
  TripAdvisorTool.pinLoop rt env net center (item :: rest) features count st
  = match tripAdvisorByPlaceTool.ownCoordinates rt item with
    | Some (lng, lat) =>
        TripAdvisorTool.pinLoop rt env net center rest
                                (features ++ [poiFeature item lng lat]) count st
    | None =>
        if negb (truthy_opt_string (itemAddress item)) then
          TripAdvisorTool.pinLoop rt env net center rest features count st
        else
          match TripAdvisorTool.geocodeAddressWithCache
                  rt env net
                  (NominatimService.opt_default (itemAddress item) EmptyString)
                  (Some center) st with
          | (Thrown, st1) => (Thrown, st1)
          | (Returned None, st1) =>
              TripAdvisorTool.pinLoop rt env net center rest features count st1
          | (Returned (Some v), st1) =>
              TripAdvisorTool.pinLoop
                rt env net center rest
                (features ++ [poiFeature item (TripAdvisorTool.cv_lng v)
                                         (TripAdvisorTool.cv_lat v)])
                (S count) (TripAdvisorTool.sleep 1100 st1)
          end
    end.
Proof.
  cbn [TripAdvisorTool.pinLoop]. unfold tripAdvisorByPlaceTool.ownCoordinates.
  destruct (asNumber rt (ta_latitude item)) as [latTA|];
    destruct (asNumber rt (ta_longitude item)) as [lngTA|]; reflexivity.
Qed.

(** X16.  Items that bring their coordinates, or have no address to
    look up, are handled without any lookup: the loop returns one pin
    for each item with coordinates, in order, after the features it was
    given; the clock, the address cache and the trace stay as they
    were. *)
Theorem X16_offline_items_need_no_lookup
        (rt : Runtime) (env : NominatimService.Env)
        (net : TripAdvisorTool.Network) (center : TripAdvisorTool.Center)
        (items : list TAItem) (features : list Feature) (count : nat)
        (st : TripAdvisorTool.State) :
  forallb (tripAdvisorByPlaceTool.offline rt) items = true ->
  TripAdvisorTool.pinLoop rt env net center items features count st
  = (Returned (features ++ flat_map (tripAdvisorByPlaceTool.ownPin rt) items),
     st).
Proof.
  revert features count st.
  induction items as [|item items IH]; intros features count st Hall.
  - cbn. now rewrite app_nil_r.
  - cbn [forallb] in Hall. apply andb_true_iff in Hall.
    destruct Hall as [Hitem Hrest].
    rewrite pinLoop_cons. cbn [flat_map].
    unfold tripAdvisorByPlaceTool.offline, tripAdvisorByPlaceTool.ownPin in *.
    destruct (tripAdvisorByPlaceTool.ownCoordinates rt item) as [[lng lat]|].
    + rewrite IH by exact Hrest. now rewrite <- app_assoc.
    + rewrite Hitem. now apply IH.
Qed.

Lemma X16_witness :
  TripAdvisorTool.pinLoop Examples.rt0 Examples.env0 Examples.netFound
                          Examples.centre0
                          [TripExamples.placed; TripExamples.nowhere] [] 0
                          Examples.state0
  = (Returned ([] ++ flat_map (tripAdvisorByPlaceTool.ownPin Examples.rt0)
                              [TripExamples.placed; TripExamples.nowhere]),
     Examples.state0).
Proof.
  apply (@X16_offline_items_need_no_lookup
           Examples.rt0 Examples.env0 Examples.netFound Examples.centre0
           [TripExamples.placed; TripExamples.nowhere] [] 0%nat
           Examples.state0).
  reflexivity.
Defined.

Lemma elapsed_cons (net : TripAdvisorTool.Network)
      (e : TripAdvisorTool.Event) (evs : list TripAdvisorTool.Event) :
  tripAdvisorByPlaceTool.elapsed net (e :: evs)
  = (tripAdvisorByPlaceTool.elapsed net [e]
     + tripAdvisorByPlaceTool.elapsed net evs)%Z.
Proof.
  unfold tripAdvisorByPlaceTool.elapsed. destruct e; cbn [fold_right]; lia.
Qed.

Lemma elapsed_sleep (net : TripAdvisorTool.Network) (ms : Z) :
  tripAdvisorByPlaceTool.elapsed net [TripAdvisorTool.EvSleep ms] = ms.
Proof. unfold tripAdvisorByPlaceTool.elapsed. cbn [fold_right]. lia. Qed.

(** One lookup adds one event, a cache hit or a request, and takes the
    time of that event. *)
Lemma geocode_step
      (rt : Runtime) (env : NominatimService.Env)
      (net : TripAdvisorTool.Network) (address : string)
      (near : option TripAdvisorTool.Center) (st : TripAdvisorTool.State) :
  let r := TripAdvisorTool.geocodeAddressWithCache rt env net address near st in
  exists ev,
    TripAdvisorTool.trace (snd r) = TripAdvisorTool.trace st ++ [ev]
    /\ TripAdvisorTool.clock (snd r)
       = (TripAdvisorTool.clock st + tripAdvisorByPlaceTool.elapsed net [ev])%Z
    /\ tripAdvisorByPlaceTool.isSleep ev = false
    /\ (length (filter tripAdvisorByPlaceTool.isGeocodeFetch [ev]) <= 1)%nat.
Proof.
  cbn zeta. unfold TripAdvisorTool.geocodeAddressWithCache.
  destruct (TtlCache.cacheGet _ _ _) as [[cached|] c1].
  - eexists. cbn [snd TripAdvisorTool.trace TripAdvisorTool.clock].
    split; [reflexivity|]. cbn. repeat split; lia.
  - destruct (TripAdvisorTool.answer net _)
      as [message|[|] status [[|first rows]| |]];
      eexists; cbn [snd TripAdvisorTool.trace TripAdvisorTool.clock];
      (split; [reflexivity|]); cbn; repeat split; lia.
Qed.

(** X17.  The time the pin loop takes is the time of the events it
    adds: the latency of each request and 1100 ms for each pause, a
    cache hit costing nothing.  Every pause lasts 1100 ms, the loop
    makes at most one request for each item that has an address and no
    coordinates, and when it returns, each pin beyond those of the
    items with coordinates has cost exactly one pause. *)
Theorem X17_pin_loop_time_and_pauses
        (rt : Runtime) (env : NominatimService.Env)
        (net : TripAdvisorTool.Network) (center : TripAdvisorTool.Center)
        (items : list TAItem) (features : list Feature) (count : nat)
        (st : TripAdvisorTool.State) :
  let r := TripAdvisorTool.pinLoop rt env net center items features count st in
  exists evs,
    TripAdvisorTool.trace (snd r) = TripAdvisorTool.trace st ++ evs
    /\ TripAdvisorTool.clock (snd r)
       = (TripAdvisorTool.clock st + tripAdvisorByPlaceTool.elapsed net evs)%Z
    /\ Forall (fun e => tripAdvisorByPlaceTool.isSleep e = true ->
                        e = TripAdvisorTool.EvSleep 1100) evs
    /\ (length (filter tripAdvisorByPlaceTool.isGeocodeFetch evs)
        <= length (filter (fun i => negb (tripAdvisorByPlaceTool.offline rt i))
                          items))%nat
    /\ (forall fs,
           fst r = Returned fs ->
           length fs
           = (length features
              + length (flat_map (tripAdvisorByPlaceTool.ownPin rt) items)
              + length (filter tripAdvisorByPlaceTool.isSleep evs))%nat).
Proof.
  revert features count st.
  induction items as [|item items IH]; intros features count st; cbn zeta.
  - exists []. cbn. rewrite app_nil_r. repeat split; try lia; try constructor.
    intros fs H. injection H as <-. lia.
  - rewrite pinLoop_cons. cbn [flat_map filter].
    unfold tripAdvisorByPlaceTool.offline at 1,
           tripAdvisorByPlaceTool.ownPin at 1.
    destruct (tripAdvisorByPlaceTool.ownCoordinates rt item) as [[lng lat]|].
    + destruct (IH (features ++ [poiFeature item lng lat]) count st)
        as (evs & Ht & Hc & Hs & Hn & Hl).
      exists evs. cbn [negb]. repeat split; try assumption.
      intros fs H. rewrite (Hl fs H), !length_app. cbn [length]. lia.
    + destruct (negb (truthy_opt_string (itemAddress item))) eqn:Ea.
      * destruct (IH features count st) as (evs & Ht & Hc & Hs & Hn & Hl).
        exists evs. cbn [negb]. repeat split; try assumption.
      * cbn [negb length].
        destruct (@geocode_step
                    rt env net
                    (NominatimService.opt_default (itemAddress item) EmptyString)
                    (Some center) st) as (ev & Ht1 & Hc1 & Hs1 & Hn1).
        destruct (TripAdvisorTool.geocodeAddressWithCache rt env net _ _ st)
          as [[[v|]|] st1]; cbn [fst snd] in *.
        -- destruct (IH (features ++ [poiFeature item (TripAdvisorTool.cv_lng v)
                                                (TripAdvisorTool.cv_lat v)])
                        (S count) (TripAdvisorTool.sleep 1100 st1))
             as (evs & Ht & Hc & Hs & Hn & Hl).
           exists (ev :: TripAdvisorTool.EvSleep 1100 :: evs).
           cbn [TripAdvisorTool.sleep TripAdvisorTool.trace
                TripAdvisorTool.clock] in Ht, Hc.
           split; [rewrite Ht, Ht1, <- !app_assoc; reflexivity|].
           split.
           { rewrite Hc, Hc1,
               (elapsed_cons net ev (TripAdvisorTool.EvSleep 1100 :: evs)),
               (elapsed_cons net (TripAdvisorTool.EvSleep 1100) evs).
             rewrite elapsed_sleep. lia. }
           split.
           { constructor; [congruence|]. constructor; [reflexivity | exact Hs]. }
           split.
           { cbn [filter] in *.
             destruct (tripAdvisorByPlaceTool.isGeocodeFetch ev);
               cbn [length tripAdvisorByPlaceTool.isGeocodeFetch] in *; lia. }
           intros fs H. rewrite (Hl fs H), !length_app. cbn [filter].
           rewrite Hs1. cbn [tripAdvisorByPlaceTool.isSleep length]. lia.
        -- destruct (IH features count st1) as (evs & Ht & Hc & Hs & Hn & Hl).
           exists (ev :: evs).
           split; [rewrite Ht, Ht1, <- !app_assoc; reflexivity|].
           split.
           { rewrite Hc, Hc1, (elapsed_cons net ev evs). lia. }
           split.
           { constructor; [congruence | exact Hs]. }
           split.
           { cbn [filter] in *.
             destruct (tripAdvisorByPlaceTool.isGeocodeFetch ev);
               cbn [length] in *; lia. }
           intros fs H. rewrite (Hl fs H). cbn [filter app].
           rewrite Hs1. lia.
        -- exists [ev].
           split; [exact Ht1|]. split; [exact Hc1|].
           split; [constructor; [congruence | constructor]|].
           split; [lia|]. discriminate.
Qed.

(** ** The TripAdvisor tool: where the search is centred *)

Lemma firstOfFirst_no_coordinates (polys : list (list (list Position))) :
  concat (concat polys) = [] ->
  tripAdvisorByPlaceTool.firstOfFirst polys = None.
Proof.
  destruct polys as [|[|[|p ring] rings] polys]; try reflexivity.
  cbn. discriminate.
Qed.

(** When [geometryCentroid] has no answer, neither has the fallback to
    the first coordinate. *)
Lemma resolveCenter_without_centroid (g : Geometry) :
  TripAdvisorGeo.geometryCentroid g = None ->
  tripAdvisorByPlaceTool.resolveCenter (Some g)
  = match g with
    | Polygon [] => Thrown
    | _ => Returned None
    end.
Proof.
  intros Hc. pose proof (geometryCentroid_none_reads _ Hc) as Hempty.
  unfold tripAdvisorByPlaceTool.resolveCenter. rewrite Hc.
  destruct g as [p|pts|pts|lines|rings|polys|gs]; try reflexivity.
  - discriminate.
  - destruct rings as [|ring rings]; [reflexivity|].
    cbn [GeometryReads.coordinatesRead outer_ring] in Hempty. now subst ring.
  - cbn [GeometryReads.coordinatesRead] in Hempty.
    now rewrite (firstOfFirst_no_coordinates _ Hempty).
Qed.

Lemma resolveCenter_some (geom : option Geometry)
      (center : TripAdvisorTool.Center) :
  tripAdvisorByPlaceTool.resolveCenter geom = Returned (Some center) ->
  exists g,
    geom = Some g
    /\ TripAdvisorGeo.geometryCentroid g
       = Some (TripAdvisorTool.c_lng center, TripAdvisorTool.c_lat center).
Proof.
  destruct geom as [g|]; [|discriminate].
  destruct (TripAdvisorGeo.geometryCentroid g) as [[x y]|] eqn:Ec.
  - unfold tripAdvisorByPlaceTool.resolveCenter. rewrite Ec.
    intros H. injection H as <-. exists g. split; [reflexivity | exact Ec].
  - rewrite (resolveCenter_without_centroid _ Ec).
    destruct g as [| | | |[|]| |]; discriminate.
Qed.

(** X18.  For a geometry that conforms to the GeoJSON type (every
    position a pair of numbers) the TripAdvisor tool centres the search
    exactly when [geometryCentroid] answers, and at its answer.  When
    it does not answer, the first coordinate the fallback reads does
    not exist either, and the tool fails with "No usable coordinate",
    except for a Polygon without rings, on which reading the first
    coordinate throws.  (The fallback can supply a centre only for a
    malformed geometry on which [geometryCentroid] throws and catches;
    the [Geometry] type has none.) *)
Theorem X18_centre_of_a_geojson_geometry (g : Geometry) :
  (forall c,
      TripAdvisorGeo.geometryCentroid g = Some c ->
      tripAdvisorByPlaceTool.resolveCenter (Some g)
      = Returned (Some (TripAdvisorTool.mkCenter (fst c) (snd c))))
  /\ (TripAdvisorGeo.geometryCentroid g = None ->
      tripAdvisorByPlaceTool.resolveCenter (Some g)
      = match g with
        | Polygon [] => Thrown
        | _ => Returned None
        end)
  /\ (forall center,
        tripAdvisorByPlaceTool.resolveCenter (Some g) = Returned (Some center) ->
        TripAdvisorGeo.geometryCentroid g
        = Some (TripAdvisorTool.c_lng center, TripAdvisorTool.c_lat center)).
Proof.
  split; [|split].
  - intros c Hc. unfold tripAdvisorByPlaceTool.resolveCenter. now rewrite Hc.
  - apply resolveCenter_without_centroid.
  - intros center H. apply resolveCenter_some in H.
    destruct H as (g' & Hg & Hc). now injection Hg as <-.
Qed.

(** A Polygon whose outer ring is empty has no centre; a Polygon with no
    ring at all makes the tool throw. *)
Example resolveCenter_empty_polygons :
  tripAdvisorByPlaceTool.resolveCenter (Some (Polygon [[]])) = Returned None
  /\ tripAdvisorByPlaceTool.resolveCenter (Some (Polygon [])) = Thrown.
Proof. split; reflexivity. Qed.

(** ** The TripAdvisor tool: requests and result *)

(** X19.  The TripAdvisor tool checks its API key before anything
    else: without the key it fails at once, sends nothing to Nominatim
    or TripAdvisor and leaves the process state alone.  With the key it
    asks Nominatim for the place once, asks TripAdvisor at most once and
    only after the place has a centre, and touches neither the address
    cache nor the trace unless TripAdvisor has been asked. *)
Theorem X19_tripadvisor_requests
        (rt : Runtime) (env : NominatimService.Env) (apiKey : option string)
        (net : TripAdvisorTool.Network)
        (ta : tripAdvisorByPlaceTool.TripAdvisor)
        (input : tripAdvisorByPlaceTool.Input) (st : TripAdvisorTool.State) :
  let run := tripAdvisorByPlaceTool.execute rt env apiKey net ta input st in
  (truthy_opt_string apiKey = false ->
   run = tripAdvisorByPlaceTool.mkRun
           (Returned (NominatimTool.PlainError
                        "Missing TRIPADVISOR_API_KEY (server env var)"))
           st [] [])
  /\ (truthy_opt_string apiKey = true ->
      tripAdvisorByPlaceTool.placeRequests run
      = [NominatimTool.request
           rt env
           (NominatimTool.mkToolArgs (tripAdvisorByPlaceTool.place input)
                                     (Some 1) None)])
  /\ (length (tripAdvisorByPlaceTool.taRequests run) <= 1)%nat
  /\ (forall req,
        In req (tripAdvisorByPlaceTool.taRequests run) ->
        exists key center,
          apiKey = Some key
          /\ In ("key"%string, key) (tripAdvisorByPlaceTool.ta_params req)
          /\ req = tripAdvisorByPlaceTool.nearbyRequest rt key center input)
  /\ (tripAdvisorByPlaceTool.taRequests run = [] ->
      TripAdvisorTool.geocodeCache (tripAdvisorByPlaceTool.stateAfter run)
      = TripAdvisorTool.geocodeCache st
      /\ TripAdvisorTool.trace (tripAdvisorByPlaceTool.stateAfter run)
         = TripAdvisorTool.trace st).
Proof.
  cbn zeta. unfold tripAdvisorByPlaceTool.execute.
  destruct apiKey as [key|]; cbn [truthy_opt_string];
    [destruct (truthy_string key) eqn:Ek|]; cbn [negb];
    try (repeat split; solve [reflexivity | discriminate | cbn; lia
                             | intros; contradiction]).
  unfold NominatimTool.execute.
  destruct (TripAdvisorTool.answer net _) as [message|[|] status [rows| |]];
    cbn [features nominatimToFeatureCollection map];
    try (repeat split; solve [reflexivity | discriminate | cbn; lia
                             | intros; contradiction]).
  destruct rows as [|row rows]; cbn [map];
    try (repeat split; solve [reflexivity | discriminate | cbn; lia
                             | intros; contradiction]).
  destruct (tripAdvisorByPlaceTool.resolveCenter _) as [[center|]|];
    try (repeat split; solve [reflexivity | discriminate | cbn; lia
                             | intros; contradiction]).
  assert (Hreq : forall req,
             In req [tripAdvisorByPlaceTool.nearbyRequest
                       rt (NominatimService.opt_default (Some key) EmptyString)
                       center input] ->
             exists key0 center0,
               Some key = Some key0
               /\ In ("key"%string, key0) (tripAdvisorByPlaceTool.ta_params req)
               /\ req = tripAdvisorByPlaceTool.nearbyRequest rt key0 center0 input).
  { intros req [<-|[]]. exists key, center. cbn. auto. }
  destruct (tripAdvisorByPlaceTool.nearby ta _) as [|[|] status' [json|]];
    try (repeat split;
         solve [reflexivity | discriminate | cbn; lia | exact Hreq]).
  destruct (tripAdvisorByPlaceTool.itemsOf json) as [items|];
    try (repeat split;
         solve [reflexivity | discriminate | cbn; lia | exact Hreq]).
  destruct (TripAdvisorTool.buildPins rt env net _ center items _)
    as [[fc|] st3];
    repeat split;
    solve [reflexivity | discriminate | cbn; lia | exact Hreq].
Qed.

Lemma X19_witness :
  tripAdvisorByPlaceTool.execute Examples.rt0 Examples.env0 None
    Examples.netFound TripExamples.taOneStall TripExamples.hotelsNear
    Examples.state0
  = tripAdvisorByPlaceTool.mkRun
      (Returned (NominatimTool.PlainError
                   "Missing TRIPADVISOR_API_KEY (server env var)"))
      Examples.state0 [] [].
Proof.
  apply (@X19_tripadvisor_requests
           Examples.rt0 Examples.env0 None Examples.netFound
           TripExamples.taOneStall TripExamples.hotelsNear Examples.state0).
  reflexivity.
Defined.

Lemma pinLoop_pins
      (rt : Runtime) (env : NominatimService.Env)
      (net : TripAdvisorTool.Network) (center : TripAdvisorTool.Center)
      (items : list TAItem) :
  forall (features : list Feature) (count : nat) (st : TripAdvisorTool.State)
         (fs : list Feature),
    fst (TripAdvisorTool.pinLoop rt env net center items features count st)
    = Returned fs ->
    exists pins,
      fs = features ++ pins
      /\ Forall (fun f => exists item lng lat, f = poiFeature item lng lat) pins.
Proof.
  induction items as [|item items IH]; intros features count st fs.
  - cbn. intros H. injection H as <-. exists []. now rewrite app_nil_r.
  - rewrite pinLoop_cons.
    assert (Hpin : forall lng lat count' st',
               fst (TripAdvisorTool.pinLoop
                      rt env net center items
                      (features ++ [poiFeature item lng lat]) count' st')
               = Returned fs ->
               exists pins,
                 fs = features ++ pins
                 /\ Forall (fun f => exists item lng lat,
                                f = poiFeature item lng lat) pins).
    { intros lng lat count' st' H. apply IH in H.
      destruct H as (pins & -> & Hp).
      exists (poiFeature item lng lat :: pins).
      rewrite <- app_assoc. split; [reflexivity|].
      constructor; [eauto | exact Hp]. }
    destruct (tripAdvisorByPlaceTool.ownCoordinates rt item) as [[lng lat]|];
      [apply Hpin|].
    destruct (negb (truthy_opt_string (itemAddress item))); [apply IH|].
    destruct (TripAdvisorTool.geocodeAddressWithCache rt env net _ _ st)
      as [[[v|]|] st1]; [apply Hpin | apply IH | discriminate].
Qed.

(** X20.  When the TripAdvisor tool succeeds, Nominatim has answered
    the request for the place with at least one row, the first feature
    it returns is a Point at the centroid that [geometryCentroid]
    computes from the geometry of that row, named after the place asked
    for and marked as the search centre, and every feature after it is
    a TripAdvisor pin. *)
Theorem X20_tripadvisor_success
        (rt : Runtime) (env : NominatimService.Env) (apiKey : option string)
        (net : TripAdvisorTool.Network)
        (ta : tripAdvisorByPlaceTool.TripAdvisor)
        (input : tripAdvisorByPlaceTool.Input) (st : TripAdvisorTool.State)
        (fc : FeatureCollection) :
  tripAdvisorByPlaceTool.result
    (tripAdvisorByPlaceTool.execute rt env apiKey net ta input st)
  = Returned (NominatimTool.PlainOk fc) ->
  exists (status : Z) (row : NominatimRow) (rows : list NominatimRow)
         (g : Geometry) (c : Position) (pins : list Feature),
    TripAdvisorTool.answer net
      (NominatimTool.request
         rt env
         (NominatimTool.mkToolArgs (tripAdvisorByPlaceTool.place input)
                                   (Some 1) None))
    = NominatimService.Response true status
        (NominatimService.BodyRows (row :: rows))
    /\ geometry (nominatimFeature rt row) = Some g
    /\ TripAdvisorGeo.geometryCentroid g = Some c
    /\ features fc
       = mkFeature [("source", JString "nominatim");
                    ("name", JString (tripAdvisorByPlaceTool.place input));
                    ("category", JString "search-center")]%string
                   (Some (Point c))
           :: pins
    /\ Forall (fun f => exists item lng lat, f = poiFeature item lng lat) pins.
Proof.
  unfold tripAdvisorByPlaceTool.execute.
  destruct (negb (truthy_opt_string apiKey)); [discriminate|].
  unfold NominatimTool.execute.
  destruct (TripAdvisorTool.answer net _) as [message|[|] status [rows| |]];
    cbn [features nominatimToFeatureCollection map]; try discriminate.
  destruct rows as [|row rows]; cbn [map]; try discriminate.
  destruct (tripAdvisorByPlaceTool.resolveCenter _) as [[center|]|] eqn:Er;
    try discriminate.
  apply resolveCenter_some in Er. destruct Er as (g & Hg & Hc).
  destruct (tripAdvisorByPlaceTool.nearby ta _) as [|[|] status' [json|]];
    try discriminate.
  destruct (tripAdvisorByPlaceTool.itemsOf json) as [items|]; try discriminate.
  unfold TripAdvisorTool.buildPins.
  destruct (TripAdvisorTool.pinLoop rt env net center items _ 0 _)
    as [[fs|] st3] eqn:Ep; try discriminate.
  cbn [tripAdvisorByPlaceTool.result]. intros H. injection H as <-.
  apply (f_equal fst) in Ep. cbn [fst] in Ep. apply pinLoop_pins in Ep.
  destruct Ep as (pins & -> & Hp).
  exists status, row, rows, g,
         (TripAdvisorTool.c_lng center, TripAdvisorTool.c_lat center), pins.
  split; [reflexivity|]. split; [exact Hg|]. split; [exact Hc|].
  split; [reflexivity | exact Hp].
Qed.

Lemma X20_witness :
  exists (status : Z) (row : NominatimRow) (rows : list NominatimRow)
         (g : Geometry) (c : Position) (pins : list Feature),
    TripAdvisorTool.answer Examples.netFound
      (NominatimTool.request
         Examples.rt0 Examples.env0
         (NominatimTool.mkToolArgs "Jurong Point" (Some 1) None))
    = NominatimService.Response true status
        (NominatimService.BodyRows (row :: rows))
    /\ geometry (nominatimFeature Examples.rt0 row) = Some g
    /\ TripAdvisorGeo.geometryCentroid g = Some c
    /\ [mkFeature [("source", JString "nominatim");
                   ("name", JString "Jurong Point");
                   ("category", JString "search-center")]%string
                  (Some (Point (0, 0)));
        poiFeature (Examples.stall "A" "1 Jurong West") 0 0]
       = mkFeature [("source", JString "nominatim");
                    ("name", JString "Jurong Point");
                    ("category", JString "search-center")]%string
                   (Some (Point c))
           :: pins
    /\ Forall (fun f => exists item lng lat, f = poiFeature item lng lat) pins.
Proof.
  apply (@X20_tripadvisor_success
           Examples.rt0 Examples.env0 (Some "ta-key"%string) Examples.netFound
           TripExamples.taOneStall TripExamples.hotelsNear Examples.state0
           (mkFC [mkFeature [("source", JString "nominatim");
                             ("name", JString "Jurong Point");
                             ("category", JString "search-center")]%string
                            (Some (Point (0, 0)));
                  poiFeature (Examples.stall "A" "1 Jurong West") 0 0])).
  reflexivity.
Defined.

(** ** The map: the coordinates the view is fitted to *)

Lemma fold_app_concat (A : Type) (ls : list (list A)) :
  forall acc : list A,
    fold_left (fun pts l => pts ++ l) ls acc = acc ++ concat ls.
Proof.
  induction ls as [|l ls IH]; intros acc; cbn [fold_left concat].
  - now rewrite app_nil_r.
  - now rewrite IH, app_assoc.
Qed.

Lemma fold_fold_concat (A : Type) (lss : list (list (list A))) :
  forall acc : list A,
    fold_left (fun pts ls => fold_left (fun pts l => pts ++ l) ls pts) lss acc
    = acc ++ concat (concat lss).
Proof.
  induction lss as [|ls lss IH]; intros acc; cbn [fold_left concat].
  - now rewrite app_nil_r.
  - now rewrite IH, fold_app_concat, concat_app, app_assoc.
Qed.

Lemma coordsOf_all (g : Geometry) :
  MapCreator.coordsOf g
  = match g with
    | Polygon rings => concat rings
    | _ => GeometryReads.coordinatesRead g
    end.
Proof.
  destruct g; cbn [MapCreator.coordsOf GeometryReads.coordinatesRead];
    try reflexivity.
  - apply (fold_app_concat _ []).
  - apply (fold_app_concat _ []).
  - apply (fold_fold_concat _ []).
Qed.

Lemma collectCoords_fold (fs : list Feature) :
  forall acc : list Position,
    fold_left
      (fun pts f =>
         match geometry f with
         | None => pts
         | Some g => pts ++ MapCreator.coordsOf g
         end)
      fs acc
    = acc ++ flat_map MapCreator.featureCoords fs.
Proof.
  induction fs as [|f fs IH]; intros acc; cbn [fold_left flat_map].
  - now rewrite app_nil_r.
  - rewrite IH. unfold MapCreator.featureCoords at 2.
    destruct (geometry f); [now rewrite app_assoc | reflexivity].
Qed.

Lemma collectCoords_flat_map (fc : FeatureCollection) :
  MapCreator.collectCoords fc
  = flat_map MapCreator.featureCoords (features fc).
Proof. unfold MapCreator.collectCoords. apply (collectCoords_fold _ []). Qed.

Lemma coordsOf_reads (g : Geometry) :
  incl (GeometryReads.coordinatesRead g) (MapCreator.coordsOf g).
Proof.
  rewrite coordsOf_all. destruct g as [| | | |rings| |]; try apply incl_refl.
  destruct rings as [|outer rings]; cbn [GeometryReads.coordinatesRead outer_ring concat].
  - apply incl_refl.
  - apply incl_appl, incl_refl.
Qed.

Lemma geometryCentroid_has_coords (g : Geometry) :
  TripAdvisorGeo.geometryCentroid g <> None -> MapCreator.coordsOf g <> [].
Proof.
  intros Hc He. apply Hc. apply geometryCentroid_reads_none.
  pose proof (coordsOf_reads g) as Hincl. rewrite He in Hincl.
  destruct (GeometryReads.coordinatesRead g) as [|p l]; [reflexivity|].
  destruct (Hincl p (or_introl eq_refl)).
Qed.

Lemma centroid_has_coords (g : Geometry) :
  ChainedGeo.centroid (Some g) <> None -> MapCreator.coordsOf g <> [].
Proof.
  rewrite coordsOf_all.
  destruct g as [p|pts|pts|lines|rings|polys|gs];
    cbn [GeometryReads.coordinatesRead].
  - discriminate.
  - cbn. congruence.
  - cbn. congruence.
  - cbn. congruence.
  - intros Hc He. apply Hc.
    destruct rings as [|[|p ring] rings]; [reflexivity | reflexivity |].
    cbn in He. discriminate.
  - intros Hc He. apply Hc. cbn [ChainedGeo.centroid].
    rewrite chained_mp_fold, (members_no_coordinates _ _ He).
    cbn [map sum sl_a shoelace0].
    assert (H0 : eqb (0 + two * 0) 0 = true) by reflexivity.
    rewrite H0.
    destruct polys as [|[|[|p ring] rs] polys]; try reflexivity.
    cbn in He. discriminate.
  - cbn. congruence.
Qed.

(** X21.  [collectCoords] gathers the coordinates of a collection
    feature by feature, in order: a feature without geometry or with a
    GeometryCollection adds none, a Polygon adds the points of all its
    rings, a MultiPolygon those of all rings of all members.  Every
    coordinate a centroid is drawn from is among them, so a geometry
    for which either centroid function has an answer gives the view
    something to fit. *)
Theorem X21_collectCoords_gathers_every_coordinate
        (fs1 fs2 : list Feature) (f : Feature) (g : Geometry) :
  MapCreator.collectCoords (mkFC (fs1 ++ fs2))
  = MapCreator.collectCoords (mkFC fs1) ++ MapCreator.collectCoords (mkFC fs2)
  /\ MapCreator.collectCoords (mkFC [f])
     = match geometry f with
       | None => []
       | Some g => MapCreator.coordsOf g
       end
  /\ MapCreator.coordsOf g
     = match g with
       | Point c => [c]
       | MultiPoint pts => pts
       | LineString pts => pts
       | MultiLineString lines => concat lines
       | Polygon rings => concat rings
       | MultiPolygon polys => concat (concat polys)
       | GeometryCollection _ => []
       end
  /\ incl (GeometryReads.coordinatesRead g) (MapCreator.coordsOf g)
  /\ (TripAdvisorGeo.geometryCentroid g <> None -> MapCreator.coordsOf g <> [])
  /\ (ChainedGeo.centroid (Some g) <> None -> MapCreator.coordsOf g <> []).
Proof.
  split; [|split; [|split; [|split; [|split]]]].
  - rewrite !collectCoords_flat_map. cbn [features]. apply flat_map_app.
  - rewrite collectCoords_flat_map. cbn [features flat_map].
    unfold MapCreator.featureCoords. now rewrite app_nil_r.
  - rewrite coordsOf_all. now destruct g.
  - apply coordsOf_reads.
  - apply geometryCentroid_has_coords.
  - apply centroid_has_coords.
Qed.

(** ** The map: search centre, recommendations and markers *)

Lemma separate_fold (fs : list Feature) :
  forall acc : list Feature * list Feature,
    fold_left
      (fun acc f =>
         if MapCreator.isSearchCenter f then (fst acc ++ [f], snd acc)
         else (fst acc, snd acc ++ [f]))
      fs acc
    = (fst acc ++ filter MapCreator.isSearchCenter fs,
       snd acc ++ filter (fun f => negb (MapCreator.isSearchCenter f)) fs).
Proof.
  induction fs as [|f fs IH]; intros [sc recs]; cbn [fold_left filter fst snd].
  - now rewrite !app_nil_r.
  - rewrite IH. destruct (MapCreator.isSearchCenter f); cbn [fst snd negb];
      now rewrite <- app_assoc.
Qed.

Lemma separate_filters (fs : list Feature) :
  MapCreator.separate fs
  = (filter MapCreator.isSearchCenter fs,
     filter (fun f => negb (MapCreator.isSearchCenter f)) fs).
Proof. unfold MapCreator.separate. apply (separate_fold fs ([], [])). Qed.

Lemma markerLoop_leading (lib : MapCreator.MapLibrary) (recs : list Feature) :
  forall acc : list MapCreator.Marker,
    MapCreator.markerLoop lib recs acc
    = (acc ++ flat_map MapCreator.markerOf (MapCreator.leading lib recs),
       negb (forallb (MapCreator.markable lib) recs)).
Proof.
  induction recs as [|f recs IH]; intros acc.
  - cbn. now rewrite app_nil_r.
  - cbn [MapCreator.markerLoop MapCreator.leading forallb].
    unfold MapCreator.markable at 1 2.
    destruct (geometry f) as [[c| | | | | |]|] eqn:Eg;
      try (cbn; now rewrite app_nil_r).
    destruct (MapCreator.acceptsLngLat lib c) eqn:Ea;
      [|destruct (Js.get "categories" (properties f));
        cbn; now rewrite app_nil_r].
    destruct (Js.get "categories" (properties f)) eqn:Ec;
      try (cbn; now rewrite app_nil_r).
    rewrite IH. cbn [flat_map andb]. unfold MapCreator.markerOf at 2.
    rewrite Eg, Ec. now rewrite <- app_assoc.
Qed.

Lemma leading_markable (lib : MapCreator.MapLibrary) (recs : list Feature) :
  forallb (MapCreator.markable lib) recs = true ->
  MapCreator.leading lib recs = recs
  /\ length (flat_map MapCreator.markerOf recs) = length recs.
Proof.
  induction recs as [|f recs IH]; [split; reflexivity|].
  cbn [forallb MapCreator.leading flat_map]. intros H.
  apply andb_true_iff in H. destruct H as [Hf Hr].
  rewrite Hf. destruct (IH Hr) as [IH1 IH2]. rewrite IH1. split; [reflexivity|].
  rewrite length_app, IH2. cbn [length].
  unfold MapCreator.markable in Hf. unfold MapCreator.markerOf.
  destruct (geometry f) as [[c| | | | | |]|]; try discriminate.
  destruct (Js.get "categories" (properties f)); try discriminate.
  reflexivity.
Qed.

(** X22.  [markFSQResults] puts the features whose [source] is
    "nominatim" into the search-result layer and all others into the
    recommendation layer, each in the order of the collection.  A
    recommendation can be marked when it is a Point that maplibre
    accepts as a longitude/latitude pair and its [categories] is an
    array.  The handler sets one marker for each recommendation up to
    the first that cannot be marked, where it throws; when all can be
    marked it goes on to fit the view to the coordinates of the
    collection, which throws if maplibre rejects one of them.  So it
    completes exactly when every recommendation can be marked and every
    coordinate is accepted.  A feature of the Foursquare normaliser can
    be marked when its coordinates are accepted; TripAdvisor pins and
    the features of the Nominatim normaliser, which have no
    [categories], cannot. *)
Theorem X22_markFSQResults_layers_and_markers
        (lib : MapCreator.MapLibrary)
        (v : MapCreator.View) (fc : FeatureCollection)
        (rt : Runtime) (r : FsqRow) (loc : FsqLocation) (lng lat : Qc)
        (item : TAItem) (row : NominatimRow) :
  let recs := filter (fun f => negb (MapCreator.isSearchCenter f)) (features fc) in
  let marked := forallb (MapCreator.markable lib) recs in
  MapCreator.markFSQResults lib v fc
  = (MapCreator.mkView
       (filter MapCreator.isSearchCenter (features fc))
       recs
       (flat_map MapCreator.markerOf (MapCreator.leading lib recs))
       (if marked && MapCreator.accepted lib fc
        then match MapCreator.collectCoords fc with
             | [] => MapCreator.fitted v
             | coords => Some coords
             end
        else MapCreator.fitted v),
     negb (marked && MapCreator.accepted lib fc))
  /\ (marked = true ->
      MapCreator.leading lib recs = recs
      /\ length (flat_map MapCreator.markerOf recs) = length recs)
  /\ MapCreator.markable lib (fsqFeature r loc lng lat)
     = MapCreator.acceptsLngLat lib (lng, lat)
  /\ MapCreator.markable lib (poiFeature item lng lat) = false
  /\ MapCreator.markable lib (nominatimFeature rt row) = false.
Proof.
  cbn zeta. split; [|split; [|repeat split]].
  - unfold MapCreator.markFSQResults.
    rewrite separate_filters, markerLoop_leading. cbn [app].
    destruct (forallb (MapCreator.markable lib) _); cbn [negb andb];
      [|reflexivity].
    unfold MapCreator.fitBounds, MapCreator.accepted.
    destruct (MapCreator.collectCoords fc) as [|p coords]; [reflexivity|].
    now destruct (forallb (MapCreator.acceptsLngLat lib) (p :: coords)).
  - apply leading_markable.
  - unfold MapCreator.markable. cbn.
    destruct (geojson row) as [[| | | | | |]|]; reflexivity.
Qed.

(** With a library that accepts the latitudes from -90 to 90: the cafe
    of the examples is marked; with a cafe at latitude 91 after it the
    handler sets the first marker and throws. *)
Lemma X22_witness :
  let recs := filter (fun f => negb (MapCreator.isSearchCenter f))
                     (features Examples.answer0) in
  (MapCreator.leading MapCreator.latitudes recs = recs
   /\ length (flat_map MapCreator.markerOf recs) = length recs)
  /\ snd (MapCreator.markFSQResults
            MapCreator.latitudes (MapCreator.mkView [] [] [] None)
            Examples.answer0) = false
  /\ MapCreator.markFSQResults
       MapCreator.latitudes (MapCreator.mkView [] [] [] None)
       (mkFC (features Examples.answer0
              ++ [fsqFeature Examples.cafe
                             (mkFsqLocation (JString "1 Jurong West"))
                             two (of_Z 91)]))
     = (MapCreator.mkView
          [foursquareByPlaceTool.searchCenter "Jurong Point"
                                              (Some Examples.triangle)]
          [fsqFeature Examples.cafe (mkFsqLocation (JString "1 Jurong West"))
                      two 1;
           fsqFeature Examples.cafe (mkFsqLocation (JString "1 Jurong West"))
                      two (of_Z 91)]
          (MapCreator.markerOf
             (fsqFeature Examples.cafe
                         (mkFsqLocation (JString "1 Jurong West")) two 1))
          None,
        true).
Proof.
  cbv zeta.
  destruct (@X22_markFSQResults_layers_and_markers
              MapCreator.latitudes
              (MapCreator.mkView [] [] [] None) Examples.answer0 Examples.rt0
              Examples.cafe (mkFsqLocation (JString "1 Jurong West")) two 1
              (Examples.stall "A" "1 Jurong West") Examples.pointRow)
    as (H0 & H & _).
  destruct (@X22_markFSQResults_layers_and_markers
              MapCreator.latitudes
              (MapCreator.mkView [] [] [] None)
              (mkFC (features Examples.answer0
                     ++ [fsqFeature Examples.cafe
                                    (mkFsqLocation (JString "1 Jurong West"))
                                    two (of_Z 91)]))
              Examples.rt0
              Examples.cafe (mkFsqLocation (JString "1 Jurong West")) two 1
              (Examples.stall "A" "1 Jurong West") Examples.pointRow)
    as (H1 & _).
  split; [apply H; reflexivity|].
  split; [rewrite H0; reflexivity|].
  rewrite H1. reflexivity.
Defined.

Lemma fsq_features_are_recommendations
      (lib : MapCreator.MapLibrary) (fs : list Feature) :
  Forall (fun f => exists r loc lng lat, f = fsqFeature r loc lng lat) fs ->
  filter MapCreator.isSearchCenter fs = []
  /\ filter (fun f => negb (MapCreator.isSearchCenter f)) fs = fs
  /\ forallb (MapCreator.markable lib) fs
     = forallb (MapCreator.acceptsLngLat lib)
               (flat_map MapCreator.featureCoords fs)
  /\ flat_map MapCreator.featureCoords fs
     = map MapCreator.lngLat (flat_map MapCreator.markerOf fs).
Proof.
  induction 1 as [|f fs (r & loc & lng & lat & ->) _ (IH1 & IH2 & IH3 & IH4)].
  - repeat split.
  - cbn [filter forallb flat_map].
    change (MapCreator.isSearchCenter (fsqFeature r loc lng lat)) with false.
    change (MapCreator.markable lib (fsqFeature r loc lng lat))
      with (MapCreator.acceptsLngLat lib (lng, lat)).
    change (MapCreator.featureCoords (fsqFeature r loc lng lat))
      with [(lng, lat)].
    cbn [negb app forallb]. rewrite IH1, IH2, IH3, IH4.
    repeat split; rewrite ?map_app; reflexivity.
Qed.

(** X23.  A successful result of the chained resolver reaches
    [markFSQResults].  The handler completes on it when maplibre
    accepts every coordinate of the result as a longitude/latitude pair
    (it rejects NaN and latitudes outside [-90, 90]), and throws
    otherwise.  When it completes, the search-result layer holds the
    search-centre feature alone, with the geometry of the place as
    resolved, the recommendation layer holds the POIs, there is one
    marker for each POI, at its coordinates and in order, and the view
    is fitted to the coordinates of the place followed by those of the
    POIs, of which there is at least one. *)
Theorem X23_chained_result_on_the_map
        (lib : MapCreator.MapLibrary)
        (rt : Runtime) (env : NominatimService.Env)
        (w : NominatimService.World)
        (placeSearch : FoursquareService.FsqParams ->
                       FoursquareService.PlaceSearchOutcome)
        (input : foursquareByPlaceTool.Input) (cache : NominatimService.Cache)
        (fc : FeatureCollection) (src : Provenance) (v : MapCreator.View) :
  foursquareByPlaceTool.result
    (foursquareByPlaceTool.execute rt env w placeSearch input cache)
  = Returned (Ok fc src) ->
  exists (g : Geometry) (pois : list Feature) (ms : list MapCreator.Marker),
    features fc
    = foursquareByPlaceTool.searchCenter (foursquareByPlaceTool.place input)
                                         (Some g)
        :: pois
    /\ MapCreator.dispatch (Ok fc src) = Some (MapCreator.FsqToolComplete fc)
    /\ snd (MapCreator.render lib v (Ok fc src))
       = negb (MapCreator.accepted lib fc)
    /\ (MapCreator.accepted lib fc = true ->
        MapCreator.render lib v (Ok fc src)
        = (MapCreator.mkView
             [foursquareByPlaceTool.searchCenter
                (foursquareByPlaceTool.place input) (Some g)]
             pois ms
             (Some (MapCreator.coordsOf g ++ map MapCreator.lngLat ms)),
           false))
    /\ length ms = length pois
    /\ map MapCreator.lngLat ms = flat_map MapCreator.featureCoords pois
    /\ MapCreator.collectCoords fc
       = MapCreator.coordsOf g ++ flat_map MapCreator.featureCoords pois
    /\ MapCreator.coordsOf g <> [].
Proof.
  intros H. apply execute_success in H.
  destruct H as (nfc & nsrc & first & rest & g & c & results & normalized
                 & _ & _ & _ & Hc & _ & Hn & -> & ->).
  set (pois := features (foursquareByPlaceTool.filterByRating
                           rt (foursquareByPlaceTool.minRating input) normalized)).
  assert (Hp : Forall (fun f => exists r loc lng lat, f = fsqFeature r loc lng lat)
                      pois).
  { apply filterByRating_Forall.
    apply (fsqResultsToGeoJSON_Forall
             (fun f => exists r loc lng lat, f = fsqFeature r loc lng lat))
      with (results := results); [|exact Hn].
    intros; eauto. }
  destruct (fsq_features_are_recommendations lib Hp) as (H1 & H2 & H3 & H4).
  assert (Hg : MapCreator.coordsOf g <> []).
  { apply centroid_has_coords. rewrite Hc. discriminate. }
  set (sc := foursquareByPlaceTool.searchCenter
               (foursquareByPlaceTool.place input) (Some g)).
  assert (Hcoords : MapCreator.collectCoords (mkFC (sc :: pois))
                    = MapCreator.coordsOf g
                      ++ flat_map MapCreator.featureCoords pois).
  { rewrite collectCoords_flat_map. reflexivity. }
  assert (Hacc : MapCreator.accepted lib (mkFC (sc :: pois))
                 = forallb (MapCreator.acceptsLngLat lib) (MapCreator.coordsOf g)
                   && forallb (MapCreator.markable lib) pois).
  { unfold MapCreator.accepted. rewrite Hcoords, forallb_app. now rewrite H3. }
  assert (Hrun : MapCreator.render lib v (Ok (mkFC (sc :: pois)) SrcFsq)
                 = (MapCreator.mkView
                      [sc] pois
                      (flat_map MapCreator.markerOf (MapCreator.leading lib pois))
                      (if forallb (MapCreator.markable lib) pois
                          && MapCreator.accepted lib (mkFC (sc :: pois))
                       then Some (MapCreator.coordsOf g
                                  ++ flat_map MapCreator.featureCoords pois)
                       else MapCreator.fitted v),
                    negb (forallb (MapCreator.markable lib) pois
                          && MapCreator.accepted lib (mkFC (sc :: pois))))).
  { unfold MapCreator.render. cbn [MapCreator.dispatch].
    unfold MapCreator.markFSQResults.
    rewrite separate_filters, markerLoop_leading. cbn [features filter app].
    change (MapCreator.isSearchCenter sc) with true.
    cbn [negb]. rewrite H1, H2.
    destruct (forallb (MapCreator.markable lib) pois); cbn [negb andb];
      [|reflexivity].
    unfold MapCreator.fitBounds, MapCreator.accepted. rewrite Hcoords.
    destruct (MapCreator.coordsOf g ++ flat_map MapCreator.featureCoords pois)
      as [|p l] eqn:E.
    - exfalso. apply app_eq_nil in E. now apply Hg.
    - now destruct (forallb (MapCreator.acceptsLngLat lib) (p :: l)). }
  exists g, pois, (flat_map MapCreator.markerOf pois).
  split; [reflexivity|]. split; [reflexivity|].
  split; [|split; [|split; [|split; [symmetry; exact H4|split; [exact Hcoords | exact Hg]]]]].
  - rewrite Hrun. cbn [snd]. rewrite Hacc.
    now destruct (forallb (MapCreator.acceptsLngLat lib) (MapCreator.coordsOf g)),
                 (forallb (MapCreator.markable lib) pois).
  - intros Ha. rewrite Hrun, Ha.
    rewrite Hacc in Ha. apply andb_true_iff in Ha. destruct Ha as [_ Hm].
    rewrite Hm. cbn [andb negb].
    destruct (leading_markable _ _ Hm) as [Hl _]. rewrite Hl, H4.
    reflexivity.
  - rewrite H3 in *.
    clear Hrun Hacc. 
    assert (Hlen : forall fs,
               Forall (fun f => exists r loc lng lat, f = fsqFeature r loc lng lat) fs ->
               length (flat_map MapCreator.markerOf fs) = length fs).
    { induction 1 as [|f fs (r & loc & lng & lat & ->) _ IH]; [reflexivity|].
      cbn [flat_map]. rewrite length_app, IH. reflexivity. }
    now apply Hlen.
Qed.

Lemma X23_witness :
  exists (g : Geometry) (pois : list Feature) (ms : list MapCreator.Marker),
    features Examples.answer0
    = foursquareByPlaceTool.searchCenter "Jurong Point" (Some g) :: pois
    /\ MapCreator.render MapCreator.latitudes (MapCreator.mkView [] [] [] None)
                         (Ok Examples.answer0 SrcFsq)
       = (MapCreator.mkView
            [foursquareByPlaceTool.searchCenter "Jurong Point" (Some g)]
            pois ms
            (Some (MapCreator.coordsOf g ++ map MapCreator.lngLat ms)),
          false)
    /\ length ms = length pois.
Proof.
  destruct (@X23_chained_result_on_the_map
              MapCreator.latitudes
              Examples.rt0 Examples.env0 Examples.world0 Examples.placeSearch0
              Examples.input0 [] Examples.answer0 SrcFsq
              (MapCreator.mkView [] [] [] None) eq_refl)
    as (g & pois & ms & H1 & _ & _ & H4 & H5 & _).
  exists g, pois, ms. split; [exact H1|]. split; [|exact H5].
  apply H4. reflexivity.
Defined.

(** ** The two centroid functions, side by side *)

Lemma centroid_reads (g : Geometry) :
  ChainedGeo.centroid (Some g) <> None -> GeometryReads.coordinatesRead g <> [].
Proof.
  destruct g as [p|pts|pts|lines|rings|polys|gs];
    cbn [GeometryReads.coordinatesRead].
  - discriminate.
  - cbn. congruence.
  - cbn. congruence.
  - cbn. congruence.
  - intros Hc He. apply Hc.
    destruct rings as [|outer rings]; [reflexivity|].
    cbn [outer_ring] in He. subst outer. reflexivity.
  - intros Hc. pose proof (@centroid_has_coords _ Hc) as H.
    now rewrite coordsOf_all in H.
  - cbn. congruence.
Qed.

(** X24.  Wherever [centroid] of the chained resolver has an answer,
    [geometryCentroid] of the TripAdvisor tool has one too; on a Point
    both answer the point itself.  The converse fails: for a line with
    at least one coordinate only [geometryCentroid] answers. *)
Theorem X24_geometryCentroid_answers_where_centroid_does (g : Geometry) :
  (ChainedGeo.centroid (Some g) <> None ->
   TripAdvisorGeo.geometryCentroid g <> None)
  /\ (forall p, g = Point p ->
                ChainedGeo.centroid (Some g) = Some p
                /\ TripAdvisorGeo.geometryCentroid g = Some p)
  /\ (GeometryReads.lineLike g = true ->
      GeometryReads.coordinatesRead g <> [] ->
      ChainedGeo.centroid (Some g) = None
      /\ TripAdvisorGeo.geometryCentroid g <> None).
Proof.
  split; [|split].
  - intros Hc Hn. apply (@centroid_reads _ Hc).
    now apply geometryCentroid_none_reads.
  - intros p ->. split; reflexivity.
  - intros Hl Hne. split; [now apply centroid_lineLike|].
    intros Hn. apply Hne. now apply geometryCentroid_none_reads.
Qed.

Lemma X24_witness :
  TripAdvisorGeo.geometryCentroid Examples.triangle <> None
  /\ ChainedGeo.centroid (Some MoreExamples.road) = None
  /\ TripAdvisorGeo.geometryCentroid MoreExamples.road <> None.
Proof.
  split.
  - destruct (X24_geometryCentroid_answers_where_centroid_does
                Examples.triangle) as [H1 _].
    apply H1. intros H. vm_compute in H. discriminate H.
  - destruct (X24_geometryCentroid_answers_where_centroid_does
                MoreExamples.road) as (_ & _ & H3).
    apply H3.
    + reflexivity.
    + intros H. vm_compute in H. discriminate H.
Defined.

(** ** Overwriting at capacity *)

(** X25.  [cacheSet] decides on eviction before it looks whether the
    key is present: overwriting a key of a full cache still drops the
    oldest entry, so the cache ends one entry below capacity although
    nothing was added; the overwritten key keeps its new value. *)
Theorem X25_overwrite_at_capacity_evicts
        (V : Type) (CACHE_MAX : nat) (c : TtlCache.Cache V)
        (first : string) (e : TtlCache.CacheEntry V)
        (rest : TtlCache.Cache V)
        (now : Z) (k : string) (v : V) (ttl : Z) :
  (1 <= CACHE_MAX)%nat ->
  TtlCache.bounded CACHE_MAX c ->
  c = (first, e) :: rest ->
  JsMap.size c = CACHE_MAX ->
  JsMap.get k c <> None ->
  k <> first ->
  let c' := TtlCache.cacheSet CACHE_MAX now k v ttl c in
  JsMap.size c' = (CACHE_MAX - 1)%nat
  /\ JsMap.get first c' = None
  /\ JsMap.get k c' = Some (TtlCache.mkEntry v (now + ttl)%Z).
Proof.
  intros Hmax (b & t & Hinv) Hc Hsize Hk Hne. cbn zeta. subst c.
  assert (Hfull : (CACHE_MAX <= JsMap.size ((first, e) :: rest))%nat) by lia.
  destruct (victim_full Hmax Hinv Hfull) as (f & e' & rest' & Hc' & Hv & Hd).
  cbn [TtlCache.cache] in Hc', Hv, Hd.
  injection Hc' as Hf He Hr. rewrite <- Hf, <- Hr in *. clear Hf He Hr.
  pose proof (TtlCache.inv_nodup Hinv) as Hnd.
  cbn [TtlCache.cache JsMap.keys map fst] in Hnd.
  apply NoDup_cons_iff in Hnd. destruct Hnd as [Hnotin _].
  assert (Hkr : JsMap.get k rest <> None).
  { cbn [JsMap.get] in Hk. apply String.eqb_neq in Hne. now rewrite Hne in Hk. }
  unfold TtlCache.cacheSet. rewrite Hv, Hd.
  split; [|split].
  - rewrite jsmap_size_keys, jsmap_keys_set.
    destruct (JsMap.get k rest); [|congruence].
    rewrite <- jsmap_size_keys. unfold JsMap.size in *. cbn [length] in Hsize.
    lia.
  - rewrite jsmap_get_set_other by congruence. now apply jsmap_get_none.
  - apply jsmap_get_set_same.
Qed.

Lemma X25_witness :
  JsMap.size
    (TtlCache.cacheSet 2 9 "b" 3%nat 100
       (TtlCache.cacheSet 2 1 "b" 2%nat 100 (TtlCache.cacheSet 2 0 "a" 1%nat 100 [])))
  = (2 - 1)%nat
  /\ JsMap.get "a"
       (TtlCache.cacheSet 2 9 "b" 3%nat 100
          (TtlCache.cacheSet 2 1 "b" 2%nat 100 (TtlCache.cacheSet 2 0 "a" 1%nat 100 [])))
     = None
  /\ JsMap.get "b"
       (TtlCache.cacheSet 2 9 "b" 3%nat 100
          (TtlCache.cacheSet 2 1 "b" 2%nat 100 (TtlCache.cacheSet 2 0 "a" 1%nat 100 [])))
     = Some (TtlCache.mkEntry 3%nat (9 + 100)%Z).
Proof.
  assert (Hmax : (1 <= 2)%nat) by lia.
  apply (@X25_overwrite_at_capacity_evicts
           nat 2
           (TtlCache.cacheSet 2 1 "b" 2%nat 100 (TtlCache.cacheSet 2 0 "a" 1%nat 100 []))
           "a"%string (TtlCache.mkEntry 1%nat 100)
           [("b"%string, TtlCache.mkEntry 2%nat 101)] 9 "b"%string 3%nat 100 Hmax).
  - apply bounded_cacheSet; [exact Hmax | discriminate|].
    apply bounded_cacheSet; [exact Hmax | discriminate|].
    now apply bounded_empty.
  - reflexivity.
  - reflexivity.
  - discriminate.
  - discriminate.
Defined.

(** ** Asking again for recommendations *)

Lemma afterPlace_requests
      (rt : Runtime) (env : NominatimService.Env)
      (ps1 ps2 : FoursquareService.FsqParams ->
                 FoursquareService.PlaceSearchOutcome)
      (input : foursquareByPlaceTool.Input) (nomi : Outcome ToolResult) :
  snd (ChainedSteps.afterPlace rt env ps2 input nomi)
  = snd (ChainedSteps.afterPlace rt env ps1 input nomi)
  /\ ((forall p, ps2 p = ps1 p) ->
      ChainedSteps.afterPlace rt env ps2 input nomi
      = ChainedSteps.afterPlace rt env ps1 input nomi).
Proof.
  unfold ChainedSteps.afterPlace. cbn zeta.
  destruct nomi as [[data src|error status]|]; try (split; reflexivity).
  destruct (features data) as [|first rest]; try (split; reflexivity).
  destruct (ChainedGeo.centroid (geometry first)) as [[lng lat]|];
    try (split; reflexivity).
  unfold FoursquareService.fsqSearch.
  destruct (negb (truthy_opt_string (NominatimService.FOURSQUARE_API_KEY env)));
    [split; reflexivity|].
  split.
  - destruct (ps2 _) as [results|message];
      [destruct (fsqResultsToGeoJSON results)|];
      (destruct (ps1 _) as [results1|message1];
       [destruct (fsqResultsToGeoJSON results1)|]); reflexivity.
  - intros Hps. now rewrite Hps.
Qed.

(** X26.  After the chained resolver got a result from the Place
    Resolver, that result is in the cache; when the resolver is asked
    again for the same place while the entry is still in the cache (300
    other places can evict it) and has not expired, Nominatim is not
    asked again and the cache stays as it is, whereas Foursquare is
    sent the same request once more: its answers are not kept.  With
    the same answer from Foursquare the result is the same. *)
Theorem X26_repeated_recommendations
        (rt : Runtime) (env : NominatimService.Env)
        (w1 : NominatimService.World)
        (placeSearch1 : FoursquareService.FsqParams ->
                        FoursquareService.PlaceSearchOutcome)
        (input : foursquareByPlaceTool.Input) (cache : NominatimService.Cache)
        (res : ToolResult) :
  let run1 := foursquareByPlaceTool.execute rt env w1 placeSearch1 input cache in
  let key := NominatimService.cacheKey
               rt (foursquareByPlaceTool.placeArgs
                     (foursquareByPlaceTool.place input)) in
  fst (fst (NominatimService.runNominatimSearch
              rt env w1
              (foursquareByPlaceTool.placeArgs (foursquareByPlaceTool.place input))
              cache))
  = Returned res ->
  exists e,
    JsMap.get key (foursquareByPlaceTool.cacheAfterRun run1) = Some e
    /\ forall (w2 : NominatimService.World)
              (placeSearch2 : FoursquareService.FsqParams ->
                              FoursquareService.PlaceSearchOutcome)
              (cache2 : NominatimService.Cache),
        JsMap.get key cache2 = Some e ->
        (NominatimService.now w2 <= TtlCache.expires e)%Z ->
        let run2 :=
          foursquareByPlaceTool.execute rt env w2 placeSearch2 input cache2 in
        foursquareByPlaceTool.nominatimEvents run2 = []
        /\ foursquareByPlaceTool.cacheAfterRun run2 = cache2
        /\ foursquareByPlaceTool.fsqRequests run2
           = foursquareByPlaceTool.fsqRequests run1
        /\ ((forall p, placeSearch2 p = placeSearch1 p) ->
            foursquareByPlaceTool.result run2
            = foursquareByPlaceTool.result run1).
Proof.
  cbn zeta. intros Hres.
  destruct (@runNominatimSearch_stored
              rt env w1
              (foursquareByPlaceTool.placeArgs (foursquareByPlaceTool.place input))
              cache res Hres) as (e & Hget & Hv & _).
  rewrite (execute_afterPlace rt env w1). cbn zeta.
  cbn [foursquareByPlaceTool.cacheAfterRun foursquareByPlaceTool.fsqRequests
       foursquareByPlaceTool.result].
  exists e. split; [exact Hget|].
  intros w2 placeSearch2 cache2 Hget2 Hle.
  rewrite (execute_afterPlace rt env w2). cbn zeta.
  rewrite (runNominatimSearch_again rt env w2 _ _ Hget2 Hle), Hv, Hres.
  cbn [fst snd foursquareByPlaceTool.cacheAfterRun
       foursquareByPlaceTool.fsqRequests foursquareByPlaceTool.result
       foursquareByPlaceTool.nominatimEvents].
  destruct (afterPlace_requests rt env placeSearch1 placeSearch2 input
                                (Returned res)) as [Hreq Hsame].
  split; [reflexivity|]. split; [reflexivity|]. split; [exact Hreq|].
  intros Hps. now rewrite (Hsame Hps).
Qed.

(** Asked for "Jurong Point", then for "Bugis", then for "Jurong Point"
    again: the third run finds the first entry and sends Nominatim
    nothing. *)
Lemma X26_witness :
  let run1 := foursquareByPlaceTool.execute
                Examples.rt0 Examples.env0 Examples.world0
                Examples.placeSearch0 Examples.input0 [] in
  let run2 := foursquareByPlaceTool.execute
                Examples.rt0 Examples.env0 Examples.world0
                Examples.placeSearch0 MoreExamples.inputBugis
                (foursquareByPlaceTool.cacheAfterRun run1) in
  let run3 := foursquareByPlaceTool.execute
                Examples.rt0 Examples.env0 Examples.world0
                Examples.placeSearch0 Examples.input0
                (foursquareByPlaceTool.cacheAfterRun run2) in
  foursquareByPlaceTool.nominatimEvents run2 <> []
  /\ foursquareByPlaceTool.nominatimEvents run3 = []
  /\ foursquareByPlaceTool.fsqRequests run3
     = foursquareByPlaceTool.fsqRequests run1.
Proof.
  cbv zeta.
  destruct (@X26_repeated_recommendations
              Examples.rt0 Examples.env0 Examples.world0 Examples.placeSearch0
              Examples.input0 []
              (Ok (toFeatureCollection Examples.rt0 [Examples.polygonRow])
                  SrcNominatim)
              eq_refl) as (e & He & H).
  split; [vm_compute; discriminate|].
  assert (Hget :
            JsMap.get
              (NominatimService.cacheKey
                 Examples.rt0 (foursquareByPlaceTool.placeArgs "Jurong Point"))
              (foursquareByPlaceTool.cacheAfterRun
                 (foursquareByPlaceTool.execute
                    Examples.rt0 Examples.env0 Examples.world0
                    Examples.placeSearch0 MoreExamples.inputBugis
                    (foursquareByPlaceTool.cacheAfterRun
                       (foursquareByPlaceTool.execute
                          Examples.rt0 Examples.env0 Examples.world0
                          Examples.placeSearch0 Examples.input0 []))))
            = Some e).
  { rewrite <- He. reflexivity. }
  assert (Hle : (NominatimService.now Examples.world0 <= TtlCache.expires e)%Z).
  { cbn in He. injection He as <-. cbn. lia. }
  destruct (H Examples.world0 Examples.placeSearch0 _ Hget Hle)
    as (H1 & _ & H3 & _).
  split; [exact H1 | exact H3].
Defined.
